(** * The cart state engine of cart-refactored-functional.js

    A shallow embedding of the pure cart functions of
    [src/cart-refactored-functional.js] and of the hydration path
    ([safeGetFromStorage], [loadCartFromStorage]), followed by the
    properties the specification states about them.

    Three views of the data are used:

    - the engine on JavaScript numbers (module [B64]): the typed view of
      the JSDoc typedefs ([CartItem], [CartState], [Product]) with prices
      and quantities as binary64 numbers, and [+], [*], [<=], [>=] as the
      binary64 operations (module [Binary64]): sums round, [2^53 + 1] is
      [2^53], and a quantity can be a fraction, an infinity or NaN;

    - the integer view of that engine (the top-level [CartItem],
      [CartState], [addItemToCart], ...): the same functions with prices and
      quantities in [Z].  It agrees with the engine on JavaScript numbers as
      long as every number involved is an integer of magnitude at most
      [2^53] (lemmas [view_add], [view_remove], [view_update], [count_exact],
      [subtotal_exact]), and it is what the structural properties (which
      line items stay, in which order, with which fields) are proved on;

    - the untyped view of whatever [JSON.parse] hands back from local
      storage ([Js.value]): the validators [isValidCartItem] and
      [isValidCartState] inspect it with [typeof], [&&] and property reads,
      so they are modelled over JavaScript values, with property reads on
      [undefined] and [null] raising. *)

From Stdlib Require Import ZArith Bool Lia.
From stdpp Require Import base list strings.

Local Open Scope Z_scope.
Set Warnings "-register-all,-clear-no-such-hyp".

(** ** Constants *)

Module STORAGE_KEYS.
Definition CART : string := "shoppingCart".
End STORAGE_KEYS.

Module SHIPPING_CONFIG.
Definition FREE_SHIPPING_THRESHOLD : Z := 5000.
Definition SHIPPING_FEE : Z := 100.
End SHIPPING_CONFIG.

(** ** Typed data model (the JSDoc typedefs), integer view *)

Module Product.
Record t : Type := mk {
  id : string;
  name : string;
  price : Z;
  image : string;
  description : string
}.
End Product.

Module CartItem.
Record t : Type := mk {
  id : string;
  name : string;
  price : Z;
  image : string;
  quantity : Z
}.

(** [{ ...item, quantity: q }] *)
Definition with_quantity (item : t) (q : Z) : t :=
  mk (id item) (name item) (price item) (image item) q.
End CartItem.

Record CartState : Type := mkCartState { items : list CartItem.t }.

(** ** Pure functions of the engine, integer view *)

Definition createEmptyCart : CartState := {| items := [] |}.

(** [items.reduce((total, item) => total + item.quantity, 0)] *)
Definition calculateTotalCount (items : list CartItem.t) : Z :=
  fold_left (fun total item => total + CartItem.quantity item) items 0.

(** [items.reduce((total, item) => total + (item.price * item.quantity), 0)] *)
Definition calculateTotalPrice (items : list CartItem.t) : Z :=
  fold_left
    (fun total item => total + CartItem.price item * CartItem.quantity item)
    items 0.

Definition calculateShippingFee (totalPrice : Z) : Z :=
  if SHIPPING_CONFIG.FREE_SHIPPING_THRESHOLD <=? totalPrice
  then 0
  else SHIPPING_CONFIG.SHIPPING_FEE.

Definition calculateFinalTotal (totalPrice shippingFee : Z) : Z :=
  totalPrice + shippingFee.

Record DerivedData : Type := mkDerivedData {
  totalCount : Z;
  totalPrice : Z;
  shippingFee : Z;
  finalTotal : Z
}.

Definition calculateCartDerivedData (cartState : CartState) : DerivedData :=
  let totalCount := calculateTotalCount (items cartState) in
  let totalPrice := calculateTotalPrice (items cartState) in
  let shippingFee := calculateShippingFee totalPrice in
  let finalTotal := calculateFinalTotal totalPrice shippingFee in
  mkDerivedData totalCount totalPrice shippingFee finalTotal.

(** [items.find(item => item.id === productId)] *)
Definition findCartItemById (items : list CartItem.t) (productId : string)
  : option CartItem.t :=
  List.find (fun item => String.eqb (CartItem.id item) productId) items.

Definition createCartItem (product : Product.t) (quantity : Z) : CartItem.t :=
  CartItem.mk (Product.id product) (Product.name product)
              (Product.price product) (Product.image product) quantity.

Definition addItemToCart (cartState : CartState) (product : Product.t)
  : CartState :=
  match findCartItemById (items cartState) (Product.id product) with
  | Some _ =>
      let updatedItems :=
        List.map
          (fun item =>
             if String.eqb (CartItem.id item) (Product.id product)
             then CartItem.with_quantity item (CartItem.quantity item + 1)
             else item)
          (items cartState) in
      {| items := updatedItems |}
  | None =>
      let newItem := createCartItem product 1 in
      let updatedItems := items cartState ++ [newItem] in
      {| items := updatedItems |}
  end.

Definition removeItemFromCart (cartState : CartState) (productId : string)
  : CartState :=
  let updatedItems :=
    List.filter
      (fun item => negb (String.eqb (CartItem.id item) productId))
      (items cartState) in
  {| items := updatedItems |}.

Definition updateItemQuantity
  (cartState : CartState) (productId : string) (newQuantity : Z)
  : CartState :=
  if newQuantity <=? 0 then removeItemFromCart cartState productId
  else
    let updatedItems :=
      List.map
        (fun item =>
           if String.eqb (CartItem.id item) productId
           then CartItem.with_quantity item newQuantity
           else item)
        (items cartState) in
    {| items := updatedItems |}.

Definition clearCart (cartState : CartState) : CartState := createEmptyCart.

(** The derived readings of a state, as [calculateCartDerivedData] and the
    public getters ([getCartItemCount], [getCartTotalPrice]) compute them. *)
Definition stateTotalCount (s : CartState) : Z :=
  totalCount (calculateCartDerivedData s).
Definition stateSubtotal (s : CartState) : Z :=
  totalPrice (calculateCartDerivedData s).
Definition stateShippingFee (s : CartState) : Z :=
  shippingFee (calculateCartDerivedData s).
Definition stateGrandTotal (s : CartState) : Z :=
  finalTotal (calculateCartDerivedData s).

(** The ids of a state, in order. *)
Definition ids (s : CartState) : list string :=
  List.map CartItem.id (items s).

(** Some line item carries the given id. *)
Definition hasId (s : CartState) (productId : string) : bool :=
  existsb (fun item => String.eqb (CartItem.id item) productId) (items s).

(** ** Untyped data: JavaScript values

    What [JSON.parse] can return, plus [undefined] (the value of a missing
    property) and the non-finite numbers.  A finite number is [m * 2^e], the
    shape of a binary64 value; the validators only test its sign. *)

Module Js.

Inductive number : Type :=
| NaN
| Infinity (negative : bool)
| Finite (m e : Z).

Inductive value : Type :=
| Undefined
| Null
| Bool (b : bool)
| Num (n : number)
| Str (s : string)
| Arr (elems : list value)
| Obj (props : list (string * value)).

Inductive error : Type :=
| TypeError (msg : string)
| SyntaxError (msg : string)
| StorageError (msg : string).

(** A computation either returns or throws. *)
Inductive result (A : Type) : Type :=
| Ok (a : A)
| Throw (e : error).
Arguments Ok {A} a.
Arguments Throw {A} e.

Definition bind {A B} (c : result A) (k : A -> result B) : result B :=
  match c with
  | Ok a => k a
  | Throw e => Throw e
  end.

(** [try { body } catch (error) { handler }] *)
Definition try_catch {A} (body : result A) (handler : error -> result A)
  : result A :=
  match body with
  | Ok a => Ok a
  | Throw e => handler e
  end.

Definition typeof (v : value) : string :=
  match v with
  | Undefined => "undefined"
  | Null => "object"
  | Bool _ => "boolean"
  | Num _ => "number"
  | Str _ => "string"
  | Arr _ => "object"
  | Obj _ => "object"
  end.

(** ToBoolean *)
Definition truthy (v : value) : bool :=
  match v with
  | Undefined => false
  | Null => false
  | Bool b => b
  | Num NaN => false
  | Num (Infinity _) => true
  | Num (Finite m _) => negb (m =? 0)
  | Str s => negb (String.eqb s "")
  | Arr _ => true
  | Obj _ => true
  end.

(** [n > 0] on numbers: false for NaN. *)
Definition number_gt_zero (n : number) : bool :=
  match n with
  | NaN => false
  | Infinity negative => negb negative
  | Finite m _ => 0 <? m
  end.

(** [v > 0]; the validators only reach it behind
    [typeof v === 'number']. *)
Definition gt_zero (v : value) : bool :=
  match v with
  | Num n => number_gt_zero n
  | _ => false
  end.

(** The number is a mathematical integer. *)
Definition number_is_integer (n : number) : bool :=
  match n with
  | NaN => false
  | Infinity _ => false
  | Finite m e => (0 <=? e) || (m mod 2 ^ (- e) =? 0)
  end.

Definition isArray (v : value) : bool :=
  match v with
  | Arr _ => true
  | _ => false
  end.

Fixpoint lookup_prop (key : string) (props : list (string * value))
  : value :=
  match props with
  | [] => Undefined
  | (k, v) :: rest => if String.eqb k key then v else lookup_prop key rest
  end.

(** [v.key] for the property names the cart reads ([id], [name],
    [price], [quantity], [items]): a TypeError on [undefined] and [null],
    the own property of an object, [undefined] on anything else. *)
Definition get (v : value) (key : string) : result value :=
  match v with
  | Undefined => Throw (TypeError "Cannot read properties of undefined")
  | Null => Throw (TypeError "Cannot read properties of null")
  | Obj props => Ok (lookup_prop key props)
  | _ => Ok Undefined
  end.

(** [Array.prototype.every]: stops at the first falsy answer. *)
Fixpoint every (callback : value -> result value) (elems : list value)
  : result bool :=
  match elems with
  | [] => Ok true
  | x :: rest =>
      bind (callback x) (fun r =>
      if truthy r then every callback rest else Ok false)
  end.

End Js.

(** ** Binary64 arithmetic

    JavaScript's [+], [*] and comparisons on numbers.  A finite number
    [Finite m e] stands for [m * 2^e]; the result of an operation is the
    exact result rounded to the nearest binary64 value, ties to even (53
    bits of precision, least exponent -1074, overflow to an infinity from
    [2^1024] on), in the canonical form with an odd [m].  The sign of zero
    is not represented: nothing in the cart tells [-0] from [0]. *)

Module Binary64.
Import Js.

(** The odd part of a positive number and the power of two taken out. *)
Fixpoint strip (p : positive) : positive * Z :=
  match p with
  | xO p' => let (q, k) := strip p' in (q, k + 1)
  | _ => (p, 0)
  end.

(** The canonical form of [m * 2^e]: an odd mantissa, or [(0, 0)]. *)
Definition canon (m e : Z) : Z * Z :=
  match m with
  | Z0 => (0, 0)
  | Zpos p => let (q, k) := strip p in (Zpos q, e + k)
  | Zneg p => let (q, k) := strip p in (Zneg q, e + k)
  end.

(** The number of bits of a mantissa. *)
Definition bits (m : Z) : Z := Z.log2 (Z.abs m) + 1.

(** [m / 2^k] rounded to the nearest integer, ties to even
    ([0 <= m], [0 < k]). *)
Definition shift_rne (m k : Z) : Z :=
  let q := m / 2 ^ k in
  let r := m mod 2 ^ k in
  let half := 2 ^ (k - 1) in
  if r <? half then q
  else if half <? r then q + 1
  else if Z.even q then q else q + 1.

(** The binary64 value nearest to [m * 2^e]. *)
Definition round (m e : Z) : number :=
  let (m, e) := canon m e in
  if m =? 0 then Finite 0 0
  else
    let top := e + bits m - 1 in
    let quantum := Z.max (top - 52) (-1074) in
    if quantum <=? e then
      if 1024 <=? top then Infinity (m <? 0) else Finite m e
    else
      let (a, q) := canon (shift_rne (Z.abs m) (quantum - e)) quantum in
      if a =? 0 then Finite 0 0
      else if 1024 <=? q + bits a - 1 then Infinity (m <? 0)
      else Finite (Z.sgn m * a) q.

(** An integer as a number (exact; a binary64 value up to [2^53] in
    magnitude). *)
Definition ofZ (z : Z) : number :=
  let (m, e) := canon z 0 in Finite m e.

Definition zero : number := Finite 0 0.
Definition one : number := Finite 1 0.

(** [x + y] *)
Definition add (x y : number) : number :=
  match x, y with
  | NaN, _ => NaN
  | _, NaN => NaN
  | Infinity a, Infinity b => if Bool.eqb a b then Infinity a else NaN
  | Infinity a, Finite _ _ => Infinity a
  | Finite _ _, Infinity b => Infinity b
  | Finite m1 e1, Finite m2 e2 =>
      let e := Z.min e1 e2 in
      round (m1 * 2 ^ (e1 - e) + m2 * 2 ^ (e2 - e)) e
  end.

(** [x * y] *)
Definition mul (x y : number) : number :=
  match x, y with
  | NaN, _ => NaN
  | _, NaN => NaN
  | Infinity a, Infinity b => Infinity (xorb a b)
  | Infinity a, Finite m _ =>
      if m =? 0 then NaN else Infinity (xorb a (m <? 0))
  | Finite m _, Infinity b =>
      if m =? 0 then NaN else Infinity (xorb (m <? 0) b)
  | Finite m1 e1, Finite m2 e2 => round (m1 * m2) (e1 + e2)
  end.

(** [x < y]; false when either side is NaN. *)
Definition lt (x y : number) : bool :=
  match x, y with
  | NaN, _ => false
  | _, NaN => false
  | Infinity a, Infinity b => a && negb b
  | Infinity a, Finite _ _ => a
  | Finite _ _, Infinity b => negb b
  | Finite m1 e1, Finite m2 e2 =>
      let e := Z.min e1 e2 in
      m1 * 2 ^ (e1 - e) <? m2 * 2 ^ (e2 - e)
  end.

(** [x <= y]; false when either side is NaN. *)
Definition le (x y : number) : bool :=
  match x, y with
  | NaN, _ => false
  | _, NaN => false
  | Infinity a, Infinity b => a || negb b
  | Infinity a, Finite _ _ => a
  | Finite _ _, Infinity b => negb b
  | Finite m1 e1, Finite m2 e2 =>
      let e := Z.min e1 e2 in
      m1 * 2 ^ (e1 - e) <=? m2 * 2 ^ (e2 - e)
  end.

(** [x > y] and [x >= y] *)
Definition gt (x y : number) : bool := lt y x.
Definition ge (x y : number) : bool := le y x.

(** [x === y] on numbers; false when either side is NaN. *)
Definition eqb (x y : number) : bool :=
  match x, y with
  | NaN, _ => false
  | _, NaN => false
  | Infinity a, Infinity b => Bool.eqb a b
  | Infinity _, Finite _ _ => false
  | Finite _ _, Infinity _ => false
  | Finite m1 e1, Finite m2 e2 =>
      let e := Z.min e1 e2 in
      m1 * 2 ^ (e1 - e) =? m2 * 2 ^ (e2 - e)
  end.

(** [-x] and [x - y] *)
Definition opp (x : number) : number :=
  match x with
  | NaN => NaN
  | Infinity negative => Infinity (negb negative)
  | Finite m e => Finite (- m) e
  end.

Definition sub (x y : number) : number := add x (opp y).

End Binary64.

Notation "'do' x <- c ; k" := (Js.bind c (fun x => k))
  (at level 10, x name, c at level 100, k at level 200).

(** ** Validation and hydration *)

Module Raw.
Import Js.

Definition createEmptyCart : value := Obj [("items", Arr [])].

(** [item && typeof item.id === 'string' && ... && item.quantity > 0];
    [&&] answers its left operand when that is falsy. *)
Definition isValidCartItem (item : value) : result value :=
  if truthy item then
    do id <- get item "id" ;
    if String.eqb (typeof id) "string" then
      do name <- get item "name" ;
      if String.eqb (typeof name) "string" then
        do price <- get item "price" ;
        if String.eqb (typeof price) "number" then
          do quantity <- get item "quantity" ;
          if String.eqb (typeof quantity) "number" then
            do quantity' <- get item "quantity" ;
            Ok (Bool (gt_zero quantity'))
          else Ok (Bool false)
        else Ok (Bool false)
      else Ok (Bool false)
    else Ok (Bool false)
  else Ok item.

(** [cartState && Array.isArray(cartState.items) &&
     cartState.items.every(isValidCartItem)] *)
Definition isValidCartState (cartState : value) : result value :=
  if truthy cartState then
    do items <- get cartState "items" ;
    if isArray items then
      do items' <- get cartState "items" ;
      match items' with
      | Arr elems =>
          do b <- every isValidCartItem elems ;
          Ok (Bool b)
      | _ => Throw (TypeError "cartState.items.every is not a function")
      end
    else Ok (Bool false)
  else Ok cartState.

(** The platform the hydration path talks to: [localStorage.getItem]
    (a string, or [null] for a missing key) and [JSON.parse]. Both may
    throw. *)
Record Env : Type := mkEnv {
  localStorage_getItem : string -> result (option string);
  JSON_parse : string -> result value
}.

(** [(key, defaultValue = null) => {
       try { const item = localStorage.getItem(key);
             return item ? JSON.parse(item) : defaultValue; }
       catch (error) { console.warn(...); return defaultValue; } }];
    an omitted or [undefined] default is [null]. *)
Definition safeGetFromStorage (env : Env) (key : string)
  (defaultValue : value) : result value :=
  (* the parameter is declared [defaultValue = null] *)
  let defaultValue :=
    match defaultValue with
    | Undefined => Null
    | _ => defaultValue
    end in
  try_catch
    (do item <- localStorage_getItem env key ;
     match item with
     | Some text =>
         if truthy (Str text) then JSON_parse env text else Ok defaultValue
     | None => Ok defaultValue
     end)
    (fun _ => Ok defaultValue).

(** The default [safeGetFromStorage] falls back to. *)
Definition effectiveDefault (defaultValue : value) : value :=
  match defaultValue with
  | Undefined => Null
  | _ => defaultValue
  end.

Definition loadCartFromStorage (env : Env) : result value :=
  do savedItems <- safeGetFromStorage env STORAGE_KEYS.CART (Arr []) ;
  let cartState := Obj [("items", savedItems)] in
  do valid <- isValidCartState cartState ;
  if truthy valid then Ok cartState else Ok createEmptyCart.

(** A typed cart item and a typed state as the runtime values they are
    (and as [saveCartToStorage] serialises them). *)
Definition ofCartItem (item : CartItem.t) : value :=
  Obj [("id", Str (CartItem.id item));
       ("name", Str (CartItem.name item));
       ("price", Num (Finite (CartItem.price item) 0));
       ("image", Str (CartItem.image item));
       ("quantity", Num (Finite (CartItem.quantity item) 0))].

Definition ofCartState (s : CartState) : value :=
  Obj [("items", Arr (List.map ofCartItem (items s)))].

End Raw.

(** ** The engine as a state machine

    The four transitions [CartManager] drives: [addItem], [removeItem],
    [updateQuantity] and [clear]. *)

Inductive Op : Type :=
| AddItem (product : Product.t)
| RemoveItem (productId : string)
| SetQuantity (productId : string) (quantity : Z)
| Clear.

Definition step (s : CartState) (op : Op) : CartState :=
  match op with
  | AddItem product => addItemToCart s product
  | RemoveItem productId => removeItemFromCart s productId
  | SetQuantity productId quantity => updateItemQuantity s productId quantity
  | Clear => clearCart s
  end.

Definition run (ops : list Op) (s : CartState) : CartState :=
  fold_left step ops s.

(** ** Predicates the properties are stated with *)

(** Every quantity is at least 1 and no id occurs twice. *)
Definition cartInvariant (s : CartState) : Prop :=
  Forall (fun item => 1 <= CartItem.quantity item) (items s) /\ NoDup (ids s).

(** The number of line items carrying an id. *)
Definition countId (s : CartState) (productId : string) : Z :=
  Z.of_nat
    (length
       (List.filter (fun item => String.eqb (CartItem.id item) productId)
                    (items s))).

Inductive AddItemError : Type := ValidationError.

Module Checks.
Import Js.

(** [item.key] where the read cannot raise. *)
Definition field (item : value) (key : string) : value :=
  match item with
  | Obj props => lookup_prop key props
  | _ => Undefined
  end.

Definition isString (v : value) : bool :=
  match v with Str _ => true | _ => false end.

Definition isNonEmptyString (v : value) : bool :=
  match v with Str s => negb (String.eqb s "") | _ => false end.

Definition isNumber (v : value) : bool :=
  match v with Num _ => true | _ => false end.

Definition isPositiveNumber (v : value) : bool :=
  match v with Num n => number_gt_zero n | _ => false end.

Definition isPositiveInteger (v : value) : bool :=
  match v with
  | Num n => number_is_integer n && number_gt_zero n
  | _ => false
  end.

(** [isValid] in the specification's words: a non-empty string id, a
    non-empty string name, a number price, an integer quantity > 0. *)
Definition specValidItem (item : value) : bool :=
  isNonEmptyString (field item "id") &&
  isNonEmptyString (field item "name") &&
  isNumber (field item "price") &&
  isPositiveInteger (field item "quantity").

Definition specIsValid (elems : list value) : bool :=
  forallb specValidItem elems.

(** What the validator accepts: a string id, a string name, a number
    price, a number quantity > 0. *)
Definition acceptedItem (item : value) : bool :=
  isString (field item "id") &&
  isString (field item "name") &&
  isNumber (field item "price") &&
  isPositiveNumber (field item "quantity").

Definition acceptedItems (saved : value) : bool :=
  match saved with
  | Arr elems => forallb acceptedItem elems
  | _ => false
  end.

(** The value the hydration path reads: the parsed text under the cart
    key, or the default [[]] when the key is missing or empty, or reading or
    parsing raises. *)
Definition persistedSnapshot (env : Raw.Env) : value :=
  match Raw.localStorage_getItem env STORAGE_KEYS.CART with
  | Ok (Some text) =>
      if String.eqb text "" then Arr []
      else match Raw.JSON_parse env text with
           | Ok v => v
           | Throw _ => Arr []
           end
  | Ok None => Arr []
  | Throw _ => Arr []
  end.

End Checks.

(** ** Concrete carts, products and stores used in the examples *)

Definition iphone : Product.t :=
  Product.mk "1" "iPhone 15 Pro" 36900 "iphone.png" "A17 Pro".
Definition cheap : Product.t :=
  Product.mk "1" "Cable" 2000 "cable.png" "USB-C".

Definition twoItemCart : CartState :=
  {| items := [CartItem.mk "1" "iPhone 15 Pro" 36900 "iphone.png" 2;
               CartItem.mk "2" "MacBook Air" 35900 "macbook.png" 1] |}.

(** A state with the same id twice, as hydration accepts it. *)
Definition duplicatedCart : CartState :=
  {| items := [CartItem.mk "1" "iPhone 15 Pro" 36900 "iphone.png" 1;
               CartItem.mk "1" "iPhone 15 Pro" 36900 "iphone.png" 2] |}.

(** The callback of [addItemToCart]'s [map]. *)
Definition increment (productId : string) (item : CartItem.t) : CartItem.t :=
  if String.eqb (CartItem.id item) productId
  then CartItem.with_quantity item (CartItem.quantity item + 1)
  else item.

Module Samples.
Import Js Raw.

(** A line item with an empty id. *)
Definition emptyIdItem : value :=
  Obj [("id", Str ""); ("name", Str "iPhone 15 Pro");
       ("price", Num (Finite 36900 0)); ("image", Str "iphone.png");
       ("quantity", Num (Finite 1 0))].

(** A quantity of 1.5, that is 3 * 2^-1. *)
Definition fractionalQuantityItem : value :=
  Obj [("id", Str "1"); ("name", Str "iPhone 15 Pro");
       ("price", Num (Finite 36900 0)); ("image", Str "iphone.png");
       ("quantity", Num (Finite 3 (-1)))].

(** A store whose cart key holds a text that parses to the given value. *)
Definition storeHolding (text : string) (saved : value) : Env :=
  {| localStorage_getItem :=
       fun key => if String.eqb key STORAGE_KEYS.CART then Ok (Some text)
                  else Ok None;
     JSON_parse :=
       fun t => if String.eqb t text then Ok saved
                else Throw (SyntaxError "Unexpected token") |}.

End Samples.

(** ** The engine on binary64 numbers

    The same functions as above with prices and quantities as JavaScript
    numbers and [+], [*], [<=], [>=] as binary64 operations.  The engine
    over [Z] above is its integer view: the two agree as long as every
    number involved is an integer of magnitude at most [2^53]. *)

Module B64.
Import Js.

Module Product.
Record t : Type := mk {
  id : string;
  name : string;
  price : number;
  image : string;
  description : string
}.
End Product.

Module CartItem.
Record t : Type := mk {
  id : string;
  name : string;
  price : number;
  image : string;
  quantity : number
}.

(** [{ ...item, quantity: q }] *)
Definition with_quantity (item : t) (q : number) : t :=
  mk (id item) (name item) (price item) (image item) q.
End CartItem.

Record CartState : Type := mkCartState { items : list CartItem.t }.

Definition createEmptyCart : CartState := {| items := [] |}.

(** [items.reduce((total, item) => total + item.quantity, 0)] *)
Definition calculateTotalCount (items : list CartItem.t) : number :=
  fold_left (fun total item => Binary64.add total (CartItem.quantity item))
            items Binary64.zero.

(** [items.reduce((total, item) => total + (item.price * item.quantity), 0)] *)
Definition calculateTotalPrice (items : list CartItem.t) : number :=
  fold_left
    (fun total item =>
       Binary64.add total
         (Binary64.mul (CartItem.price item) (CartItem.quantity item)))
    items Binary64.zero.

Definition calculateShippingFee (totalPrice : number) : number :=
  if Binary64.ge totalPrice
       (Binary64.ofZ SHIPPING_CONFIG.FREE_SHIPPING_THRESHOLD)
  then Binary64.zero
  else Binary64.ofZ SHIPPING_CONFIG.SHIPPING_FEE.

Definition calculateFinalTotal (totalPrice shippingFee : number) : number :=
  Binary64.add totalPrice shippingFee.

Record DerivedData : Type := mkDerivedData {
  totalCount : number;
  totalPrice : number;
  shippingFee : number;
  finalTotal : number
}.

Definition calculateCartDerivedData (cartState : CartState) : DerivedData :=
  let totalCount := calculateTotalCount (items cartState) in
  let totalPrice := calculateTotalPrice (items cartState) in
  let shippingFee := calculateShippingFee totalPrice in
  let finalTotal := calculateFinalTotal totalPrice shippingFee in
  mkDerivedData totalCount totalPrice shippingFee finalTotal.

(** [items.find(item => item.id === productId)] *)
Definition findCartItemById (items : list CartItem.t) (productId : string)
  : option CartItem.t :=
  List.find (fun item => String.eqb (CartItem.id item) productId) items.

Definition createCartItem (product : Product.t) (quantity : number)
  : CartItem.t :=
  CartItem.mk (Product.id product) (Product.name product)
              (Product.price product) (Product.image product) quantity.

(** The callback of [addItemToCart]'s [map]:
    [item.id === product.id ? { ...item, quantity: item.quantity + 1 }
                            : item] *)
Definition increment (productId : string) (item : CartItem.t) : CartItem.t :=
  if String.eqb (CartItem.id item) productId
  then CartItem.with_quantity item
         (Binary64.add (CartItem.quantity item) Binary64.one)
  else item.

Definition addItemToCart (cartState : CartState) (product : Product.t)
  : CartState :=
  match findCartItemById (items cartState) (Product.id product) with
  | Some _ =>
      let updatedItems :=
        List.map (increment (Product.id product)) (items cartState) in
      {| items := updatedItems |}
  | None =>
      let newItem := createCartItem product Binary64.one in
      let updatedItems := items cartState ++ [newItem] in
      {| items := updatedItems |}
  end.

(** The callback of [removeItemFromCart]'s [filter]:
    [item.id !== productId] *)
Definition otherThan (productId : string) (item : CartItem.t) : bool :=
  negb (String.eqb (CartItem.id item) productId).

Definition removeItemFromCart (cartState : CartState) (productId : string)
  : CartState :=
  let updatedItems := List.filter (otherThan productId) (items cartState) in
  {| items := updatedItems |}.

(** The callback of [updateItemQuantity]'s [map]:
    [item.id === productId ? { ...item, quantity: newQuantity } : item] *)
Definition replaceQuantity (productId : string) (newQuantity : number)
  (item : CartItem.t) : CartItem.t :=
  if String.eqb (CartItem.id item) productId
  then CartItem.with_quantity item newQuantity
  else item.

Definition updateItemQuantity
  (cartState : CartState) (productId : string) (newQuantity : number)
  : CartState :=
  if Binary64.le newQuantity Binary64.zero
  then removeItemFromCart cartState productId
  else
    let updatedItems :=
      List.map (replaceQuantity productId newQuantity) (items cartState) in
    {| items := updatedItems |}.

Definition clearCart (cartState : CartState) : CartState := createEmptyCart.

Definition stateTotalCount (s : CartState) : number :=
  totalCount (calculateCartDerivedData s).
Definition stateSubtotal (s : CartState) : number :=
  totalPrice (calculateCartDerivedData s).
Definition stateShippingFee (s : CartState) : number :=
  shippingFee (calculateCartDerivedData s).
Definition stateGrandTotal (s : CartState) : number :=
  finalTotal (calculateCartDerivedData s).

(** The ids of a state, in order. *)
Definition ids (s : CartState) : list string :=
  List.map CartItem.id (items s).

(** The four transitions. *)
Inductive Op : Type :=
| AddItem (product : Product.t)
| RemoveItem (productId : string)
| SetQuantity (productId : string) (quantity : number)
| Clear.

Definition step (s : CartState) (op : Op) : CartState :=
  match op with
  | AddItem product => addItemToCart s product
  | RemoveItem productId => removeItemFromCart s productId
  | SetQuantity productId quantity => updateItemQuantity s productId quantity
  | Clear => clearCart s
  end.

Definition run (ops : list Op) (s : CartState) : CartState :=
  fold_left step ops s.

(** Every quantity is at least 1 and no id occurs twice. *)
Definition cartInvariant (s : CartState) : Prop :=
  Forall (fun item => Binary64.ge (CartItem.quantity item) Binary64.one = true)
         (items s)
  /\ NoDup (ids s).



(** A quantity [setQuantity] may be given without breaking the invariant:
    at most 0 (a removal) or at least 1. *)
Definition keepsInvariant (op : Op) : Prop :=
  match op with
  | SetQuantity _ quantity =>
      Binary64.le quantity Binary64.zero = true \/
      Binary64.ge quantity Binary64.one = true
  | _ => True
  end.

(** A product as the specification calls well-formed. *)
Definition wellFormedProduct (p : Product.t) : bool :=
  negb (String.eqb (Product.id p) "") &&
  negb (String.eqb (Product.name p) "") &&
  Binary64.gt (Product.price p) Binary64.zero.

(** [addItem] in the specification's words: a malformed product is
    rejected with a validation error, a well-formed one is added. *)
Definition specAddItem (s : CartState) (p : Product.t)
  : AddItemError + CartState :=
  if wellFormedProduct p then inr (addItemToCart s p) else inl ValidationError.

(** A line item and a state as runtime values. *)
Definition ofCartItem (item : CartItem.t) : value :=
  Obj [("id", Str (CartItem.id item));
       ("name", Str (CartItem.name item));
       ("price", Num (CartItem.price item));
       ("image", Str (CartItem.image item));
       ("quantity", Num (CartItem.quantity item))].

Definition ofCartState (s : CartState) : value :=
  Obj [("items", Arr (List.map ofCartItem (items s)))].

End B64.

(** ** The integer view of a binary64 state *)

Module View.

(** The line item [b] has the id and the integer quantity of [a] (and its
    integer price, when [withPrices]). *)
Definition item (withPrices : bool) (b : B64.CartItem.t) (a : CartItem.t)
  : Prop :=
  B64.CartItem.id b = CartItem.id a /\
  B64.CartItem.quantity b = Binary64.ofZ (CartItem.quantity a) /\
  (withPrices = true ->
   B64.CartItem.price b = Binary64.ofZ (CartItem.price a)).

Definition state (withPrices : bool) (s : B64.CartState) (zs : CartState)
  : Prop :=
  Forall2 (item withPrices) (B64.items s) (items zs).

Definition product (withPrices : bool) (p : B64.Product.t) (pz : Product.t)
  : Prop :=
  B64.Product.id p = Product.id pz /\
  (withPrices = true ->
   B64.Product.price p = Binary64.ofZ (Product.price pz)).

(** Prices and quantities are not negative. *)
Definition nonNegative (zs : CartState) : Prop :=
  Forall (fun a => 0 <= CartItem.price a /\ 0 <= CartItem.quantity a)
         (items zs).

End View.

(** ** The product module's validators, and [createCartItem] on untyped
    values *)

Module RawProduct.
Import Js.

(** [product && typeof product.id === 'string' && ... &&
     typeof product.description === 'string' && product.price > 0] *)
Definition isValidProduct (product : value) : result value :=
  if truthy product then
    do id <- get product "id" ;
    if String.eqb (typeof id) "string" then
      do name <- get product "name" ;
      if String.eqb (typeof name) "string" then
        do price <- get product "price" ;
        if String.eqb (typeof price) "number" then
          do image <- get product "image" ;
          if String.eqb (typeof image) "string" then
            do description <- get product "description" ;
            if String.eqb (typeof description) "string" then
              do price' <- get product "price" ;
              Ok (Bool (gt_zero price'))
            else Ok (Bool false)
          else Ok (Bool false)
        else Ok (Bool false)
      else Ok (Bool false)
    else Ok (Bool false)
  else Ok product.

(** [Array.isArray(products) && products.every(isValidProduct)] *)
Definition isValidProductArray (products : value) : result value :=
  match products with
  | Arr elems =>
      do b <- every isValidProduct elems ;
      Ok (Bool b)
  | _ => Ok (Bool false)
  end.

(** [createCartItem] on untyped values:
    [(product, quantity = 1) => ({ id: product.id, name: product.name,
      price: product.price, image: product.image, quantity })];
    the default applies when the argument is [undefined]. *)
Definition createCartItem (product : value) (quantity : value)
  : result value :=
  let quantity :=
    match quantity with
    | Undefined => Num (Finite 1 0)
    | _ => quantity
    end in
  do id <- get product "id" ;
  do name <- get product "name" ;
  do price <- get product "price" ;
  do image <- get product "image" ;
  Ok (Obj [("id", id); ("name", name); ("price", price);
           ("image", image); ("quantity", quantity)]).

(** A typed product as the runtime value it is. *)
Definition ofProduct (p : Product.t) : value :=
  Obj [("id", Str (Product.id p));
       ("name", Str (Product.name p));
       ("price", Num (Finite (Product.price p) 0));
       ("image", Str (Product.image p));
       ("description", Str (Product.description p))].

(** What [isValidProduct] accepts. *)
Definition acceptedProduct (product : value) : bool :=
  Checks.isString (Checks.field product "id") &&
  Checks.isString (Checks.field product "name") &&
  Checks.isNumber (Checks.field product "price") &&
  Checks.isString (Checks.field product "image") &&
  Checks.isString (Checks.field product "description") &&
  Checks.isPositiveNumber (Checks.field product "price").

(** A quantity argument that gives a valid line item: left out, or a
    number greater than 0. *)
Definition quantityArgumentOk (quantity : value) : bool :=
  match quantity with
  | Undefined => true
  | Num n => number_gt_zero n
  | _ => false
  end.

End RawProduct.

(** ** Writing to local storage *)

Module Storage.
Import Js Raw.

(** The contents of [localStorage]: the newest binding of a key comes
    first. *)
Definition Store : Type := list (string * string).

Fixpoint store_get (st : Store) (key : string) : option string :=
  match st with
  | [] => None
  | (k, text) :: rest => if String.eqb k key then Some text else store_get rest key
  end.

Definition store_set (st : Store) (key text : string) : Store :=
  (key, text) :: st.

(** What [window] offers to [changeQuantity]. *)
Inductive Window : Type :=
| NoWindow
| WindowWithoutConfirm
| WindowConfirm (answer : result value).

(** The platform behind the side effects: [JSON.stringify] (the text handed
    to [setItem]), [JSON.parse], the error [localStorage.setItem] raises, if
    any (a full or disabled store), and [window.confirm]. *)
Record Platform : Type := mkPlatform {
  JSON_stringify : value -> result string;
  JSON_parse : string -> result value;
  setItem_error : Store -> string -> string -> option error;
  window : Window
}.

Definition localStorage_setItem (pf : Platform) (st : Store)
  (key text : string) : result Store :=
  match setItem_error pf st key text with
  | Some e => Throw e
  | None => Ok (store_set st key text)
  end.

(** The reading side of a platform and a store. *)
Definition envOf (pf : Platform) (st : Store) : Env :=
  {| localStorage_getItem := fun key => Ok (store_get st key);
     Raw.JSON_parse := JSON_parse pf |}.

(** [try { localStorage.setItem(key, JSON.stringify(value)); return true; }
     catch (error) { console.warn(...); return false; }] *)
Definition safeSetToStorage (pf : Platform) (st : Store) (key : string)
  (v : value) : result (Store * bool) :=
  try_catch
    (do text <- JSON_stringify pf v ;
     do st' <- localStorage_setItem pf st key text ;
     Ok (st', true))
    (fun _ => Ok (st, false)).

(** [safeSetToStorage(STORAGE_KEYS.CART, cartState.items)] *)
Definition saveCartToStorage (pf : Platform) (st : Store) (cartState : value)
  : result (Store * bool) :=
  do items <- get cartState "items" ;
  safeSetToStorage pf st STORAGE_KEYS.CART items.

End Storage.

(** ** CartManager and the public API

    The manager's fields are the cart state and, standing for the browser,
    the store it writes to and the log of what it asked the page to do:
    render the cart, show a notification, ask for a confirmation. *)

Module CartManager.
Import Js Storage.

Inductive Event : Type :=
| Rendered (data : DerivedData) (shown : list CartItem.t) (isEmpty : bool)
| Notified (message : string)
| ConfirmAsked (message : string).

Record t : Type := mk {
  state : CartState;
  store : Store;
  log : list Event
}.

Definition setState (m : t) (s : CartState) : t := mk s (store m) (log m).

Definition emit (m : t) (e : Event) : t :=
  mk (state m) (store m) (log m ++ [e]).

(** [updateCartDisplayInternal(this.state)] *)
Definition updateDisplay (m : t) : t :=
  let derivedData := calculateCartDerivedData (state m) in
  emit m (Rendered derivedData (items (state m))
            (Nat.eqb (length (items (state m))) 0)).

(** [saveCartToStorage(this.state)]; the answer is dropped. *)
Definition saveState (pf : Platform) (m : t) : result t :=
  do saved <- saveCartToStorage pf (store m) (Raw.ofCartState (state m)) ;
  Ok (mk (state m) (fst saved) (log m)).

Definition showNotification (m : t) (message : string) : t :=
  emit m (Notified message).

Definition addItem (pf : Platform) (m : t) (product : Product.t) : result t :=
  let m := setState m (addItemToCart (state m) product) in
  do m <- saveState pf m ;
  let m := updateDisplay m in
  Ok (showNotification m (Product.name product ++ " 已添加到購物車")).

Definition removeItem (pf : Platform) (m : t) (productId : string)
  : result t :=
  let item := findCartItemById (items (state m)) productId in
  let m := setState m (removeItemFromCart (state m) productId) in
  do m <- saveState pf m ;
  let m := updateDisplay m in
  match item with
  | Some _ => Ok (showNotification m "商品已從購物車移除")
  | None => Ok m
  end.

Definition updateQuantity (pf : Platform) (m : t) (productId : string)
  (quantity : Z) : result t :=
  let m := setState m (updateItemQuantity (state m) productId quantity) in
  do m <- saveState pf m ;
  Ok (updateDisplay m).

Definition clear (pf : Platform) (m : t) : result t :=
  let m := setState m (clearCart (state m)) in
  do m <- saveState pf m ;
  let m := updateDisplay m in
  Ok (showNotification m "購物車已清空").

(** [this.state = createEmptyCart(); localStorage.clear();
     this.updateDisplay();] *)
Definition reset (m : t) : t :=
  updateDisplay (mk createEmptyCart [] (log m)).

(** The loop of [changeQuantity]: the first line item whose id is the one
    asked for. *)
Definition firstWithId (list : list CartItem.t) (productId : string)
  : option CartItem.t :=
  fold_left
    (fun itemLike item =>
       match itemLike with
       | Some found => Some found
       | None =>
           if String.eqb (CartItem.id item) productId then Some item else None
       end)
    list None.

(** [go] after the [window.confirm] dance; the dialog is shown only when
    [window.confirm] is a function. *)
Definition askToDelete (pf : Platform) (m : t) : t * bool :=
  match window pf with
  | NoWindow => (m, true)
  | WindowWithoutConfirm => (m, true)
  | WindowConfirm answer =>
      let m := emit m (ConfirmAsked "你確定要刪除嗎？") in
      match answer with
      | Throw _ => (m, true)
      | Ok Undefined => (m, true)
      | Ok go => (m, truthy go)
      end
  end.

Definition changeQuantity (pf : Platform) (m : t) (productId : string)
  (quantity : Z) : result t :=
  let list := items (state m) in
  let itemLike := firstWithId list productId in
  let guarded :=
    match itemLike with
    | Some item =>
        ((CartItem.quantity item =? 1) || (CartItem.quantity item <? 1))
        && negb (0 <? quantity)
    | None => false
    end in
  if guarded then
    let (m, go) := askToDelete pf m in
    if negb go then Ok m
    else updateQuantity pf m productId quantity
  else updateQuantity pf m productId quantity.

(** The operations the page triggers. *)
Inductive Call : Type :=
| CallAdd (product : Product.t)
| CallRemove (productId : string)
| CallChange (productId : string) (quantity : Z)
| CallClear.

Definition call (pf : Platform) (m : t) (c : Call) : result t :=
  match c with
  | CallAdd product => addItem pf m product
  | CallRemove productId => removeItem pf m productId
  | CallChange productId quantity => changeQuantity pf m productId quantity
  | CallClear => clear pf m
  end.

Fixpoint calls (pf : Platform) (m : t) (cs : list Call) : result t :=
  match cs with
  | [] => Ok m
  | c :: rest =>
      do m <- call pf m c ;
      calls pf m rest
  end.

End CartManager.

(** ** Predicates and samples for the manager *)

Module Sync.
Import Js Storage CartManager.

(** The [items] array of a typed state as a runtime value. *)
Definition itemsValue (s : CartState) : value :=
  Arr (List.map Raw.ofCartItem (items s)).

(** The store after [safeSetToStorage] was handed the items of a state. *)
Definition savedStore (pf : Platform) (st : Store) (s : CartState) : Store :=
  match JSON_stringify pf (itemsValue s) with
  | Ok text =>
      match setItem_error pf st STORAGE_KEYS.CART text with
      | None => store_set st STORAGE_KEYS.CART text
      | Some _ => st
      end
  | Throw _ => st
  end.

(** What the page was last asked to render. *)
Definition lastRendered (log : list Event) : option Event :=
  fold_left
    (fun last e =>
       match e with
       | Rendered _ _ _ => Some e
       | _ => last
       end)
    log None.

Definition rendering (s : CartState) : Event :=
  Rendered (calculateCartDerivedData s) (items s)
           (Nat.eqb (length (items s)) 0).

(** The page shows the current state. *)
Definition displaySynced (m : CartManager.t) : Prop :=
  lastRendered (log m) = Some (rendering (state m)).

(** The store holds the serialisation of the current state. *)
Definition storeSynced (pf : Platform) (m : CartManager.t) : Prop :=
  exists text,
    JSON_stringify pf (itemsValue (state m)) = Ok text /\
    store_get (store m) STORAGE_KEYS.CART = Some text.

(** A platform on which serialising and storing never raise. *)
Definition reliable (pf : Platform) : Prop :=
  (forall v, exists text, JSON_stringify pf v = Ok text) /\
  (forall st key text, setItem_error pf st key text = None).

(** The user turned the confirmation down: [window.confirm] answered a
    falsy value other than [undefined]. *)
Definition declines (pf : Platform) : bool :=
  match window pf with
  | WindowConfirm (Ok Undefined) => false
  | WindowConfirm (Ok go) => negb (truthy go)
  | _ => false
  end.

(** The engine transition behind a call. *)
Definition opOf (c : Call) : Op :=
  match c with
  | CallAdd product => AddItem product
  | CallRemove productId => RemoveItem productId
  | CallChange productId quantity => SetQuantity productId quantity
  | CallClear => Clear
  end.

Definition isRendered (e : Event) : bool :=
  match e with
  | Rendered _ _ _ => true
  | _ => false
  end.

Definition isNotified (e : Event) : bool :=
  match e with
  | Notified _ => true
  | _ => false
  end.

(** [changeQuantity] wants a confirmation: the first line item with the id
    has a quantity of at most 1 and the quantity asked for is not above 0. *)
Definition needsConfirmation (s : CartState) (productId : string)
  (quantity : Z) : bool :=
  match findCartItemById (items s) productId with
  | Some item => (CartItem.quantity item <=? 1) && (quantity <=? 0)
  | None => false
  end.

(** [window.confirm] is there to be called. *)
Definition canAsk (pf : Platform) : bool :=
  match window pf with
  | WindowConfirm _ => true
  | _ => false
  end.

(** A platform that serialises everything to one text, parses that text to
    one value, never fails to store, and has the given [window]. *)
Definition platformFor (text : string) (saved : value) (w : Window)
  : Platform :=
  {| JSON_stringify := fun _ => Ok text;
     JSON_parse :=
       fun t => if String.eqb t text then Ok saved
                else Throw (SyntaxError "Unexpected token");
     setItem_error := fun _ _ _ => None;
     window := w |}.

(** A manager just after [reset], with a store that holds one text. *)
Definition freshManager (text : string) : CartManager.t :=
  CartManager.mk createEmptyCart [(STORAGE_KEYS.CART, text)]
                 [rendering createEmptyCart].



End Sync.

(** ** Sample carts on binary64 numbers *)

Module Samples64.
Import Js.

Definition iphone : B64.Product.t :=
  B64.Product.mk "1" "iPhone 15 Pro" (Binary64.ofZ 36900) "iphone.png"
                 "A17 Pro".

Definition macbook : B64.Product.t :=
  B64.Product.mk "2" "MacBook Air" (Binary64.ofZ 35900) "macbook.png" "M2".

Definition twoItemCart : B64.CartState :=
  {| B64.items :=
       [B64.CartItem.mk "1" "iPhone 15 Pro" (Binary64.ofZ 36900)
                        "iphone.png" (Binary64.ofZ 2);
        B64.CartItem.mk "2" "MacBook Air" (Binary64.ofZ 35900)
                        "macbook.png" (Binary64.ofZ 1)] |}.

(** One line item with a quantity of [2^53]. *)
Definition saturatedCart : B64.CartState :=
  {| B64.items :=
       [B64.CartItem.mk "1" "iPhone 15 Pro" (Binary64.ofZ 36900)
                        "iphone.png" (Binary64.ofZ (2 ^ 53))] |}.

(** Distinct ids, quantities [2^53] and 1. *)
Definition largeAndOne : B64.CartState :=
  {| B64.items :=
       [B64.CartItem.mk "1" "iPhone 15 Pro" (Binary64.ofZ 36900)
                        "iphone.png" (Binary64.ofZ (2 ^ 53));
        B64.CartItem.mk "2" "MacBook Air" (Binary64.ofZ 35900)
                        "macbook.png" (Binary64.ofZ 1)] |}.

(** The same id twice, as hydration accepts it. *)
Definition duplicatedCart : B64.CartState :=
  {| B64.items :=
       [B64.CartItem.mk "1" "iPhone 15 Pro" (Binary64.ofZ 36900)
                        "iphone.png" (Binary64.ofZ 1);
        B64.CartItem.mk "1" "iPhone 15 Pro" (Binary64.ofZ 36900)
                        "iphone.png" (Binary64.ofZ 2)] |}.



(** A product with an empty id, an empty name and a negative price. *)
Definition malformedProduct : B64.Product.t :=
  B64.Product.mk "" "" (Binary64.ofZ (-5)) "" "".

(** 0.5 *)
Definition half : number := Finite 1 (-1).

End Samples64.

(** ** CartManager and the public API on binary64 numbers

    The manager of the browser: its state holds JavaScript numbers, and
    [changeQuantity] takes any number. *)

Module Manager64.
Import Js Storage.

Inductive Event : Type :=
| Rendered (data : B64.DerivedData) (shown : list B64.CartItem.t)
           (isEmpty : bool)
| Notified (message : string)
| ConfirmAsked (message : string).

Record t : Type := mk {
  state : B64.CartState;
  store : Store;
  log : list Event
}.

Definition setState (m : t) (s : B64.CartState) : t := mk s (store m) (log m).

Definition emit (m : t) (e : Event) : t :=
  mk (state m) (store m) (log m ++ [e]).

(** [updateCartDisplayInternal(this.state)] *)
Definition updateDisplay (m : t) : t :=
  let derivedData := B64.calculateCartDerivedData (state m) in
  emit m (Rendered derivedData (B64.items (state m))
            (Nat.eqb (length (B64.items (state m))) 0)).

(** [saveCartToStorage(this.state)]; the answer is dropped. *)
Definition saveState (pf : Platform) (m : t) : result t :=
  do saved <- saveCartToStorage pf (store m) (B64.ofCartState (state m)) ;
  Ok (mk (state m) (fst saved) (log m)).

Definition showNotification (m : t) (message : string) : t :=
  emit m (Notified message).

Definition addItem (pf : Platform) (m : t) (product : B64.Product.t)
  : result t :=
  let m := setState m (B64.addItemToCart (state m) product) in
  do m <- saveState pf m ;
  let m := updateDisplay m in
  Ok (showNotification m (B64.Product.name product ++ " 已添加到購物車")).

Definition removeItem (pf : Platform) (m : t) (productId : string)
  : result t :=
  let item := B64.findCartItemById (B64.items (state m)) productId in
  let m := setState m (B64.removeItemFromCart (state m) productId) in
  do m <- saveState pf m ;
  let m := updateDisplay m in
  match item with
  | Some _ => Ok (showNotification m "商品已從購物車移除")
  | None => Ok m
  end.

Definition updateQuantity (pf : Platform) (m : t) (productId : string)
  (quantity : number) : result t :=
  let m := setState m (B64.updateItemQuantity (state m) productId quantity) in
  do m <- saveState pf m ;
  Ok (updateDisplay m).

Definition clear (pf : Platform) (m : t) : result t :=
  let m := setState m (B64.clearCart (state m)) in
  do m <- saveState pf m ;
  let m := updateDisplay m in
  Ok (showNotification m "購物車已清空").

(** The loop of [changeQuantity]: the first line item whose id is the one
    asked for. *)
Definition firstWithId (list : list B64.CartItem.t) (productId : string)
  : option B64.CartItem.t :=
  fold_left
    (fun itemLike item =>
       match itemLike with
       | Some found => Some found
       | None =>
           if String.eqb (B64.CartItem.id item) productId
           then Some item else None
       end)
    list None.

(** [go] after the [window.confirm] dance; the dialog is shown only when
    [window.confirm] is a function. *)
Definition askToDelete (pf : Platform) (m : t) : t * bool :=
  match window pf with
  | NoWindow => (m, true)
  | WindowWithoutConfirm => (m, true)
  | WindowConfirm answer =>
      let m := emit m (ConfirmAsked "你確定要刪除嗎？") in
      match answer with
      | Throw _ => (m, true)
      | Ok Undefined => (m, true)
      | Ok go => (m, truthy go)
      end
  end.

(** [itemLike && (itemLike.quantity === 1 || itemLike.quantity < 1)
     && !(quantity > 0)] *)
Definition guarded (itemLike : option B64.CartItem.t) (quantity : number)
  : bool :=
  match itemLike with
  | Some item =>
      (Binary64.eqb (B64.CartItem.quantity item) Binary64.one
       || Binary64.lt (B64.CartItem.quantity item) Binary64.one)
      && negb (Binary64.gt quantity Binary64.zero)
  | None => false
  end.

Definition changeQuantity (pf : Platform) (m : t) (productId : string)
  (quantity : number) : result t :=
  let list := B64.items (state m) in
  let itemLike := firstWithId list productId in
  if guarded itemLike quantity then
    let (m, go) := askToDelete pf m in
    if negb go then Ok m
    else updateQuantity pf m productId quantity
  else updateQuantity pf m productId quantity.



(** The operations the page triggers. *)
Inductive Call : Type :=
| CallAdd (product : B64.Product.t)
| CallRemove (productId : string)
| CallChange (productId : string) (quantity : number)
| CallClear.

Definition call (pf : Platform) (m : t) (c : Call) : result t :=
  match c with
  | CallAdd product => addItem pf m product
  | CallRemove productId => removeItem pf m productId
  | CallChange productId quantity => changeQuantity pf m productId quantity
  | CallClear => clear pf m
  end.

Fixpoint calls (pf : Platform) (m : t) (cs : list Call) : result t :=
  match cs with
  | [] => Ok m
  | c :: rest =>
      do m <- call pf m c ;
      calls pf m rest
  end.

End Manager64.

Module Sync64.
Import Js Storage Manager64.

(** The [items] array of a state as a runtime value. *)
Definition itemsValue (s : B64.CartState) : value :=
  Arr (List.map B64.ofCartItem (B64.items s)).

(** The store after [safeSetToStorage] was handed the items of a state. *)
Definition savedStore (pf : Platform) (st : Store) (s : B64.CartState)
  : Store :=
  match JSON_stringify pf (itemsValue s) with
  | Ok text =>
      match setItem_error pf st STORAGE_KEYS.CART text with
      | None => store_set st STORAGE_KEYS.CART text
      | Some _ => st
      end
  | Throw _ => st
  end.

(** What the page was last asked to render. *)
Definition lastRendered (log : list Event) : option Event :=
  fold_left
    (fun last e =>
       match e with
       | Rendered _ _ _ => Some e
       | _ => last
       end)
    log None.

Definition rendering (s : B64.CartState) : Event :=
  Rendered (B64.calculateCartDerivedData s) (B64.items s)
           (Nat.eqb (length (B64.items s)) 0).

(** The page shows the current state. *)
Definition displaySynced (m : Manager64.t) : Prop :=
  lastRendered (log m) = Some (rendering (state m)).

(** The store holds the serialisation of the current state. *)
Definition storeSynced (pf : Platform) (m : Manager64.t) : Prop :=
  exists text,
    JSON_stringify pf (itemsValue (state m)) = Ok text /\
    store_get (store m) STORAGE_KEYS.CART = Some text.

(** The engine transition behind a call. *)
Definition opOf (c : Call) : B64.Op :=
  match c with
  | CallAdd product => B64.AddItem product
  | CallRemove productId => B64.RemoveItem productId
  | CallChange productId quantity => B64.SetQuantity productId quantity
  | CallClear => B64.Clear
  end.

Definition isRendered (e : Event) : bool :=
  match e with
  | Rendered _ _ _ => true
  | _ => false
  end.

(** A manager just after [reset], with a store that holds one text. *)
Definition freshManager (text : string) : Manager64.t :=
  Manager64.mk B64.createEmptyCart [(STORAGE_KEYS.CART, text)]
               [rendering B64.createEmptyCart].

(** A manager holding a given cart. *)
Definition managerOf (s : B64.CartState) (text : string) : Manager64.t :=
  Manager64.mk s [(STORAGE_KEYS.CART, text)] [rendering s].

End Sync64.

(** The callbacks of [updateItemQuantity]'s [map] and of
    [removeItemFromCart]'s [filter]. *)
Definition replaceQuantity (productId : string) (q : Z) (item : CartItem.t)
  : CartItem.t :=
  if String.eqb (CartItem.id item) productId
  then CartItem.with_quantity item q
  else item.

Definition otherThan (productId : string) (item : CartItem.t) : bool :=
  negb (String.eqb (CartItem.id item) productId).

(** * Properties *)

(** ** Sanity checks on concrete carts *)

Example scenario_iphone_twice :
  let s := updateItemQuantity (addItemToCart createEmptyCart iphone) "1" 2 in
  (stateSubtotal s, stateShippingFee s, stateGrandTotal s) = (73800, 0, 73800).
Proof. reflexivity. Qed.

Example scenario_cheap :
  let s1 := addItemToCart createEmptyCart cheap in
  let s3 := updateItemQuantity s1 "1" 3 in
  (stateSubtotal s1, stateShippingFee s1, stateGrandTotal s1,
   stateSubtotal s3, stateShippingFee s3, stateGrandTotal s3)
  = (2000, 100, 2100, 6000, 0, 6000).
Proof. reflexivity. Qed.

(** ** Helper lemmas on the typed engine *)

Section Sums.
Context {A : Type} (f : A -> Z).

Lemma fold_left_sum_acc (l : list A) (acc : Z) :
  fold_left (fun total x => total + f x) l acc
  = acc + fold_left (fun total x => total + f x) l 0.
Proof.
  revert acc. induction l as [|x l IH]; intros acc; simpl; [lia|].
  rewrite (IH (acc + f x)), (IH (0 + f x)). lia.
Qed.

Lemma fold_left_sum_cons (x : A) (l : list A) :
  fold_left (fun total y => total + f y) (x :: l) 0
  = f x + fold_left (fun total y => total + f y) l 0.
Proof. simpl. rewrite fold_left_sum_acc. lia. Qed.

Lemma fold_left_sum_app (l1 l2 : list A) :
  fold_left (fun total y => total + f y) (l1 ++ l2) 0
  = fold_left (fun total y => total + f y) l1 0
    + fold_left (fun total y => total + f y) l2 0.
Proof. rewrite fold_left_app. apply fold_left_sum_acc. Qed.
End Sums.

Lemma calculateTotalCount_cons (item : CartItem.t) (l : list CartItem.t) :
  calculateTotalCount (item :: l)
  = CartItem.quantity item + calculateTotalCount l.
Proof. apply (fold_left_sum_cons CartItem.quantity). Qed.


Lemma calculateTotalCount_app (l1 l2 : list CartItem.t) :
  calculateTotalCount (l1 ++ l2)
  = calculateTotalCount l1 + calculateTotalCount l2.
Proof. apply (fold_left_sum_app CartItem.quantity). Qed.


(** [find] misses exactly when no line item carries the id. *)
Lemma findCartItemById_None (l : list CartItem.t) (productId : string) :
  findCartItemById l productId = None <-> productId ∉ List.map CartItem.id l.
Proof.
  unfold findCartItemById. induction l as [|item l IH]; simpl.
  - split; [intros _; apply not_elem_of_nil | done].
  - destruct (String.eqb_spec (CartItem.id item) productId) as [Heq|Hne].
    + split; [done|]. intros Hn. exfalso. apply Hn. subst. apply list_elem_of_here.
    + rewrite IH. rewrite not_elem_of_cons. naive_solver.
Qed.

Lemma findCartItemById_Some (l : list CartItem.t) (productId : string)
  (found : CartItem.t) :
  findCartItemById l productId = Some found ->
  found ∈ l /\ CartItem.id found = productId.
Proof.
  unfold findCartItemById. induction l as [|item l IH]; simpl; [done|].
  destruct (String.eqb_spec (CartItem.id item) productId) as [Heq|Hne].
  - intros [= <-]. split; [apply list_elem_of_here | done].
  - intros H. destruct (IH H) as [Hin Hid]. split; [by apply list_elem_of_further | done].
Qed.

Lemma hasId_spec (s : CartState) (productId : string) :
  hasId s productId = true <-> productId ∈ ids s.
Proof.
  unfold hasId, ids. destruct s as [l]; simpl.
  induction l as [|item l IH]; simpl.
  - split; [done | intros H; by apply elem_of_nil in H].
  - rewrite orb_true_iff, IH, elem_of_cons.
    destruct (String.eqb_spec (CartItem.id item) productId); naive_solver.
Qed.

(** Reading a position of a mapped array. *)
Lemma lookup_map {A B : Type} (f : A -> B) (l : list A) (i : nat) :
  List.map f l !! i = f <$> (l !! i).
Proof.
  revert i. induction l as [|x l IH]; intros [|i]; simpl; auto.
Qed.

(** ** C2: the shipping fee and its threshold *)



(** Both boundary subtotals are subtotals of real carts. *)
Example shippingFee_at_the_boundary :
  let at_threshold :=
    addItemToCart createEmptyCart (Product.mk "7" "Case" 5000 "case.png" "") in
  let below :=
    addItemToCart createEmptyCart (Product.mk "8" "Case" 4999 "case.png" "") in
  (stateSubtotal at_threshold, stateShippingFee at_threshold,
   stateSubtotal below, stateShippingFee below) = (5000, 0, 4999, 100).
Proof. reflexivity. Qed.

(** ** C3: setQuantity *)



(** Removing an id that is not in the cart changes nothing either, so the
    two sides of C3's first clause agree on absent ids too. *)
Lemma removeItemFromCart_absent (s : CartState) (productId : string) :
  productId ∉ ids s -> removeItemFromCart s productId = s.
Proof.
  destruct s as [l]. unfold removeItemFromCart, ids. simpl. intros Habsent.
  f_equal. induction l as [|item l IH]; simpl; [done|].
  apply not_elem_of_cons in Habsent as [Hne Hnin].
  destruct (String.eqb_spec (CartItem.id item) productId); [congruence|].
  simpl. by rewrite IH.
Qed.

(** ** The cart invariant in the integer view *)




Lemma removeItemFromCart_drops_id (s : CartState) (productId : string) :
  productId ∉ ids (removeItemFromCart s productId).
Proof.
  unfold removeItemFromCart, ids. simpl.
  induction (items s) as [|item l IH]; simpl; [apply not_elem_of_nil|].
  destruct (String.eqb_spec (CartItem.id item) productId); simpl; [done|].
  apply not_elem_of_cons. split; [congruence | done].
Qed.







(** ** What addItem does to the count and to the subtotal, integer view *)

Lemma addItemToCart_found (s : CartState) (p : Product.t) (e : CartItem.t) :
  findCartItemById (items s) (Product.id p) = Some e ->
  items (addItemToCart s p) = List.map (increment (Product.id p)) (items s).
Proof. intros H. unfold addItemToCart. by rewrite H. Qed.

Lemma addItemToCart_missing (s : CartState) (p : Product.t) :
  findCartItemById (items s) (Product.id p) = None ->
  items (addItemToCart s p) = items s ++ [createCartItem p 1].
Proof. intros H. unfold addItemToCart. by rewrite H. Qed.

Lemma countId_cons (item : CartItem.t) (l : list CartItem.t)
  (productId : string) :
  countId {| items := item :: l |} productId
  = (if String.eqb (CartItem.id item) productId then 1 else 0)
    + countId {| items := l |} productId.
Proof.
  unfold countId. simpl.
  destruct (String.eqb (CartItem.id item) productId); simpl; lia.
Qed.

Lemma countId_nonneg (s : CartState) (productId : string) :
  0 <= countId s productId.
Proof. unfold countId. lia. Qed.

Lemma countId_absent (l : list CartItem.t) (productId : string) :
  productId ∉ List.map CartItem.id l -> countId {| items := l |} productId = 0.
Proof.
  induction l as [|item l IH]; [done|]. simpl.
  rewrite not_elem_of_cons. intros [Hne Hnin]. rewrite countId_cons, IH by done.
  destruct (String.eqb_spec (CartItem.id item) productId); [congruence | done].
Qed.

Lemma countId_NoDup (l : list CartItem.t) (productId : string) :
  NoDup (List.map CartItem.id l) -> countId {| items := l |} productId <= 1.
Proof.
  induction l as [|item l IH]; simpl; [unfold countId; simpl; lia|].
  rewrite NoDup_cons. intros [Hnotin Hnd]. rewrite countId_cons.
  destruct (String.eqb_spec (CartItem.id item) productId) as [<-|Hne].
  - rewrite countId_absent by done. lia.
  - specialize (IH Hnd). lia.
Qed.

Lemma countId_found (l : list CartItem.t) (productId : string)
  (e : CartItem.t) :
  findCartItemById l productId = Some e -> 1 <= countId {| items := l |} productId.
Proof.
  unfold findCartItemById. induction l as [|item l IH]; simpl; [done|].
  rewrite countId_cons.
  destruct (String.eqb (CartItem.id item) productId).
  - intros _. pose proof (countId_nonneg {| items := l |} productId). lia.
  - intros H. specialize (IH H). lia.
Qed.

Lemma calculateTotalCount_increment (l : list CartItem.t) (productId : string) :
  calculateTotalCount (List.map (increment productId) l)
  = calculateTotalCount l + countId {| items := l |} productId.
Proof.
  induction l as [|item l IH]; [reflexivity|]. simpl List.map.
  rewrite !calculateTotalCount_cons, IH, countId_cons. unfold increment.
  destruct (String.eqb (CartItem.id item) productId); simpl; lia.
Qed.

(** The exact effect of [addItemToCart] on the count, duplicates or not:
    every line item carrying the id is incremented. *)
Lemma stateTotalCount_addItemToCart (s : CartState) (p : Product.t) :
  stateTotalCount (addItemToCart s p)
  = stateTotalCount s + Z.max 1 (countId s (Product.id p)).
Proof.
  unfold stateTotalCount. simpl. destruct s as [l]. simpl.
  destruct (findCartItemById l (Product.id p)) as [e|] eqn:Hfind.
  - rewrite (addItemToCart_found {| items := l |} p e Hfind). simpl.
    rewrite calculateTotalCount_increment.
    apply countId_found in Hfind. lia.
  - rewrite (addItemToCart_missing {| items := l |} p Hfind). simpl.
    rewrite calculateTotalCount_app.
    apply findCartItemById_None in Hfind. rewrite countId_absent by done.
    unfold calculateTotalCount at 2. simpl. lia.
Qed.

(** In the integer view, with pairwise distinct ids, adding a product
    raises the total count by exactly 1. *)
Lemma integerView_totalCount_addItemToCart (s : CartState) (p : Product.t)
  (Hdistinct : NoDup (ids s)) :
  stateTotalCount (addItemToCart s p) = stateTotalCount s + 1 /\
  stateTotalCount createEmptyCart = 0.
Proof.
  split; [|reflexivity]. rewrite stateTotalCount_addItemToCart.
  destruct s as [l]. pose proof (countId_NoDup l (Product.id p) Hdistinct).
  pose proof (countId_nonneg {| items := l |} (Product.id p)). lia.
Qed.



(** The stored price wins over the price the product carries. *)
Example subtotal_uses_the_snapshot_price :
  stateSubtotal twoItemCart = 109700 /\
  stateSubtotal
    (addItemToCart twoItemCart (Product.mk "1" "iPhone 15 Pro" 1 "x.png" ""))
  = 109700 + 36900.
Proof. split; reflexivity. Qed.

(** ** C6: what the validators accept *)

Section Validators.
Import Js Raw Checks Samples.

Lemma falsy_not_accepted (item : value) :
  truthy item = false -> acceptedItem item = false.
Proof. destruct item; simpl; try done. Qed.

Lemma isValidCartItem_result (item : value) :
  isValidCartItem item
  = Ok (if truthy item then Bool (acceptedItem item) else item).
Proof.
  unfold isValidCartItem. destruct (truthy item) eqn:Htruthy; [|done].
  destruct item as [| | | | | |props]; simpl in Htruthy;
    try discriminate Htruthy; try reflexivity.
  unfold acceptedItem, field, get, bind.
  destruct (lookup_prop "id" props); try reflexivity.
  destruct (lookup_prop "name" props); try reflexivity.
  destruct (lookup_prop "price" props); try reflexivity.
  destruct (lookup_prop "quantity" props); try reflexivity.
Qed.

Lemma isValidCartItem_true (item : value) :
  isValidCartItem item = Ok (Bool true) <-> acceptedItem item = true.
Proof.
  rewrite isValidCartItem_result. split.
  - destruct (truthy item) eqn:Htruthy.
    + by intros [= ->].
    + intros [= ->]. discriminate Htruthy.
  - intros Hacc. destruct (truthy item) eqn:Htruthy.
    + by rewrite Hacc.
    + apply falsy_not_accepted in Htruthy. congruence.
Qed.

Lemma every_isValidCartItem (elems : list value) :
  every isValidCartItem elems = Ok (forallb acceptedItem elems).
Proof.
  induction elems as [|item elems IH]; [reflexivity|]. simpl.
  rewrite isValidCartItem_result. simpl.
  destruct (truthy item) eqn:Htruthy; simpl.
  - destruct (acceptedItem item); [exact IH | reflexivity].
  - rewrite Htruthy. by rewrite falsy_not_accepted.
Qed.

Lemma isValidCartState_result (cartState : value) :
  isValidCartState cartState
  = Ok (if truthy cartState
        then Bool (acceptedItems (field cartState "items"))
        else cartState).
Proof.
  unfold isValidCartState. destruct (truthy cartState) eqn:Htruthy; [|done].
  destruct cartState as [| | | | | |props]; simpl in Htruthy;
    try discriminate Htruthy; try reflexivity. simpl.
  destruct (lookup_prop "items" props); try reflexivity. simpl.
  by rewrite every_isValidCartItem.
Qed.

Lemma specValidItem_accepted (item : value) :
  specValidItem item = true -> acceptedItem item = true.
Proof.
  unfold specValidItem, acceptedItem.
  rewrite !andb_true_iff. intros [[[Hid Hname] Hprice] Hq].
  repeat split; try done.
  - by destruct (field item "id").
  - by destruct (field item "name").
  - destruct (field item "quantity"); try done. simpl in *.
    by apply andb_true_iff in Hq as [_ ?].
Qed.

(** C6, amended. [isValidCartState] never raises, and it answers [true]
    exactly when the state's [items] is an array whose every element has a
    string id, a string name, a number price and a number quantity greater
    than 0; the id and the name may be empty and the quantity need not be an
    integer.  Every array that is valid in the specification's stricter
    sense is accepted. *)
Theorem isValidCartState_accepts (cartState : value) :
  (exists r : value,
     isValidCartState cartState = Ok r /\
     (r = Bool true <->
      exists elems : list value,
        field cartState "items" = Arr elems /\
        forall item, item ∈ elems -> acceptedItem item = true)) /\
  (forall elems : list value,
     isValidCartState (Obj [("items", Arr elems)])
     = Ok (Bool (forallb acceptedItem elems)) /\
     (specIsValid elems = true -> forallb acceptedItem elems = true)).
Proof.
  split.
  - rewrite isValidCartState_result. eexists. split; [reflexivity|].
    destruct (truthy cartState) eqn:Htruthy.
    + split.
      * intros [= Hacc]. unfold acceptedItems in Hacc.
        destruct (field cartState "items"); try done.
        exists elems. split; [done|]. intros item Hin.
        rewrite forallb_forall in Hacc. apply Hacc. by apply list_elem_of_In.
      * intros (elems & -> & Hall). simpl. f_equal.
        apply forallb_forall. intros item Hin. apply Hall.
        by apply list_elem_of_In.
    + split.
      * intros ->. discriminate Htruthy.
      * intros (elems & Hfield & _). destruct cartState; done.
  - intros elems. split; [by rewrite isValidCartState_result|].
    unfold specIsValid. rewrite !forallb_forall. intros Hspec item Hin.
    by apply specValidItem_accepted, Hspec.
Qed.

(** C6 as stated fails: a line item with an empty id, and one with a
    quantity of 1.5, make a state the validator accepts although it is not
    valid in the specification's sense. *)
Lemma validator_passes_empty_id_and_fraction :
  isValidCartState (Obj [("items", Arr [emptyIdItem])]) = Ok (Bool true) /\
  specIsValid [emptyIdItem] = false /\
  isValidCartState (Obj [("items", Arr [fractionalQuantityItem])])
  = Ok (Bool true) /\
  specIsValid [fractionalQuantityItem] = false.
Proof. repeat split; reflexivity. Qed.

End Validators.

(** ** C8 and C10: hydration *)

Section Hydration.
Import Js Raw Checks Samples.

Lemma safeGetFromStorage_result (env : Env) :
  safeGetFromStorage env STORAGE_KEYS.CART (Arr [])
  = Ok (persistedSnapshot env).
Proof.
  unfold safeGetFromStorage, persistedSnapshot, try_catch, bind.
  destruct (localStorage_getItem env STORAGE_KEYS.CART) as [[text|]|e];
    try reflexivity.
  simpl. destruct (String.eqb text ""); simpl; [reflexivity|].
  by destruct (JSON_parse env text).
Qed.

Lemma loadCartFromStorage_result (env : Env) :
  loadCartFromStorage env
  = Ok (if acceptedItems (persistedSnapshot env)
        then Obj [("items", persistedSnapshot env)]
        else Raw.createEmptyCart).
Proof.
  unfold loadCartFromStorage. rewrite safeGetFromStorage_result. simpl.
  rewrite isValidCartState_result. simpl.
  by destruct (acceptedItems (persistedSnapshot env)).
Qed.

Lemma acceptedItems_Arr (elems : list value) :
  acceptedItems (Arr elems) = true <->
  forall item, item ∈ elems -> isValidCartItem item = Ok (Bool true).
Proof.
  simpl. rewrite forallb_forall. split.
  - intros H item Hin. apply isValidCartItem_true, H. by apply list_elem_of_In.
  - intros H item Hin. apply isValidCartItem_true, H. by apply list_elem_of_In.
Qed.

(** C8. Hydration never raises.  It checks the value read from storage
    with [isValidCartState]; when the check fails - the value is not an
    array, or some element fails [isValidCartItem] - the result is the empty
    cart, and so it is when the key is missing or empty, when reading raises
    and when the text does not parse; when the check succeeds the result is
    the state whose items are exactly the array that was read. *)
Theorem loadCartFromStorage_validates_or_empties (env : Env) :
  (exists state : value,
     loadCartFromStorage env = Ok state /\
     isValidCartState (Obj [("items", persistedSnapshot env)])
     = Ok (Bool (acceptedItems (persistedSnapshot env))) /\
     state = (if acceptedItems (persistedSnapshot env)
              then Obj [("items", persistedSnapshot env)]
              else Raw.createEmptyCart)) /\
  (forall (text : string) (saved : value),
     localStorage_getItem env STORAGE_KEYS.CART = Ok (Some text) ->
     text <> "" ->
     JSON_parse env text = Ok saved ->
     ((forall elems, saved = Arr elems ->
         (forall item, item ∈ elems -> isValidCartItem item = Ok (Bool true)) ->
         loadCartFromStorage env = Ok (Obj [("items", Arr elems)])) /\
      (forall elems item, saved = Arr elems -> item ∈ elems ->
         isValidCartItem item <> Ok (Bool true) ->
         loadCartFromStorage env = Ok Raw.createEmptyCart) /\
      (isArray saved = false ->
         loadCartFromStorage env = Ok Raw.createEmptyCart))) /\
  (forall (text : string) (e : error),
     localStorage_getItem env STORAGE_KEYS.CART = Ok (Some text) ->
     JSON_parse env text = Throw e ->
     loadCartFromStorage env = Ok Raw.createEmptyCart) /\
  (forall e : error,
     localStorage_getItem env STORAGE_KEYS.CART = Throw e ->
     loadCartFromStorage env = Ok Raw.createEmptyCart) /\
  (localStorage_getItem env STORAGE_KEYS.CART = Ok None ->
   loadCartFromStorage env = Ok Raw.createEmptyCart).
Proof.
  split; [|split; [|split; [|split]]].
  - eexists. split; [apply loadCartFromStorage_result|].
    split; [by rewrite isValidCartState_result | reflexivity].
  - intros text saved Hget Htext Hparse.
    assert (persistedSnapshot env = saved) as Hsnap.
    { unfold persistedSnapshot. rewrite Hget.
      destruct (String.eqb_spec text ""); [done|]. by rewrite Hparse. }
    rewrite loadCartFromStorage_result, Hsnap. split; [|split].
    + intros elems -> Hall. apply acceptedItems_Arr in Hall. by rewrite Hall.
    + intros elems item -> Hin Hbad.
      destruct (acceptedItems (Arr elems)) eqn:Hacc; [|done].
      exfalso. apply Hbad. by apply (proj1 (acceptedItems_Arr elems) Hacc).
    + intros Hna. by destruct saved.
  - intros text e Hget Hparse. rewrite loadCartFromStorage_result.
    unfold persistedSnapshot. rewrite Hget, Hparse.
    by destruct (String.eqb text "").
  - intros e Hget. rewrite loadCartFromStorage_result.
    unfold persistedSnapshot. by rewrite Hget.
  - intros Hget. rewrite loadCartFromStorage_result.
    unfold persistedSnapshot. by rewrite Hget.
Qed.

Example hydrate_garbage :
  loadCartFromStorage (storeHolding "invalid json" Null) = Ok Raw.createEmptyCart
  /\ loadCartFromStorage
       {| localStorage_getItem := fun _ => Ok (Some "invalid json");
          JSON_parse := fun _ => Throw (SyntaxError "Unexpected token") |}
     = Ok Raw.createEmptyCart
  /\ loadCartFromStorage (storeHolding "[null]" (Arr [Null]))
     = Ok Raw.createEmptyCart.
Proof. repeat split; reflexivity. Qed.

Lemma ofCartItem_accepted (item : CartItem.t) :
  acceptedItem (ofCartItem item) = (0 <? CartItem.quantity item).
Proof. reflexivity. Qed.

(** C10. Hydration accepts a snapshot in which two records share an id:
    the two line items of [duplicatedCart] both carry the id "1", each
    passes [isValidCartItem], and from every store whose cart key parses to
    the array of the two, [loadCartFromStorage] returns the state holding
    both, neither the empty cart nor a merged line item. *)
Theorem loadCartFromStorage_accepts_duplicate_ids :
  exists r1 r2 : value,
    [r1; r2] = List.map ofCartItem (items duplicatedCart) /\
    field r1 "id" = Str "1" /\
    field r2 "id" = Str "1" /\
    r1 <> r2 /\
    isValidCartItem r1 = Ok (Bool true) /\
    isValidCartItem r2 = Ok (Bool true) /\
    (forall (env : Env) (text : string),
       localStorage_getItem env STORAGE_KEYS.CART = Ok (Some text) ->
       text <> "" ->
       JSON_parse env text = Ok (Arr [r1; r2]) ->
       loadCartFromStorage env = Ok (Obj [("items", Arr [r1; r2])])) /\
    loadCartFromStorage (storeHolding "[{},{}]" (Arr [r1; r2]))
    = Ok (ofCartState duplicatedCart) /\
    ofCartState duplicatedCart <> Raw.createEmptyCart.
Proof.
  eexists _, _. split; [reflexivity|].
  split; [reflexivity|]. split; [reflexivity|]. split; [discriminate|].
  split; [reflexivity|]. split; [reflexivity|]. split; [|split].
  - intros env text Hget Htext Hparse. rewrite loadCartFromStorage_result.
    assert (persistedSnapshot env
            = Arr (List.map ofCartItem (items duplicatedCart))) as ->.
    { unfold persistedSnapshot. rewrite Hget.
      destruct (String.eqb_spec text ""); [done|]. by rewrite Hparse. }
    reflexivity.
  - reflexivity.
  - discriminate.
Qed.

(** The state hydration returned breaks the uniqueness of ids. *)
Lemma duplicatedCart_not_distinct : ~ NoDup (ids duplicatedCart).
Proof.
  intros H. apply NoDup_cons in H as [Hnotin _]. apply Hnotin.
  apply list_elem_of_here.
Qed.

End Hydration.

(** * Further properties of the engine *)

(** ** Removal, replacement and lookup *)

Lemma items_removeItemFromCart (s : CartState) (productId : string) :
  items (removeItemFromCart s productId)
  = List.filter (otherThan productId) (items s).
Proof. reflexivity. Qed.

Lemma items_updateItemQuantity_pos (s : CartState) (productId : string)
  (q : Z) :
  0 < q ->
  items (updateItemQuantity s productId q)
  = List.map (replaceQuantity productId q) (items s).
Proof.
  intros Hpos. unfold updateItemQuantity.
  assert ((q <=? 0) = false) as -> by (apply Z.leb_gt; lia). reflexivity.
Qed.

Lemma updateItemQuantity_nonpos (s : CartState) (productId : string) (q : Z) :
  q <= 0 -> updateItemQuantity s productId q = removeItemFromCart s productId.
Proof.
  intros Hle. unfold updateItemQuantity. apply Z.leb_le in Hle. by rewrite Hle.
Qed.

Lemma CartState_eq (s1 s2 : CartState) : items s1 = items s2 -> s1 = s2.
Proof. destruct s1, s2. simpl. by intros ->. Qed.

Lemma filter_sublist_items (f : CartItem.t -> bool) (l : list CartItem.t) :
  sublist (List.filter f l) l.
Proof.
  induction l as [|x l IH]; simpl; [constructor|].
  destruct (f x); [by apply sublist_skip | by apply sublist_cons].
Qed.

Lemma filter_filter_same (f : CartItem.t -> bool) (l : list CartItem.t) :
  List.filter f (List.filter f l) = List.filter f l.
Proof.
  induction l as [|x l IH]; simpl; [done|].
  destruct (f x) eqn:Hfx; simpl; [|done]. by rewrite Hfx, IH.
Qed.

Lemma removeItemFromCart_twice (s : CartState) (productId : string) :
  removeItemFromCart (removeItemFromCart s productId) productId
  = removeItemFromCart s productId.
Proof.
  apply CartState_eq. rewrite !items_removeItemFromCart.
  apply filter_filter_same.
Qed.

(** X1. [removeItemFromCart] keeps exactly the line items with another id,
    in their old order; afterwards the id is gone, and removing it again
    changes nothing. *)
Theorem removeItemFromCart_exact (s : CartState) (productId : string) :
  (forall item : CartItem.t,
     item ∈ items (removeItemFromCart s productId) <->
     item ∈ items s /\ CartItem.id item <> productId) /\
  sublist (items (removeItemFromCart s productId)) (items s) /\
  (productId ∉ ids (removeItemFromCart s productId)) /\
  removeItemFromCart (removeItemFromCart s productId) productId
  = removeItemFromCart s productId.
Proof.
  split; [|split; [|split]].
  - intros item. rewrite items_removeItemFromCart, !list_elem_of_In.
    rewrite List.filter_In. unfold otherThan.
    destruct (String.eqb_spec (CartItem.id item) productId); simpl;
      intuition congruence.
  - rewrite items_removeItemFromCart. apply filter_sublist_items.
  - apply removeItemFromCart_drops_id.
  - apply removeItemFromCart_twice.
Qed.

Section SumsOverItems.
Context (f : CartItem.t -> Z).

Let total (l : list CartItem.t) : Z :=
  fold_left (fun acc item => acc + f item) l 0.

Lemma total_filter_absent (l : list CartItem.t) (productId : string) :
  productId ∉ List.map CartItem.id l ->
  List.filter (otherThan productId) l = l.
Proof.
  induction l as [|item l IH]; simpl; [done|].
  rewrite not_elem_of_cons. intros [Hne Hnin]. unfold otherThan at 1.
  destruct (String.eqb_spec (CartItem.id item) productId); [congruence|].
  simpl. by rewrite IH.
Qed.

Lemma total_filter_stored (l : list CartItem.t) (stored : CartItem.t) :
  NoDup (List.map CartItem.id l) -> stored ∈ l ->
  total (List.filter (otherThan (CartItem.id stored)) l)
  = total l - f stored.
Proof.
  unfold total. induction l as [|item l IH]; simpl List.map; simpl List.filter.
  - intros _ Hin. by apply elem_of_nil in Hin.
  - rewrite NoDup_cons. intros [Hnotin Hnd] Hin.
    rewrite (fold_left_sum_cons f). unfold otherThan at 1.
    apply elem_of_cons in Hin as [->|Hin].
    + rewrite String.eqb_refl. cbn [negb].
      rewrite total_filter_absent by done. lia.
    + destruct (String.eqb_spec (CartItem.id item) (CartItem.id stored))
        as [Heq|Hne].
      * exfalso. apply Hnotin. rewrite Heq. apply list_elem_of_fmap.
        by exists stored.
      * cbn [negb]. rewrite (fold_left_sum_cons f), IH by done. lia.
Qed.

End SumsOverItems.

(** In the integer view, with pairwise distinct ids, removing a stored
    line item lowers the count by its quantity and the subtotal by its price
    times its quantity. *)
Lemma integerView_removeItemFromCart_totals (s : CartState) (stored : CartItem.t)
  (Hdistinct : NoDup (ids s)) (Hstored : stored ∈ items s) :
  stateTotalCount (removeItemFromCart s (CartItem.id stored))
  = stateTotalCount s - CartItem.quantity stored /\
  stateSubtotal (removeItemFromCart s (CartItem.id stored))
  = stateSubtotal s - CartItem.price stored * CartItem.quantity stored.
Proof.
  unfold stateTotalCount, stateSubtotal. simpl. split.
  - apply (total_filter_stored CartItem.quantity); done.
  - apply (total_filter_stored
             (fun i => CartItem.price i * CartItem.quantity i)); done.
Qed.


(** ** How the transitions compose *)

Lemma filter_otherThan_map (productId : string) (g : CartItem.t -> CartItem.t)
  (l : list CartItem.t) :
  (forall item, CartItem.id (g item) = CartItem.id item) ->
  List.filter (otherThan productId)
    (List.map
       (fun item =>
          if String.eqb (CartItem.id item) productId then g item else item) l)
  = List.filter (otherThan productId) l.
Proof.
  intros Hid. induction l as [|item l IH]; cbn [List.map List.filter]; [done|].
  destruct (String.eqb (CartItem.id item) productId) eqn:Heq.
  - assert (otherThan productId (g item) = false) as ->
      by (unfold otherThan; by rewrite Hid, Heq).
    assert (otherThan productId item = false) as ->
      by (unfold otherThan; by rewrite Heq).
    exact IH.
  - assert (otherThan productId item = true) as ->
      by (unfold otherThan; by rewrite Heq).
    by rewrite IH.
Qed.


(** X4. Adding a product and then removing its id gives what removing the
    id alone gives; when the id was not in the cart, adding and removing
    returns the original state. *)
Theorem removeItemFromCart_after_addItemToCart (s : CartState)
  (p : Product.t) :
  removeItemFromCart (addItemToCart s p) (Product.id p)
  = removeItemFromCart s (Product.id p) /\
  (Product.id p ∉ ids s ->
   removeItemFromCart (addItemToCart s p) (Product.id p) = s).
Proof.
  assert (removeItemFromCart (addItemToCart s p) (Product.id p)
          = removeItemFromCart s (Product.id p)) as Hmain.
  { apply CartState_eq. rewrite !items_removeItemFromCart.
    destruct (findCartItemById (items s) (Product.id p)) as [e|] eqn:Hfind.
    - rewrite (addItemToCart_found s p e Hfind). unfold increment.
      by apply filter_otherThan_map.
    - rewrite (addItemToCart_missing s p Hfind), List.filter_app. simpl.
      unfold otherThan at 2. simpl. rewrite String.eqb_refl. simpl.
      apply app_nil_r. }
  split; [exact Hmain|].
  intros Habsent. rewrite Hmain. by apply removeItemFromCart_absent.
Qed.



Lemma updateItemQuantity_preserves_id (productId : string) (q : Z)
  (item : CartItem.t) :
  CartItem.id (replaceQuantity productId q item) = CartItem.id item.
Proof.
  unfold replaceQuantity.
  by destruct (String.eqb (CartItem.id item) productId).
Qed.

Lemma filter_map_preserving (a : string) (g : CartItem.t -> CartItem.t)
  (l : list CartItem.t) :
  (forall item, CartItem.id (g item) = CartItem.id item) ->
  List.filter (otherThan a) (List.map g l)
  = List.map g (List.filter (otherThan a) l).
Proof.
  intros Hid. induction l as [|item l IH]; cbn [List.map List.filter]; [done|].
  assert (otherThan a (g item) = otherThan a item) as ->
    by (unfold otherThan; by rewrite Hid).
  destruct (otherThan a item); cbn [List.map]; by rewrite IH.
Qed.

Lemma filter_filter_swap (f g : CartItem.t -> bool) (l : list CartItem.t) :
  List.filter f (List.filter g l) = List.filter g (List.filter f l).
Proof.
  induction l as [|x l IH]; simpl; [done|].
  destruct (f x) eqn:Hf, (g x) eqn:Hg; simpl; rewrite ?Hf, ?Hg, ?IH; done.
Qed.

Lemma map_replaceQuantity_swap (a b : string) (qa qb : Z)
  (l : list CartItem.t) :
  a <> b ->
  List.map (replaceQuantity b qb) (List.map (replaceQuantity a qa) l)
  = List.map (replaceQuantity a qa) (List.map (replaceQuantity b qb) l).
Proof.
  intros Hab. rewrite !List.map_map. apply List.map_ext. intros item.
  unfold replaceQuantity.
  destruct (String.eqb_spec (CartItem.id item) a) as [Ha|Ha],
           (String.eqb_spec (CartItem.id item) b) as [Hb|Hb]; simpl.
  - congruence.
  - destruct (String.eqb_spec (CartItem.id item) a),
             (String.eqb_spec (CartItem.id item) b); congruence.
  - destruct (String.eqb_spec (CartItem.id item) a),
             (String.eqb_spec (CartItem.id item) b); congruence.
  - destruct (String.eqb_spec (CartItem.id item) a),
             (String.eqb_spec (CartItem.id item) b); congruence.
Qed.

(** X6. Quantity updates and removals of two different ids commute: the
    resulting state does not depend on which one is applied first, whatever
    the two quantities are (positive, zero or negative). *)
Theorem updateItemQuantity_commutes (s : CartState) (a b : string)
  (qa qb : Z) (Hab : a <> b) :
  updateItemQuantity (updateItemQuantity s a qa) b qb
  = updateItemQuantity (updateItemQuantity s b qb) a qa.
Proof.
  apply CartState_eq.
  destruct (Z.leb_spec qa 0) as [Ha|Ha], (Z.leb_spec qb 0) as [Hb|Hb].
  - rewrite !(updateItemQuantity_nonpos _ _ qa), !(updateItemQuantity_nonpos _ _ qb)
      by done.
    rewrite !items_removeItemFromCart. apply filter_filter_swap.
  - rewrite !(updateItemQuantity_nonpos _ _ qa) by done.
    rewrite !(items_updateItemQuantity_pos _ _ qb), !items_removeItemFromCart,
      (items_updateItemQuantity_pos _ _ qb) by done.
    symmetry. apply filter_map_preserving.
    intros item. apply updateItemQuantity_preserves_id.
  - rewrite !(updateItemQuantity_nonpos _ _ qb) by done.
    rewrite !(items_updateItemQuantity_pos _ _ qa), !items_removeItemFromCart,
      (items_updateItemQuantity_pos _ _ qa) by done.
    apply filter_map_preserving.
    intros item. apply updateItemQuantity_preserves_id.
  - rewrite !(items_updateItemQuantity_pos _ _ qb),
      !(items_updateItemQuantity_pos _ _ qa),
      (items_updateItemQuantity_pos _ _ qb) by done.
    by apply map_replaceQuantity_swap.
Qed.

Lemma updateItemQuantity_commutes_witness :
  updateItemQuantity (updateItemQuantity twoItemCart "1" 0) "2" 4
  = updateItemQuantity (updateItemQuantity twoItemCart "2" 4) "1" 0.
Proof.
  apply (updateItemQuantity_commutes twoItemCart "1" "2" 0 4). discriminate.
Defined.

(** ** Looking a line item up after a transition *)



Lemma find_app_singleton (l : list CartItem.t) (x : CartItem.t)
  (productId : string) :
  findCartItemById (l ++ [x]) productId
  = match findCartItemById l productId with
    | Some e => Some e
    | None => if String.eqb (CartItem.id x) productId then Some x else None
    end.
Proof.
  unfold findCartItemById. induction l as [|item l IH]; simpl.
  - by destruct (String.eqb (CartItem.id x) productId).
  - by destruct (String.eqb (CartItem.id item) productId).
Qed.


(** ** The derived totals *)




(** * Further properties of validation and storage *)

Section ProductValidation.
Import Js Raw Checks.

Lemma falsy_not_acceptedProduct (product : value) :
  truthy product = false -> RawProduct.acceptedProduct product = false.
Proof. destruct product; simpl; try done. Qed.

Lemma isValidProduct_result (product : value) :
  RawProduct.isValidProduct product
  = Ok (if truthy product then Bool (RawProduct.acceptedProduct product) else product).
Proof.
  unfold RawProduct.isValidProduct. destruct (truthy product) eqn:Htruthy; [|done].
  destruct product as [| | | | | |props]; simpl in Htruthy;
    try discriminate Htruthy; try reflexivity.
  unfold RawProduct.acceptedProduct, field, get, bind.
  destruct (lookup_prop "id" props); try reflexivity.
  destruct (lookup_prop "name" props); try reflexivity.
  destruct (lookup_prop "price" props); try reflexivity.
  destruct (lookup_prop "image" props); try reflexivity.
  destruct (lookup_prop "description" props); try reflexivity.
Qed.

Lemma every_isValidProduct (elems : list value) :
  every RawProduct.isValidProduct elems = Ok (forallb RawProduct.acceptedProduct elems).
Proof.
  induction elems as [|product elems IH]; [reflexivity|]. simpl.
  rewrite isValidProduct_result. simpl.
  destruct (truthy product) eqn:Htruthy; simpl.
  - destruct (RawProduct.acceptedProduct product); [exact IH | reflexivity].
  - rewrite Htruthy. by rewrite falsy_not_acceptedProduct.
Qed.

(** X11. [RawProduct.isValidProduct] never raises, and it answers [true] exactly for
    an object with a string id, name, image and description and a number
    price greater than 0 (empty strings pass); [RawProduct.isValidProductArray] never
    raises and answers [true] exactly for an array of such objects, so one
    bad product makes the whole catalogue invalid.  A typed product passes
    exactly when its price is positive. *)
Theorem isValidProduct_accepts (product : value) :
  (exists r : value,
     RawProduct.isValidProduct product = Ok r /\
     (r = Bool true <-> RawProduct.acceptedProduct product = true)) /\
  (forall products : value,
     RawProduct.isValidProductArray products
     = Ok (Bool (match products with
                 | Arr elems => forallb RawProduct.acceptedProduct elems
                 | _ => false
                 end))) /\
  (forall p : Product.t,
     RawProduct.isValidProduct (RawProduct.ofProduct p) = Ok (Bool (0 <? Product.price p))).
Proof.
  split; [|split].
  - rewrite isValidProduct_result. eexists. split; [reflexivity|].
    destruct (truthy product) eqn:Htruthy.
    + split; [by intros [= ->] | by intros ->].
    + split.
      * intros ->. discriminate Htruthy.
      * intros Hacc. apply falsy_not_acceptedProduct in Htruthy. congruence.
  - intros products. unfold RawProduct.isValidProductArray.
    destruct products; try reflexivity. by rewrite every_isValidProduct.
  - intros p. rewrite isValidProduct_result. reflexivity.
Qed.

(** X12. [createCartItem] raises exactly when the product is [undefined] or
    [null].  For a product that [RawProduct.isValidProduct] accepts, the line item it
    builds passes [isValidCartItem] exactly when the quantity argument is
    left out (the default 1) or is a number greater than 0; and on typed
    products it builds the value of the typed [createCartItem]. *)
Theorem createCartItem_of_valid_product (product quantity : value) :
  ((exists e, RawProduct.createCartItem product quantity = Throw e) <->
   product = Undefined \/ product = Null) /\
  (RawProduct.isValidProduct product = Ok (Bool true) ->
   exists item : value,
     RawProduct.createCartItem product quantity = Ok item /\
     field item "id" = field product "id" /\
     field item "name" = field product "name" /\
     field item "price" = field product "price" /\
     field item "image" = field product "image" /\
     isValidCartItem item = Ok (Bool (RawProduct.quantityArgumentOk quantity))) /\
  (forall (p : Product.t) (q : Z),
     RawProduct.createCartItem (RawProduct.ofProduct p) (Num (Finite q 0))
     = Ok (ofCartItem (createCartItem p q))).
Proof.
  split; [|split].
  - split.
    + intros [e He]. destruct product; try discriminate He; auto.
    + intros [->| ->]; eexists; reflexivity.
  - intros Hvalid. rewrite isValidProduct_result in Hvalid.
    destruct product as [| | | | | |props]; try discriminate Hvalid.
    { simpl in Hvalid. destruct b; discriminate Hvalid. }
    { simpl in Hvalid. destruct n as [| |m e]; try discriminate Hvalid.
      destruct (negb (m =? 0)); discriminate Hvalid. }
    { simpl in Hvalid. destruct (negb (String.eqb s "")); discriminate Hvalid. }
    simpl in Hvalid. injection Hvalid as Hacc.
    unfold RawProduct.acceptedProduct in Hacc. simpl field in Hacc.
    rewrite !andb_true_iff in Hacc.
    destruct Hacc as [[[[[Hid Hname] Hprice] Himage] Hdesc] Hpos].
    eexists. split; [reflexivity|]. simpl field.
    do 4 (split; [reflexivity|]).
    rewrite isValidCartItem_result. simpl truthy. cbv iota. f_equal. f_equal.
    unfold acceptedItem. simpl field. rewrite Hid, Hname, Hprice. simpl.
    destruct quantity as [| | |n| | |]; reflexivity.
  - intros p q. reflexivity.
Qed.

End ProductValidation.

Section StorageWrites.
Import Js Raw Checks Storage.

Lemma safeSetToStorage_ok (pf : Platform) (st : Store) (key text : string)
  (v : value) :
  JSON_stringify pf v = Ok text ->
  setItem_error pf st key text = None ->
  safeSetToStorage pf st key v = Ok (store_set st key text, true).
Proof.
  intros Hs He. unfold safeSetToStorage, localStorage_setItem.
  rewrite Hs. simpl. by rewrite He.
Qed.

Lemma safeSetToStorage_total (pf : Platform) (st : Store) (key : string)
  (v : value) :
  safeSetToStorage pf st key v
  = Ok (match JSON_stringify pf v with
        | Ok text =>
            match setItem_error pf st key text with
            | None => (store_set st key text, true)
            | Some _ => (st, false)
            end
        | Throw _ => (st, false)
        end).
Proof.
  unfold safeSetToStorage, localStorage_setItem.
  destruct (JSON_stringify pf v) as [text|e]; [|reflexivity]. simpl.
  by destruct (setItem_error pf st key text).
Qed.

Lemma store_get_set (st : Store) (key text k : string) :
  store_get (store_set st key text) k
  = if String.eqb key k then Some text else store_get st k.
Proof. reflexivity. Qed.

(** X13. [safeSetToStorage] never raises.  It answers [true] exactly when
    [JSON.stringify] and [setItem] both succeed, and then the key reads back
    as the serialised text while every other key is untouched; when either
    of them raises it answers [false] and the store is left as it was. *)
Theorem safeSetToStorage_outcomes (pf : Platform) (st : Store) (key : string)
  (v : value) :
  exists (st' : Store) (ok : bool),
    safeSetToStorage pf st key v = Ok (st', ok) /\
    (ok = true <->
     exists text, JSON_stringify pf v = Ok text /\
                  setItem_error pf st key text = None) /\
    (ok = true ->
     (exists text, JSON_stringify pf v = Ok text /\
                   store_get st' key = Some text) /\
     forall k, k <> key -> store_get st' k = store_get st k) /\
    (ok = false -> st' = st).
Proof.
  rewrite safeSetToStorage_total.
  destruct (JSON_stringify pf v) as [text|e] eqn:Hs.
  - destruct (setItem_error pf st key text) as [err|] eqn:He.
    + exists st, false. split; [reflexivity|]. split; [|split; [done|done]].
      split; [done|]. intros (text' & [= <-] & He'). congruence.
    + exists (store_set st key text), true. split; [reflexivity|].
      split; [|split; [|done]].
      * split; [|done]. intros _. by exists text.
      * intros _. split.
        -- exists text. split; [done|]. rewrite store_get_set.
           by rewrite String.eqb_refl.
        -- intros k Hk. rewrite store_get_set.
           destruct (String.eqb_spec key k); [congruence | done].
  - exists st, false. split; [reflexivity|]. split; [|split; [done|done]].
    split; [done|]. intros (text & Habs & _). discriminate Habs.
Qed.

(** X14. [safeGetFromStorage], for any key and default, never raises: it
    answers the parsed value when the key holds a non-empty text that
    parses, and the default when the key is missing, holds the empty text,
    or when reading or parsing raises; the default is [null] when the
    argument is left out or is [undefined]. *)
Theorem safeGetFromStorage_outcomes (env : Env) (key : string)
  (defaultValue : value) :
  (exists v, safeGetFromStorage env key defaultValue = Ok v) /\
  (forall text v,
     localStorage_getItem env key = Ok (Some text) -> text <> "" ->
     Raw.JSON_parse env text = Ok v ->
     safeGetFromStorage env key defaultValue = Ok v) /\
  (forall text e,
     localStorage_getItem env key = Ok (Some text) ->
     Raw.JSON_parse env text = Throw e ->
     safeGetFromStorage env key defaultValue
     = Ok (effectiveDefault defaultValue)) /\
  (localStorage_getItem env key = Ok (Some "") ->
   safeGetFromStorage env key defaultValue
   = Ok (effectiveDefault defaultValue)) /\
  (localStorage_getItem env key = Ok None ->
   safeGetFromStorage env key defaultValue
   = Ok (effectiveDefault defaultValue)) /\
  (forall e,
     localStorage_getItem env key = Throw e ->
     safeGetFromStorage env key defaultValue
     = Ok (effectiveDefault defaultValue)) /\
  effectiveDefault Undefined = Null /\
  (defaultValue <> Undefined -> effectiveDefault defaultValue = defaultValue).
Proof.
  assert (safeGetFromStorage env key defaultValue
          = match localStorage_getItem env key with
            | Ok (Some text) =>
                if String.eqb text "" then Ok (effectiveDefault defaultValue)
                else match Raw.JSON_parse env text with
                     | Ok v => Ok v
                     | Throw _ => Ok (effectiveDefault defaultValue)
                     end
            | _ => Ok (effectiveDefault defaultValue)
            end) as ->.
  { unfold safeGetFromStorage, try_catch, bind, effectiveDefault.
    destruct (localStorage_getItem env key) as [[text|]|e]; try reflexivity.
    simpl. destruct (String.eqb text ""); simpl; [reflexivity|].
    by destruct (Raw.JSON_parse env text). }
  split; [|split; [|split; [|split; [|split; [|split; [|split]]]]]].
  - destruct (localStorage_getItem env key) as [[text|]|e]; eauto.
    destruct (String.eqb text ""); eauto.
    destruct (Raw.JSON_parse env text); eauto.
  - intros text v -> Hne ->.
    destruct (String.eqb_spec text ""); [congruence | done].
  - intros text e -> ->. by destruct (String.eqb text "").
  - by intros ->.
  - by intros ->.
  - by intros e ->.
  - reflexivity.
  - intros Hne. by destruct defaultValue.
Qed.

(** X15. Saving and hydrating round-trip: when [JSON.stringify] of a
    state's items gives a non-empty text that [setItem] stores and
    [JSON.parse] reads back as the same array, [saveCartToStorage] answers
    [true] and a following [loadCartFromStorage] returns the saved state,
    provided its quantities are all greater than 0; for untyped items the
    state comes back when the validator accepts the array and the empty cart
    comes back otherwise. *)
Theorem save_then_load (pf : Platform) (st : Store) (saved : value)
  (text : string)
  (Hstringify : JSON_stringify pf saved = Ok text)
  (Hnonempty : text <> "")
  (Hstored : setItem_error pf st STORAGE_KEYS.CART text = None)
  (Hparse : JSON_parse pf text = Ok saved) :
  exists st' : Store,
    saveCartToStorage pf st (Obj [("items", saved)]) = Ok (st', true) /\
    loadCartFromStorage (envOf pf st')
    = Ok (if acceptedItems saved then Obj [("items", saved)]
          else Raw.createEmptyCart) /\
    (forall s : CartState,
       saved = Arr (List.map ofCartItem (items s)) ->
       Forall (fun item => 0 < CartItem.quantity item) (items s) ->
       loadCartFromStorage (envOf pf st') = Ok (ofCartState s)).
Proof.
  exists (store_set st STORAGE_KEYS.CART text).
  assert (persistedSnapshot (envOf pf (store_set st STORAGE_KEYS.CART text))
          = saved) as Hsnap.
  { unfold persistedSnapshot. simpl.
    destruct (String.eqb_spec text ""); [done|]. by rewrite Hparse. }
  split; [|split].
  - unfold saveCartToStorage. simpl. by apply safeSetToStorage_ok.
  - by rewrite loadCartFromStorage_result, Hsnap.
  - intros s -> Hq. rewrite loadCartFromStorage_result, Hsnap.
    assert (acceptedItems (Arr (List.map ofCartItem (items s))) = true) as ->;
      [|reflexivity].
    simpl. apply forallb_forall. intros v Hin.
    apply List.in_map_iff in Hin as (item & <- & Hitem).
    rewrite ofCartItem_accepted. apply Z.ltb_lt.
    rewrite Forall_forall in Hq. apply Hq. by apply list_elem_of_In.
Qed.

End StorageWrites.

(** * Properties of CartManager and of the public API *)

Section Manager.
Import Js Storage Sync.

Lemma saveState_result (pf : Platform) (m : CartManager.t) :
  CartManager.saveState pf m
  = Ok (CartManager.mk (CartManager.state m)
          (savedStore pf (CartManager.store m) (CartManager.state m))
          (CartManager.log m)).
Proof.
  unfold CartManager.saveState, saveCartToStorage, savedStore. simpl.
  unfold safeSetToStorage, localStorage_setItem, itemsValue.
  destruct (JSON_stringify pf _) as [text|e]; [|reflexivity]. simpl.
  by destruct (setItem_error pf _ _ text).
Qed.

Lemma firstWithId_find (l : list CartItem.t) (productId : string) :
  CartManager.firstWithId l productId = findCartItemById l productId.
Proof.
  unfold CartManager.firstWithId, findCartItemById.
  induction l as [|item l IH]; [reflexivity|]. simpl.
  destruct (String.eqb (CartItem.id item) productId); [|exact IH].
  clear IH. induction l as [|x l IH]; [reflexivity|]. exact IH.
Qed.

Lemma lastRendered_acc (l : list CartManager.Event)
  (acc : option CartManager.Event) :
  fold_left
    (fun last e =>
       match e with
       | CartManager.Rendered _ _ _ => Some e
       | _ => last
       end)
    l acc
  = match lastRendered l with
    | Some e => Some e
    | None => acc
    end.
Proof.
  unfold lastRendered. revert acc.
  induction l as [|e l IH]; intros acc; [reflexivity|]. simpl.
  rewrite IH, (IH (match e with CartManager.Rendered _ _ _ => Some e
                           | _ => None end)).
  destruct (fold_left _ l None); [reflexivity|]. by destruct e.
Qed.

Lemma lastRendered_app (l1 l2 : list CartManager.Event) :
  lastRendered (l1 ++ l2)
  = match lastRendered l2 with
    | Some e => Some e
    | None => lastRendered l1
    end.
Proof. unfold lastRendered at 1. rewrite fold_left_app. apply lastRendered_acc. Qed.

Lemma lastRendered_none (l : list CartManager.Event) :
  forallb (fun e => negb (isRendered e)) l = true -> lastRendered l = None.
Proof.
  induction l as [|e l IH]; [reflexivity|]. simpl.
  rewrite andb_true_iff. intros [He Hl]. unfold lastRendered. simpl.
  rewrite lastRendered_acc, (IH Hl). by destruct e.
Qed.

Ltac manager_simpl :=
  simpl;
  unfold CartManager.updateDisplay, CartManager.showNotification,
    CartManager.emit, CartManager.setState;
  simpl; rewrite <- ?app_assoc; reflexivity.






Lemma platformFor_reliable (text : string) (saved : value) (w : Window) :
  reliable (platformFor text saved w).
Proof. split; [intros v; by exists text | done]. Defined.





Lemma changeQuantity_guard (m : CartManager.t) (productId : string) (q : Z) :
  match CartManager.firstWithId (items (CartManager.state m)) productId with
  | Some item =>
      ((CartItem.quantity item =? 1) || (CartItem.quantity item <? 1))
      && negb (0 <? q)
  | None => false
  end
  = needsConfirmation (CartManager.state m) productId q.
Proof.
  unfold needsConfirmation. rewrite firstWithId_find.
  destruct (findCartItemById _ productId) as [e|]; [|reflexivity].
  f_equal.
  - destruct (Z.eqb_spec (CartItem.quantity e) 1),
             (Z.ltb_spec (CartItem.quantity e) 1),
             (Z.leb_spec (CartItem.quantity e) 1); simpl; lia.
  - destruct (Z.ltb_spec 0 q), (Z.leb_spec q 0); simpl; lia.
Qed.

Lemma changeQuantity_result (pf : Platform) (m : CartManager.t)
  (productId : string) (q : Z) :
  exists m' : CartManager.t,
    CartManager.changeQuantity pf m productId q = Ok m' /\
    (needsConfirmation (CartManager.state m) productId q && declines pf = true ->
     CartManager.state m' = CartManager.state m /\
     CartManager.store m' = CartManager.store m /\
     CartManager.log m'
     = CartManager.log m ++ [CartManager.ConfirmAsked "你確定要刪除嗎？"]) /\
    (needsConfirmation (CartManager.state m) productId q && declines pf = false ->
     CartManager.state m'
     = updateItemQuantity (CartManager.state m) productId q /\
     CartManager.store m'
     = savedStore pf (CartManager.store m) (CartManager.state m') /\
     CartManager.log m'
     = CartManager.log m
       ++ (if needsConfirmation (CartManager.state m) productId q && canAsk pf
           then [CartManager.ConfirmAsked "你確定要刪除嗎？"] else [])
       ++ [rendering (CartManager.state m')]).
Proof.
  assert (forall m0,
            CartManager.updateQuantity pf m0 productId q
            = Ok (CartManager.mk
                    (updateItemQuantity (CartManager.state m0) productId q)
                    (savedStore pf (CartManager.store m0)
                       (updateItemQuantity (CartManager.state m0) productId q))
                    (CartManager.log m0
                     ++ [rendering
                           (updateItemQuantity (CartManager.state m0)
                              productId q)]))) as Hupd.
  { intros m0. unfold CartManager.updateQuantity. rewrite saveState_result.
    manager_simpl. }
  unfold CartManager.changeQuantity. rewrite changeQuantity_guard.
  destruct (needsConfirmation (CartManager.state m) productId q) eqn:Hg.
  - unfold CartManager.askToDelete, declines, canAsk.
    destruct (window pf) as [| |[go|e]] eqn:Hw.
    + cbn [negb]. rewrite Hupd. eexists. split; [reflexivity|]. simpl.
      split; [done|]. intros _. by repeat split.
    + cbn [negb]. rewrite Hupd. eexists. split; [reflexivity|]. simpl.
      split; [done|]. intros _. by repeat split.
    + assert (forall b : bool,
                exists m' : CartManager.t,
                  (if negb b
                   then Ok (CartManager.emit m
                              (CartManager.ConfirmAsked "你確定要刪除嗎？"))
                   else CartManager.updateQuantity pf
                          (CartManager.emit m
                             (CartManager.ConfirmAsked "你確定要刪除嗎？"))
                          productId q) = Ok m' /\
                  (true && negb b = true ->
                   CartManager.state m' = CartManager.state m /\
                   CartManager.store m' = CartManager.store m /\
                   CartManager.log m'
                   = CartManager.log m
                     ++ [CartManager.ConfirmAsked "你確定要刪除嗎？"]) /\
                  (true && negb b = false ->
                   CartManager.state m'
                   = updateItemQuantity (CartManager.state m) productId q /\
                   CartManager.store m'
                   = savedStore pf (CartManager.store m) (CartManager.state m') /\
                   CartManager.log m'
                   = CartManager.log m
                     ++ [CartManager.ConfirmAsked "你確定要刪除嗎？"]
                     ++ [rendering (CartManager.state m')])) as Hgo.
      { intros [|]; simpl.
        - rewrite Hupd. eexists. split; [reflexivity|]. simpl.
          split; [done|]. intros _. split; [done|]. split; [done|].
          by rewrite <- app_assoc.
        - eexists. split; [reflexivity|]. simpl. split; [done|]. done. }
      destruct go as [| |b|n|str|elems|props].
      * apply (Hgo true).
      * apply (Hgo false).
      * apply (Hgo b).
      * apply (Hgo (truthy (Num n))).
      * apply (Hgo (truthy (Str str))).
      * apply (Hgo true).
      * apply (Hgo true).
    + simpl. rewrite Hupd. eexists. split; [reflexivity|]. simpl.
      split; [done|]. intros _. split; [done|]. split; [done|].
      by rewrite <- app_assoc.
  - rewrite Hupd. eexists. split; [reflexivity|]. simpl.
    split; [done|]. intros _. by repeat split.
Qed.


(** X20. Notifications: a call shows at most one.  Adding shows the
    product's name followed by the added-to-cart text, clearing shows the
    cleared text, removing shows the removed text only when the id was in
    the cart, and changing a quantity never shows one, not even when it
    removes the line item. *)
Theorem call_notifications (pf : Platform) (m : CartManager.t)
  (c : CartManager.Call) :
  exists (m' : CartManager.t) (events : list CartManager.Event),
    CartManager.call pf m c = Ok m' /\
    CartManager.log m' = CartManager.log m ++ events /\
    List.filter isNotified events
    = match c with
      | CartManager.CallAdd product =>
          [CartManager.Notified (Product.name product ++ " 已添加到購物車")]
      | CartManager.CallRemove productId =>
          if hasId (CartManager.state m) productId
          then [CartManager.Notified "商品已從購物車移除"] else []
      | CartManager.CallChange _ _ => []
      | CartManager.CallClear => [CartManager.Notified "購物車已清空"]
      end.
Proof.
  destruct c as [p|productId|productId q|]; simpl.
  - unfold CartManager.addItem. rewrite saveState_result.
    eexists _, [_; _]. split; [manager_simpl|]. split; reflexivity.
  - unfold CartManager.removeItem. rewrite saveState_result.
    destruct (findCartItemById _ productId) as [e|] eqn:Hfind.
    + assert (hasId (CartManager.state m) productId = true) as ->.
      { apply hasId_spec. apply findCartItemById_Some in Hfind as [Hin <-].
        apply list_elem_of_fmap. by exists e. }
      eexists _, [_; _]. split; [manager_simpl|]. split; reflexivity.
    + assert (hasId (CartManager.state m) productId = false) as ->.
      { apply findCartItemById_None in Hfind.
        destruct (hasId _ productId) eqn:Hhas; [|done].
        apply hasId_spec in Hhas. by destruct Hfind. }
      eexists _, [_]. split; [manager_simpl|]. split; reflexivity.
  - destruct (changeQuantity_result pf m productId q)
      as (m' & Hcall & Hstop & Hgo).
    destruct (needsConfirmation (CartManager.state m) productId q
              && declines pf) eqn:Hcase.
    + destruct (Hstop eq_refl) as (_ & _ & Hlog).
      exists m', [CartManager.ConfirmAsked "你確定要刪除嗎？"].
      split; [done|]. split; [done|reflexivity].
    + destruct (Hgo eq_refl) as (_ & _ & Hlog).
      eexists m', _. split; [done|]. split; [exact Hlog|].
      by destruct (needsConfirmation _ _ _ && canAsk pf).
  - unfold CartManager.clear. rewrite saveState_result.
    eexists _, [_; _]. split; [manager_simpl|]. split; reflexivity.
Qed.

End Manager.

(** * Reset and a round trip through the store *)

Section Reachable.
Import Js Storage Sync.

(** [reset] empties the cart and the whole store and renders the empty
    cart: afterwards every key reads as missing, hydration gives the empty
    cart, and the page shows the state. *)
Lemma reset_wipes_everything (pf : Platform) (m : CartManager.t) :
  CartManager.state (CartManager.reset m) = createEmptyCart /\
  (forall key, store_get (CartManager.store (CartManager.reset m)) key = None) /\
  Raw.loadCartFromStorage (envOf pf (CartManager.store (CartManager.reset m)))
  = Ok Raw.createEmptyCart /\
  displaySynced (CartManager.reset m) /\
  CartManager.log (CartManager.reset m)
  = CartManager.log m ++ [rendering createEmptyCart].
Proof.
  split; [reflexivity|]. split; [done|]. split; [reflexivity|].
  split; [|reflexivity].
  unfold displaySynced, CartManager.reset, CartManager.updateDisplay,
    CartManager.emit. simpl. rewrite lastRendered_app. reflexivity.
Qed.

Lemma save_then_load_witness :
  exists st' : Store,
    saveCartToStorage (platformFor "[cart]" (itemsValue twoItemCart) NoWindow)
      [] (Obj [("items", itemsValue twoItemCart)])
    = Ok (st', true) /\
    Raw.loadCartFromStorage
      (envOf (platformFor "[cart]" (itemsValue twoItemCart) NoWindow) st')
    = Ok (if Checks.acceptedItems (itemsValue twoItemCart)
          then Obj [("items", itemsValue twoItemCart)]
          else Raw.createEmptyCart) /\
    (forall s : CartState,
       itemsValue twoItemCart = Arr (List.map Raw.ofCartItem (items s)) ->
       Forall (fun item => 0 < CartItem.quantity item) (items s) ->
       Raw.loadCartFromStorage
         (envOf (platformFor "[cart]" (itemsValue twoItemCart) NoWindow) st')
       = Ok (Raw.ofCartState s)).
Proof.
  apply (save_then_load
           (platformFor "[cart]" (itemsValue twoItemCart) NoWindow)
           [] (itemsValue twoItemCart) "[cart]").
  - reflexivity.
  - discriminate.
  - reflexivity.
  - reflexivity.
Defined.

End Reachable.

(** * Properties of binary64 arithmetic *)

Section Binary64Facts.
Import Js Binary64.

Lemma strip_spec (p : positive) :
  Zpos p = Zpos (fst (strip p)) * 2 ^ snd (strip p) /\
  0 <= snd (strip p) /\
  Z.odd (Zpos (fst (strip p))) = true.
Proof.
  induction p as [p IH|p IH|]; simpl.
  - split; [lia|]. split; [lia|reflexivity].
  - destruct (strip p) as [q k]. simpl in *. destruct IH as (Hv & Hk & Ho).
    split; [|split; [lia|exact Ho]].
    rewrite Z.pow_add_r by lia. change (2 ^ 1) with 2.
    change (Z.pos p~0) with (2 * Z.pos p). rewrite Hv. ring.
  - split; [reflexivity|]. split; [lia|reflexivity].
Qed.

Lemma canon_spec (m e : Z) :
  m <> 0 ->
  m = fst (canon m e) * 2 ^ (snd (canon m e) - e) /\
  e <= snd (canon m e) /\
  Z.odd (fst (canon m e)) = true.
Proof.
  intros Hm. destruct m as [|p|p]; [done| |]; unfold canon;
    pose proof (strip_spec p) as (Hv & Hk & Ho);
    destruct (strip p) as [q k]; simpl in *.
  - replace (e + k - e) with k by lia. split; [exact Hv|]. split; [lia|exact Ho].
  - replace (e + k - e) with k by lia. split; [|split; [lia|exact Ho]].
    change (Z.neg p) with (- Z.pos p). change (Z.neg q) with (- Z.pos q).
    rewrite Hv. ring.
Qed.

Lemma canon_zero (e : Z) : canon 0 e = (0, 0).
Proof. reflexivity. Qed.

Lemma canon_nonzero (m e : Z) : m <> 0 -> fst (canon m e) <> 0.
Proof.
  intros Hm. destruct (canon_spec m e Hm) as (_ & _ & Ho).
  intros H0. rewrite H0 in Ho. discriminate Ho.
Qed.

Lemma odd_pow_unique (m1 m2 k1 k2 : Z) :
  Z.odd m1 = true -> Z.odd m2 = true -> 0 <= k1 -> 0 <= k2 ->
  m1 * 2 ^ k1 = m2 * 2 ^ k2 -> m1 = m2 /\ k1 = k2.
Proof.
  intros Ho1 Ho2 Hk1 Hk2 Heq.
  assert (forall a b j, Z.odd a = true -> 0 < j -> a <> b * 2 ^ j) as Hodd.
  { intros a b j Ha Hj Hab. rewrite Hab in Ha.
    replace j with (1 + (j - 1)) in Ha by lia.
    rewrite Z.pow_add_r in Ha by lia. change (2 ^ 1) with 2 in Ha.
    rewrite Z.mul_assoc, Z.odd_mul in Ha.
    rewrite (Z.odd_mul b 2) in Ha. simpl in Ha.
    rewrite andb_false_r in Ha. discriminate Ha. }
  destruct (Z.lt_trichotomy k1 k2) as [Hlt|[Heqk|Hgt]].
  - exfalso. apply (Hodd m1 m2 (k2 - k1) Ho1); [lia|].
    replace k2 with (k1 + (k2 - k1)) in Heq by lia.
    rewrite Z.pow_add_r in Heq by lia.
    assert (0 < 2 ^ k1) by (apply Z.pow_pos_nonneg; lia). nia.
  - subst k2. split; [|done].
    assert (0 < 2 ^ k1) by (apply Z.pow_pos_nonneg; lia). nia.
  - exfalso. apply (Hodd m2 m1 (k1 - k2) Ho2); [lia|].
    replace k1 with (k2 + (k1 - k2)) in Heq by lia.
    rewrite Z.pow_add_r in Heq by lia.
    assert (0 < 2 ^ k2) by (apply Z.pow_pos_nonneg; lia). nia.
Qed.

Lemma canon_scale (m e k : Z) :
  0 <= k -> canon (m * 2 ^ k) e = canon m (e + k).
Proof.
  intros Hk. destruct (Z.eq_dec m 0) as [->|Hm]; [reflexivity|].
  assert (0 < 2 ^ k) as Hpos by (apply Z.pow_pos_nonneg; lia).
  assert (m * 2 ^ k <> 0) as Hmk by nia.
  destruct (canon_spec _ e Hmk) as (Hv1 & He1 & Ho1).
  destruct (canon_spec m (e + k) Hm) as (Hv2 & He2 & Ho2).
  destruct (canon (m * 2 ^ k) e) as [a ea], (canon m (e + k)) as [b eb].
  simpl in *.
  assert (a * 2 ^ (ea - e) = b * 2 ^ (eb - e)) as Heq.
  { rewrite <- Hv1. rewrite Hv2 at 1. rewrite <- Z.mul_assoc, <- Z.pow_add_r by lia.
    f_equal. f_equal. lia. }
  destruct (odd_pow_unique a b (ea - e) (eb - e) Ho1 Ho2) as [-> Hk']; try lia.
  f_equal. lia.
Qed.

Lemma log2_lt_pow (a n : Z) : 0 < a -> a < 2 ^ n -> 0 <= n -> Z.log2 a < n.
Proof. intros Ha Hlt Hn. apply Z.log2_lt_pow2; lia. Qed.

(** Rounding leaves an integer of magnitude at most [2^53] as it is. *)
Lemma round_exact (M e : Z) :
  0 <= e -> Z.abs (M * 2 ^ e) <= 2 ^ 53 -> round M e = ofZ (M * 2 ^ e).
Proof.
  intros He Hsafe. unfold ofZ.
  rewrite (canon_scale M 0 e He). replace (0 + e) with e by lia.
  unfold round. destruct (Z.eq_dec M 0) as [->|HM]; [reflexivity|].
  assert (0 < 2 ^ e) as Hpos by (apply Z.pow_pos_nonneg; lia).
  destruct (canon_spec M e HM) as (Hv & Hle & Ho).
  pose proof (canon_nonzero M e HM) as Hnz.
  destruct (canon M e) as [m e']. simpl in *.
  assert ((m =? 0) = false) as -> by (apply Z.eqb_neq; exact Hnz).
  assert (M * 2 ^ e = m * 2 ^ e') as Hval.
  { rewrite Hv at 1. rewrite <- Z.mul_assoc, <- Z.pow_add_r by lia.
    f_equal. f_equal. lia. }
  rewrite Hval in Hsafe.
  assert (0 < 2 ^ e') as Hpos' by (apply Z.pow_pos_nonneg; lia).
  assert (Z.abs m * 2 ^ e' <= 2 ^ 53) as Hbound
    by (rewrite <- (Z.abs_eq (2 ^ e')), <- Z.abs_mul by lia; exact Hsafe).
  assert (0 < Z.abs m) as Habs by lia.
  assert (Z.abs m < 2 ^ 53) as Hlt.
  { assert (Z.abs m <= 2 ^ 53) by nia.
    assert (Z.abs m <> 2 ^ 53); [|lia].
    intros Habs53. assert (m = 2 ^ 53 \/ m = - 2 ^ 53) as [Hm|Hm] by lia;
      rewrite Hm in Ho; vm_compute in Ho; discriminate Ho. }
  assert (Z.log2 (Z.abs m) < 53) as Hlog by (apply log2_lt_pow; lia).
  assert (0 <= Z.log2 (Z.abs m)) as Hlog0 by apply Z.log2_nonneg.
  unfold bits.
  assert (2 ^ Z.log2 (Z.abs m) <= Z.abs m) as Hlow
    by (apply Z.log2_spec; lia).
  assert (e' + (Z.log2 (Z.abs m) + 1) - 1 <= 53) as Htop.
  { replace (e' + (Z.log2 (Z.abs m) + 1) - 1) with (Z.log2 (Z.abs m) + e')
      by lia.
    apply Z.pow_le_mono_r_iff with (a := 2); [lia|lia|].
    rewrite Z.pow_add_r by lia. nia. }
  assert ((Z.max (e' + (Z.log2 (Z.abs m) + 1) - 1 - 52) (-1074) <=? e') = true)
    as -> by (apply Z.leb_le; lia).
  assert ((1024 <=? e' + (Z.log2 (Z.abs m) + 1) - 1) = false) as ->
    by (apply Z.leb_gt; lia).
  reflexivity.
Qed.

Lemma canon_at_zero (z : Z) :
  z = fst (canon z 0) * 2 ^ snd (canon z 0) /\ 0 <= snd (canon z 0).
Proof.
  destruct (Z.eq_dec z 0) as [->|Hz]; [simpl; lia|].
  destruct (canon_spec z 0 Hz) as (Hv & Hle & _).
  rewrite Z.sub_0_r in Hv. done.
Qed.

(** [+] is exact on integers whose sum is at most [2^53] in magnitude. *)
Lemma add_ofZ (a b : Z) :
  Z.abs (a + b) <= 2 ^ 53 -> add (ofZ a) (ofZ b) = ofZ (a + b).
Proof.
  intros Hsafe. unfold ofZ at 1 2.
  destruct (canon_at_zero a) as (Ha & Hea), (canon_at_zero b) as (Hb & Heb).
  destruct (canon a 0) as [ma ea], (canon b 0) as [mb eb]. simpl in *.
  set (e := Z.min ea eb).
  assert ((ma * 2 ^ (ea - e) + mb * 2 ^ (eb - e)) * 2 ^ e = a + b) as Hval.
  { rewrite Z.mul_add_distr_r, <- !Z.mul_assoc, <- !Z.pow_add_r by lia.
    replace (ea - e + e) with ea by lia. replace (eb - e + e) with eb by lia.
    lia. }
  rewrite <- Hval. apply round_exact; [lia|]. by rewrite Hval.
Qed.

(** [*] is exact on integers whose product is at most [2^53] in
    magnitude. *)
Lemma mul_ofZ (a b : Z) :
  Z.abs (a * b) <= 2 ^ 53 -> mul (ofZ a) (ofZ b) = ofZ (a * b).
Proof.
  intros Hsafe. unfold ofZ at 1 2.
  destruct (canon_at_zero a) as (Ha & Hea), (canon_at_zero b) as (Hb & Heb).
  destruct (canon a 0) as [ma ea], (canon b 0) as [mb eb]. simpl in *.
  assert (ma * mb * 2 ^ (ea + eb) = a * b) as Hval.
  { rewrite Z.pow_add_r by lia. rewrite Ha, Hb at 1. ring. }
  rewrite <- Hval. apply round_exact; [lia|]. by rewrite Hval.
Qed.

Lemma le_ofZ (a b : Z) : le (ofZ a) (ofZ b) = (a <=? b).
Proof.
  unfold ofZ.
  destruct (canon_at_zero a) as (Ha & Hea), (canon_at_zero b) as (Hb & Heb).
  destruct (canon a 0) as [ma ea], (canon b 0) as [mb eb]. simpl in *.
  set (e := Z.min ea eb).
  assert (0 < 2 ^ e) as Hpos by (apply Z.pow_pos_nonneg; lia).
  assert (a = ma * 2 ^ (ea - e) * 2 ^ e) as Ha'.
  { rewrite <- Z.mul_assoc, <- Z.pow_add_r by lia.
    replace (ea - e + e) with ea by lia. exact Ha. }
  assert (b = mb * 2 ^ (eb - e) * 2 ^ e) as Hb'.
  { rewrite <- Z.mul_assoc, <- Z.pow_add_r by lia.
    replace (eb - e + e) with eb by lia. exact Hb. }
  destruct (Z.leb_spec (ma * 2 ^ (ea - e)) (mb * 2 ^ (eb - e))),
           (Z.leb_spec a b); try reflexivity; nia.
Qed.

Lemma lt_ofZ (a b : Z) : lt (ofZ a) (ofZ b) = (a <? b).
Proof.
  unfold ofZ.
  destruct (canon_at_zero a) as (Ha & Hea), (canon_at_zero b) as (Hb & Heb).
  destruct (canon a 0) as [ma ea], (canon b 0) as [mb eb]. simpl in *.
  set (e := Z.min ea eb).
  assert (0 < 2 ^ e) as Hpos by (apply Z.pow_pos_nonneg; lia).
  assert (a = ma * 2 ^ (ea - e) * 2 ^ e) as Ha'.
  { rewrite <- Z.mul_assoc, <- Z.pow_add_r by lia.
    replace (ea - e + e) with ea by lia. exact Ha. }
  assert (b = mb * 2 ^ (eb - e) * 2 ^ e) as Hb'.
  { rewrite <- Z.mul_assoc, <- Z.pow_add_r by lia.
    replace (eb - e + e) with eb by lia. exact Hb. }
  destruct (Z.ltb_spec (ma * 2 ^ (ea - e)) (mb * 2 ^ (eb - e))),
           (Z.ltb_spec a b); try reflexivity; nia.
Qed.


Lemma ge_one_Finite (m e : Z) :
  ge (Finite m e) one = true <->
  (0 <= e /\ 1 <= m * 2 ^ e) \/ (e < 0 /\ 2 ^ (- e) <= m).
Proof.
  unfold ge, le, one.
  destruct (Z.min_spec 0 e) as [[Hlt ->]|[Hle ->]].
  - rewrite Z.sub_0_r, Z.sub_0_r. change (2 ^ 0) with 1. rewrite Z.mul_1_l.
    rewrite Z.leb_le. assert (0 < 2 ^ e) by (apply Z.pow_pos_nonneg; lia). lia.
  - replace (e - e) with 0 by lia. replace (0 - e) with (- e) by lia.
    change (2 ^ 0) with 1. rewrite Z.mul_1_l, Z.mul_1_r, Z.leb_le.
    destruct (Z.eq_dec e 0) as [->|Hne]; [simpl; lia|]. lia.
Qed.

Lemma shift_rne_lower (m k : Z) : m / 2 ^ k <= shift_rne m k.
Proof.
  unfold shift_rne.
  destruct (m mod 2 ^ k <? 2 ^ (k - 1)); [lia|].
  destruct (2 ^ (k - 1) <? m mod 2 ^ k); [lia|].
  destruct (Z.even (m / 2 ^ k)); lia.
Qed.

(** Rounding a value of at least 2 gives at least 1. *)
Lemma round_ge_one (M e0 : Z) :
  e0 <= 0 -> 2 ^ (1 - e0) <= M -> ge (round M e0) one = true.
Proof.
  intros He0 HM.
  assert (0 < 2 ^ (1 - e0)) as Hp by (apply Z.pow_pos_nonneg; lia).
  assert (M <> 0) as HM0 by lia.
  unfold round.
  destruct (canon_spec M e0 HM0) as (Hv & Hle & Ho).
  pose proof (canon_nonzero M e0 HM0) as Hnz.
  destruct (canon M e0) as [m e']. simpl in *.
  assert ((m =? 0) = false) as -> by (apply Z.eqb_neq; exact Hnz).
  assert (0 < 2 ^ (e' - e0)) as Hpe by (apply Z.pow_pos_nonneg; lia).
  assert (0 < m) as Hm by nia.
  assert ((m <? 0) = false) as Hsign by (apply Z.ltb_ge; lia).
  unfold bits. rewrite (Z.abs_eq m) by lia.
  set (l := Z.log2 m).
  assert (0 <= l) as Hl0 by apply Z.log2_nonneg.
  assert (2 ^ l <= m < 2 ^ (l + 1)) as [Hlow Hhigh].
  { unfold l. replace (Z.log2 m + 1) with (Z.succ (Z.log2 m)) by lia.
    apply Z.log2_spec. lia. }
  (* the value is at least 2, so its leading bit is at exponent 1 or more *)
  assert (1 <= e' + l) as Htop.
  { assert (2 ^ (1 - e0) < 2 ^ (l + 1 + (e' - e0))) as Hlt.
    { rewrite Z.pow_add_r by lia. nia. }
    apply Z.pow_lt_mono_r_iff in Hlt; lia. }
  replace (e' + (l + 1) - 1) with (e' + l) by lia.
  rewrite Z.max_l by lia.
  destruct (Z.leb_spec (e' + l - 52) e') as [Hexact|Hround].
  - destruct (1024 <=? e' + l); [by rewrite Hsign|].
    apply ge_one_Finite. destruct (Z_lt_le_dec e' 0) as [Hneg|Hpos].
    + right. split; [done|].
      assert (2 ^ (1 - e0) = 2 ^ (1 - e') * 2 ^ (e' - e0)) as Hsplit
        by (rewrite <- Z.pow_add_r by lia; f_equal; lia).
      assert (2 ^ (1 - e') <= m) as H2 by nia.
      assert (2 ^ (- e') <= 2 ^ (1 - e')) by (apply Z.pow_le_mono_r; lia).
      lia.
    + left. split; [done|].
      assert (0 < 2 ^ e') by (apply Z.pow_pos_nonneg; lia). nia.
  - set (k := e' + l - 52 - e') in *.
    assert (k = l - 52) as Hk by (unfold k; lia).
    assert (2 ^ 52 <= shift_rne m k) as Ha.
    { eapply Z.le_trans; [|apply shift_rne_lower].
      assert (2 ^ l = 2 ^ 52 * 2 ^ k) as Hsplit
        by (rewrite <- Z.pow_add_r by lia; f_equal; lia).
      assert (0 < 2 ^ k) by (apply Z.pow_pos_nonneg; lia).
      apply Z.div_le_lower_bound; [lia|]. nia. }
    set (a := shift_rne m k) in *.
    assert (a <> 0) as Ha0 by lia.
    destruct (canon_spec a (e' + l - 52) Ha0) as (Hva & Hlea & Hoa).
    pose proof (canon_nonzero a (e' + l - 52) Ha0) as Hnza.
    destruct (canon a (e' + l - 52)) as [a' q]. simpl in *.
    assert ((a' =? 0) = false) as -> by (apply Z.eqb_neq; exact Hnza).
    destruct (1024 <=? q + (Z.log2 (Z.abs a') + 1) - 1); [by rewrite Hsign|].
    assert (0 < 2 ^ (q - (e' + l - 52))) as Hpq
      by (apply Z.pow_pos_nonneg; lia).
    assert (0 < a') as Ha' by nia.
    replace (Z.sgn m * a') with a' by (rewrite (Z.sgn_pos m); lia).
    apply ge_one_Finite. destruct (Z_lt_le_dec q 0) as [Hneg|Hpos].
    + right. split; [done|].
      assert (2 ^ 52 = 2 ^ (52 + (e' + l - 52) - q) * 2 ^ (q - (e' + l - 52)))
        as Hsplit by (rewrite <- Z.pow_add_r by lia; f_equal; lia).
      assert (2 ^ (52 + (e' + l - 52) - q) <= a') as H2 by nia.
      assert (2 ^ (- q) <= 2 ^ (52 + (e' + l - 52) - q))
        by (apply Z.pow_le_mono_r; lia).
      lia.
    + left. split; [done|].
      assert (0 < 2 ^ q) by (apply Z.pow_pos_nonneg; lia). nia.
Qed.

(** Adding 1 to a quantity of at least 1 gives at least 1. *)
Lemma add_one_ge_one (q : number) :
  ge q one = true -> ge (add q one) one = true.
Proof.
  destruct q as [|negative|m e]; [done| |].
  - by destruct negative.
  - intros Hq. apply ge_one_Finite in Hq. unfold add, one.
    apply round_ge_one; [lia|].
    destruct Hq as [[He Hm]|[He Hm]].
    + rewrite Z.min_r by lia. rewrite !Z.sub_0_r. change (2 ^ 0) with 1.
      change (2 ^ 1) with 2. lia.
    + rewrite Z.min_l by lia. replace (e - e) with 0 by lia.
      replace (0 - e) with (- e) by lia. change (2 ^ 0) with 1.
      replace (1 - e) with (1 + - e) by lia.
      rewrite Z.pow_add_r by lia. change (2 ^ 1) with 2. lia.
Qed.


End Binary64Facts.

Arguments Binary64.add : simpl never.
Arguments Binary64.mul : simpl never.
Arguments Binary64.le : simpl never.
Arguments Binary64.lt : simpl never.
Arguments Binary64.ge : simpl never.
Arguments Binary64.gt : simpl never.
Arguments Binary64.eqb : simpl never.
Arguments Binary64.sub : simpl never.
Arguments Binary64.ofZ : simpl never.
Arguments Binary64.round : simpl never.

Section Binary64More.
Import Js Binary64.

Lemma eqb_ofZ (a b : Z) : eqb (ofZ a) (ofZ b) = (a =? b).
Proof.
  unfold ofZ, eqb.
  destruct (canon_at_zero a) as (Ha & Hea), (canon_at_zero b) as (Hb & Heb).
  destruct (canon a 0) as [ma ea], (canon b 0) as [mb eb]. simpl in *.
  set (e := Z.min ea eb).
  assert (0 < 2 ^ e) as Hpos by (apply Z.pow_pos_nonneg; lia).
  assert (a = ma * 2 ^ (ea - e) * 2 ^ e) as Ha'.
  { rewrite <- Z.mul_assoc, <- Z.pow_add_r by lia.
    replace (ea - e + e) with ea by lia. exact Ha. }
  assert (b = mb * 2 ^ (eb - e) * 2 ^ e) as Hb'.
  { rewrite <- Z.mul_assoc, <- Z.pow_add_r by lia.
    replace (eb - e + e) with eb by lia. exact Hb. }
  destruct (Z.eqb_spec (ma * 2 ^ (ea - e)) (mb * 2 ^ (eb - e))),
           (Z.eqb_spec a b); try reflexivity; nia.
Qed.




End Binary64More.

(** Binary64 at work: [2^53 + 1] is [2^53]; a tie goes to the even
    neighbour, so [(2^53 + 2) + 1] is [2^53 + 4]; [0.1 + 0.2] is
    [0.30000000000000004]; [2^1023 * 2] overflows; the least positive
    number halves to 0; and comparisons with NaN are false. *)
Example binary64_rounding :
  Binary64.add (Binary64.ofZ (2 ^ 53)) Binary64.one = Binary64.ofZ (2 ^ 53) /\
  Binary64.add (Binary64.ofZ (2 ^ 53 + 2)) Binary64.one
  = Binary64.ofZ (2 ^ 53 + 4) /\
  Binary64.add (Js.Finite 3602879701896397 (-55))
               (Js.Finite 3602879701896397 (-54))
  = Js.Finite 1351079888211149 (-52) /\
  Binary64.mul (Binary64.ofZ (2 ^ 1023)) (Binary64.ofZ 2) = Js.Infinity false /\
  Binary64.mul (Js.Finite 1 (-1074)) (Js.Finite 1 (-1)) = Binary64.zero /\
  Binary64.le Js.NaN Binary64.zero = false /\
  Binary64.gt Js.NaN Binary64.zero = false /\
  Binary64.le (Js.Finite 1 (-1)) Binary64.zero = false /\
  Binary64.ge (Js.Finite 1 (-1)) Binary64.one = false.
Proof. repeat split; reflexivity. Qed.

(** * Properties of the engine on binary64 numbers *)

Section Engine64.
Import Js.

Lemma find64_None (l : list B64.CartItem.t) (productId : string) :
  B64.findCartItemById l productId = None
  <-> productId ∉ List.map B64.CartItem.id l.
Proof.
  unfold B64.findCartItemById. induction l as [|item l IH]; simpl.
  - split; [intros _; apply not_elem_of_nil | done].
  - destruct (String.eqb_spec (B64.CartItem.id item) productId) as [Heq|Hne].
    + split; [done|]. intros Hn. exfalso. apply Hn. subst.
      apply list_elem_of_here.
    + rewrite IH. rewrite not_elem_of_cons. naive_solver.
Qed.

Lemma find64_Some (l : list B64.CartItem.t) (productId : string)
  (found : B64.CartItem.t) :
  B64.findCartItemById l productId = Some found ->
  found ∈ l /\ B64.CartItem.id found = productId.
Proof.
  unfold B64.findCartItemById. induction l as [|item l IH]; simpl; [done|].
  destruct (String.eqb_spec (B64.CartItem.id item) productId) as [Heq|Hne].
  - intros [= <-]. split; [apply list_elem_of_here | done].
  - intros H. destruct (IH H) as [Hin Hid].
    split; [by apply list_elem_of_further | done].
Qed.

Lemma add64_found (s : B64.CartState) (p : B64.Product.t)
  (e : B64.CartItem.t) :
  B64.findCartItemById (B64.items s) (B64.Product.id p) = Some e ->
  B64.items (B64.addItemToCart s p)
  = List.map (B64.increment (B64.Product.id p)) (B64.items s).
Proof. intros H. unfold B64.addItemToCart. by rewrite H. Qed.

Lemma add64_missing (s : B64.CartState) (p : B64.Product.t) :
  B64.findCartItemById (B64.items s) (B64.Product.id p) = None ->
  B64.items (B64.addItemToCart s p)
  = B64.items s ++ [B64.createCartItem p Binary64.one].
Proof. intros H. unfold B64.addItemToCart. by rewrite H. Qed.

Lemma update64_cases (s : B64.CartState) (productId : string) (q : number) :
  (Binary64.le q Binary64.zero = true /\
   B64.updateItemQuantity s productId q = B64.removeItemFromCart s productId)
  \/
  (Binary64.le q Binary64.zero = false /\
   B64.items (B64.updateItemQuantity s productId q)
   = List.map (B64.replaceQuantity productId q) (B64.items s)).
Proof.
  unfold B64.updateItemQuantity.
  destruct (Binary64.le q Binary64.zero); [left | right]; done.
Qed.

Lemma increment64_id (productId : string) (item : B64.CartItem.t) :
  B64.CartItem.id (B64.increment productId item) = B64.CartItem.id item.
Proof.
  unfold B64.increment.
  by destruct (String.eqb (B64.CartItem.id item) productId).
Qed.

Lemma replaceQuantity64_id (productId : string) (q : number)
  (item : B64.CartItem.t) :
  B64.CartItem.id (B64.replaceQuantity productId q item)
  = B64.CartItem.id item.
Proof.
  unfold B64.replaceQuantity.
  by destruct (String.eqb (B64.CartItem.id item) productId).
Qed.

Lemma ids64_map (g : B64.CartItem.t -> B64.CartItem.t)
  (l : list B64.CartItem.t) :
  (forall item, B64.CartItem.id (g item) = B64.CartItem.id item) ->
  List.map B64.CartItem.id (List.map g l) = List.map B64.CartItem.id l.
Proof.
  intros Hid. rewrite List.map_map. apply List.map_ext. exact Hid.
Qed.

Lemma ids64_add (s : B64.CartState) (p : B64.Product.t) :
  (B64.Product.id p ∈ B64.ids s /\
   B64.ids (B64.addItemToCart s p) = B64.ids s) \/
  ((B64.Product.id p ∉ B64.ids s) /\
   B64.ids (B64.addItemToCart s p) = B64.ids s ++ [B64.Product.id p]).
Proof.
  unfold B64.ids.
  destruct (B64.findCartItemById (B64.items s) (B64.Product.id p))
    as [e|] eqn:Hfind.
  - left. rewrite (add64_found s p e Hfind). split.
    + apply find64_Some in Hfind as [Hin <-].
      apply list_elem_of_fmap. by exists e.
    + apply ids64_map. intros item. apply increment64_id.
  - right. rewrite (add64_missing s p Hfind).
    split; [by apply find64_None|]. by rewrite List.map_app.
Qed.

Lemma ids64_remove_sublist (s : B64.CartState) (productId : string) :
  sublist (B64.ids (B64.removeItemFromCart s productId)) (B64.ids s).
Proof.
  unfold B64.removeItemFromCart, B64.ids. simpl.
  induction (B64.items s) as [|item l IH]; simpl; [constructor|].
  destruct (B64.otherThan productId item); simpl.
  - by apply sublist_skip.
  - by apply sublist_cons.
Qed.


Lemma ids64_update (s : B64.CartState) (productId : string) (q : number) :
  sublist (B64.ids (B64.updateItemQuantity s productId q)) (B64.ids s).
Proof.
  destruct (update64_cases s productId q) as [[_ ->]|[_ Hmap]].
  - apply ids64_remove_sublist.
  - unfold B64.ids. rewrite Hmap, ids64_map; [reflexivity|].
    intros item. apply replaceQuantity64_id.
Qed.




Lemma step64_quantities (s : B64.CartState) (op : B64.Op) :
  B64.keepsInvariant op ->
  Forall (fun item =>
            Binary64.ge (B64.CartItem.quantity item) Binary64.one = true)
         (B64.items s) ->
  Forall (fun item =>
            Binary64.ge (B64.CartItem.quantity item) Binary64.one = true)
         (B64.items (B64.step s op)).
Proof.
  intros Hop Hq. destruct op as [p|productId|productId q|]; simpl.
  - unfold B64.addItemToCart.
    destruct (B64.findCartItemById (B64.items s) (B64.Product.id p)); simpl.
    + induction Hq as [|item l Hitem _ IH]; simpl; constructor; [|done].
      unfold B64.increment.
      destruct (String.eqb (B64.CartItem.id item) (B64.Product.id p));
        simpl; [by apply add_one_ge_one | done].
    + apply Forall_app. split; [done|]. constructor; [reflexivity|constructor].
  - unfold B64.removeItemFromCart. simpl.
    induction Hq as [|item l Hitem _ IH]; simpl; [constructor|].
    destruct (B64.otherThan productId item); [|done]. by constructor.
  - destruct (update64_cases s productId q) as [[_ ->]|[Hle Hmap]].
    + unfold B64.removeItemFromCart. simpl.
      induction Hq as [|item l Hitem _ IH]; simpl; [constructor|].
      destruct (B64.otherThan productId item); [|done]. by constructor.
    + rewrite Hmap. clear Hmap. cbn [B64.keepsInvariant] in Hop.
      destruct Hop as [Hop|Hop]; [congruence|].
      induction Hq as [|item l Hitem _ IH]; simpl; constructor; [|done].
      unfold B64.replaceQuantity.
      by destruct (String.eqb (B64.CartItem.id item) productId).
  - constructor.
Qed.


Lemma step64_distinct (s : B64.CartState) (op : B64.Op) :
  NoDup (B64.ids s) -> NoDup (B64.ids (B64.step s op)).
Proof.
  intros Hnd. destruct op as [p|productId|productId q|]; simpl.
  - destruct (ids64_add s p) as [[_ ->]|[Hnew ->]]; [done|].
    apply NoDup_app. split; [done|]. split; [|apply NoDup_singleton].
    intros x Hx Hx'. by apply list_elem_of_singleton in Hx' as ->.
  - eapply sublist_NoDup; [done | apply ids64_remove_sublist].
  - eapply sublist_NoDup; [done | apply ids64_update].
  - apply NoDup_nil_2.
Qed.

Lemma step64_cartInvariant (s : B64.CartState) (op : B64.Op) :
  B64.keepsInvariant op -> B64.cartInvariant s ->
  B64.cartInvariant (B64.step s op).
Proof.
  intros Hop [Hq Hnd]. split; [by apply step64_quantities|].
  by apply step64_distinct.
Qed.


End Engine64.

(** * The integer view *)

Section IntegerView.
Import Js.

Lemma view_ids (wp : bool) (s : B64.CartState) (zs : CartState) :
  View.state wp s zs -> B64.ids s = ids zs.
Proof.
  unfold View.state, B64.ids, ids.
  induction 1 as [|b a l zl (Hid & _) _ IH]; simpl; [done|]. by rewrite Hid, IH.
Qed.

Lemma view_find (wp : bool) (l : list B64.CartItem.t) (zl : list CartItem.t)
  (productId : string) :
  Forall2 (View.item wp) l zl ->
  match B64.findCartItemById l productId, findCartItemById zl productId with
  | Some b, Some a => View.item wp b a
  | None, None => True
  | _, _ => False
  end.
Proof.
  unfold B64.findCartItemById, findCartItemById.
  induction 1 as [|b a l zl Hba _ IH]; simpl; [done|].
  destruct Hba as (Hid & Hrest). rewrite Hid.
  destruct (String.eqb (CartItem.id a) productId); [|exact IH].
  by split.
Qed.

Lemma view_add (wp : bool) (s : B64.CartState) (zs : CartState)
  (p : B64.Product.t) (pz : Product.t) :
  View.state wp s zs -> View.product wp p pz ->
  Forall (fun a => Z.abs (CartItem.quantity a + 1) <= 2 ^ 53) (items zs) ->
  View.state wp (B64.addItemToCart s p) (addItemToCart zs pz).
Proof.
  intros Hview (Hpid & Hprice) Hsafe. unfold View.state in *.
  pose proof (view_find wp _ _ (Product.id pz) Hview) as Hfind.
  unfold B64.addItemToCart, addItemToCart. rewrite Hpid.
  destruct (B64.findCartItemById (B64.items s) (Product.id pz)) as [b|],
    (findCartItemById (items zs) (Product.id pz)) as [a|];
    try done; simpl.
  - clear Hfind. revert Hsafe.
    induction Hview as [|b' a' l zl (Hid & Hq & Hp) _ IH]; intros Hsafe;
      simpl; constructor.
    + unfold B64.increment. rewrite Hid.
      destruct (String.eqb (CartItem.id a') (Product.id pz)); [|done].
      split; [done|]. split; [|done]. simpl. rewrite Hq.
      change Binary64.one with (Binary64.ofZ 1). apply add_ofZ.
      by inversion Hsafe.
    + apply IH. by inversion Hsafe.
  - apply Forall2_app; [done|]. constructor; [|constructor].
    split; [done|]. split; [reflexivity|]. exact Hprice.
Qed.

Lemma view_remove (wp : bool) (s : B64.CartState) (zs : CartState)
  (productId : string) :
  View.state wp s zs ->
  View.state wp (B64.removeItemFromCart s productId)
             (removeItemFromCart zs productId).
Proof.
  unfold View.state, B64.removeItemFromCart, removeItemFromCart. simpl.
  induction 1 as [|b a l zl Hba _ IH]; simpl; [constructor|].
  unfold B64.otherThan at 1. destruct Hba as (Hid & Hrest). rewrite Hid.
  destruct (negb (String.eqb (CartItem.id a) productId)); [|exact IH].
  constructor; [by split | exact IH].
Qed.



Lemma quantity_le_count (l : list CartItem.t) (a : CartItem.t) :
  Forall (fun a => 0 <= CartItem.quantity a) l -> a ∈ l ->
  CartItem.quantity a <= calculateTotalCount l.
Proof.
  induction 1 as [|x l Hx Hl IH]; intros Hin; [by apply elem_of_nil in Hin|].
  rewrite calculateTotalCount_cons.
  assert (0 <= calculateTotalCount l) as Hnn.
  { clear -Hl. induction Hl as [|y l Hy _ IH]; [done|].
    rewrite calculateTotalCount_cons. lia. }
  apply elem_of_cons in Hin as [->|Hin]; [lia|]. specialize (IH Hin). lia.
Qed.

Lemma sum_acc_nonneg {A : Type} (f : A -> Z) (l : list A) (acc : Z) :
  Forall (fun x => 0 <= f x) l -> 0 <= acc ->
  acc <= fold_left (fun total x => total + f x) l acc.
Proof.
  intros Hl. revert acc. induction Hl as [|x l Hx _ IH]; intros acc Hacc; simpl;
    [lia|].
  specialize (IH (acc + f x)). lia.
Qed.

Lemma count_exact_acc (wp : bool) (l : list B64.CartItem.t)
  (zl : list CartItem.t) (acc : Z) :
  Forall2 (View.item wp) l zl -> 0 <= acc ->
  Forall (fun a => 0 <= CartItem.quantity a) zl ->
  fold_left (fun total item => total + CartItem.quantity item) zl acc
  <= 2 ^ 53 ->
  fold_left (fun total item => Binary64.add total (B64.CartItem.quantity item))
            l (Binary64.ofZ acc)
  = Binary64.ofZ
      (fold_left (fun total item => total + CartItem.quantity item) zl acc).
Proof.
  intros Hview. revert acc.
  induction Hview as [|b a l zl (Hid & Hq & Hp) _ IH]; intros acc Hacc Hnn Hsum;
    simpl; [done|].
  inversion Hnn as [|? ? Ha Hnn']; subst. simpl in Hsum.
  pose proof (sum_acc_nonneg CartItem.quantity zl (acc + CartItem.quantity a)
                Hnn') as Hmono.
  rewrite Hq, add_ofZ by lia. apply IH; [lia|done|done].
Qed.

(** The binary64 count of quantities that are non-negative integers with a
    sum of at most [2^53] is their exact sum. *)
Lemma count_exact (wp : bool) (s : B64.CartState) (zs : CartState) :
  View.state wp s zs ->
  Forall (fun a => 0 <= CartItem.quantity a) (items zs) ->
  stateTotalCount zs <= 2 ^ 53 ->
  B64.stateTotalCount s = Binary64.ofZ (stateTotalCount zs).
Proof.
  intros Hview Hnn Hsum.
  apply (count_exact_acc wp _ _ 0 Hview); [lia|done|exact Hsum].
Qed.

Lemma subtotal_exact_acc (l : list B64.CartItem.t) (zl : list CartItem.t)
  (acc : Z) :
  Forall2 (View.item true) l zl -> 0 <= acc ->
  Forall (fun a => 0 <= CartItem.price a /\ 0 <= CartItem.quantity a) zl ->
  fold_left
    (fun total item => total + CartItem.price item * CartItem.quantity item)
    zl acc <= 2 ^ 53 ->
  fold_left
    (fun total item =>
       Binary64.add total
         (Binary64.mul (B64.CartItem.price item) (B64.CartItem.quantity item)))
    l (Binary64.ofZ acc)
  = Binary64.ofZ
      (fold_left
         (fun total item =>
            total + CartItem.price item * CartItem.quantity item)
         zl acc).
Proof.
  intros Hview. revert acc.
  induction Hview as [|b a l zl (Hid & Hq & Hp) _ IH]; intros acc Hacc Hnn Hsum;
    simpl; [done|].
  inversion Hnn as [|? ? [Hpa Hqa] Hnn']; subst. simpl in Hsum.
  assert (0 <= CartItem.price a * CartItem.quantity a) as Hprod by nia.
  assert (Forall (fun x => 0 <= CartItem.price x * CartItem.quantity x) zl)
    as Hnn''.
  { eapply Forall_impl; [exact Hnn'|]. simpl. intros x [? ?]. nia. }
  pose proof (sum_acc_nonneg
                (fun x => CartItem.price x * CartItem.quantity x) zl
                (acc + CartItem.price a * CartItem.quantity a) Hnn'') as Hmono.
  rewrite Hq, (Hp eq_refl), mul_ofZ, add_ofZ by lia.
  apply IH; [lia|done|done].
Qed.

(** The binary64 subtotal of prices and quantities that are non-negative
    integers with an exact subtotal of at most [2^53] is that subtotal. *)
Lemma subtotal_exact (s : B64.CartState) (zs : CartState) :
  View.state true s zs -> View.nonNegative zs ->
  stateSubtotal zs <= 2 ^ 53 ->
  B64.stateSubtotal s = Binary64.ofZ (stateSubtotal zs).
Proof.
  intros Hview Hnn Hsum.
  apply (subtotal_exact_acc _ _ 0 Hview); [lia|done|exact Hsum].
Qed.

End IntegerView.

(** * The claims on binary64 numbers *)

Section Claims64.
Import Js.

(** ** C1 on binary64 numbers *)

(** C1, amended. For every state and product: when some line item carries
    the product's id, [addItemToCart] keeps the number and the positions of
    the line items, gives every line item with that id its old id, name,
    price and image and the binary64 sum of its quantity and 1 - which is
    the quantity plus 1 whenever the quantity is an integer and the sum is at
    most [2^53] in magnitude - and leaves the others untouched; when no line
    item carries it, the result is the old list with one line item
    appended, of quantity 1 and with the product's id, name, price and
    image. *)
Theorem addItemToCart64_increments_or_appends (s : B64.CartState)
  (p : B64.Product.t) :
  ((exists item, item ∈ B64.items s /\
                 B64.CartItem.id item = B64.Product.id p) ->
     length (B64.items (B64.addItemToCart s p)) = length (B64.items s) /\
     forall (i : nat) (item : B64.CartItem.t),
       B64.items s !! i = Some item ->
       (B64.CartItem.id item = B64.Product.id p ->
          B64.items (B64.addItemToCart s p) !! i
          = Some (B64.CartItem.mk (B64.CartItem.id item)
                    (B64.CartItem.name item) (B64.CartItem.price item)
                    (B64.CartItem.image item)
                    (Binary64.add (B64.CartItem.quantity item) Binary64.one))
          /\
          forall z : Z,
            B64.CartItem.quantity item = Binary64.ofZ z ->
            Z.abs (z + 1) <= 2 ^ 53 ->
            Binary64.add (B64.CartItem.quantity item) Binary64.one
            = Binary64.ofZ (z + 1)) /\
       (B64.CartItem.id item <> B64.Product.id p ->
          B64.items (B64.addItemToCart s p) !! i = Some item))
  /\
  ((forall item, item ∈ B64.items s ->
                 B64.CartItem.id item <> B64.Product.id p) ->
     B64.items (B64.addItemToCart s p)
     = B64.items s ++ [B64.CartItem.mk (B64.Product.id p) (B64.Product.name p)
                         (B64.Product.price p) (B64.Product.image p)
                         Binary64.one]).
Proof.
  split.
  - intros (found & Hin & Hid).
    destruct (B64.findCartItemById (B64.items s) (B64.Product.id p))
      as [e|] eqn:Hfind.
    + rewrite (add64_found s p e Hfind). split; [apply length_map|].
      intros i item Hi. rewrite lookup_map, Hi. simpl. unfold B64.increment.
      destruct (String.eqb_spec (B64.CartItem.id item) (B64.Product.id p));
        split; intros; try done.
      split; [reflexivity|]. intros z -> Hz.
      change Binary64.one with (Binary64.ofZ 1). by apply add_ofZ.
    + exfalso. apply find64_None in Hfind. apply Hfind.
      rewrite <- Hid. apply list_elem_of_fmap. by exists found.
  - intros Hnone.
    destruct (B64.findCartItemById (B64.items s) (B64.Product.id p))
      as [e|] eqn:Hfind.
    + apply find64_Some in Hfind as [Hin Hid]. by destruct (Hnone e Hin).
    + by rewrite (add64_missing s p Hfind).
Qed.

(** C1 as stated fails at a quantity of [2^53]: adding the product again
    leaves the quantity, and the whole state, as it was. *)
Lemma addItemToCart64_saturates :
  B64.addItemToCart Samples64.saturatedCart Samples64.iphone = Samples64.saturatedCart /\
  (forall item, item ∈ B64.items (B64.addItemToCart Samples64.saturatedCart Samples64.iphone) ->
     B64.CartItem.quantity item = Binary64.ofZ (2 ^ 53) /\
     B64.CartItem.quantity item <> Binary64.ofZ (2 ^ 53 + 1)).
Proof.
  split; [reflexivity|]. intros item Hin.
  apply list_elem_of_singleton in Hin as ->. split; [reflexivity|].
  vm_compute. discriminate.
Qed.

(** ** C4 on binary64 numbers *)





(** ** C5 on binary64 numbers *)

Lemma add64_has_id (s : B64.CartState) (p : B64.Product.t) :
  B64.Product.id p ∈ B64.ids (B64.addItemToCart s p).
Proof.
  destruct (ids64_add s p) as [[Hin ->]|[_ ->]]; [done|].
  apply elem_of_app. right. apply list_elem_of_here.
Qed.

(** C5, amended. [addItemToCart] validates nothing and never fails: for
    every state and every product, well-formed or not, it returns a state
    that holds a line item with the product's id, and a product whose id is
    new to the state is appended with its own id, name, price and image; on
    the well-formed products it is the total function the specification
    describes. *)
Theorem addItemToCart64_never_rejects (s : B64.CartState)
  (p : B64.Product.t) :
  (exists s' : B64.CartState,
     B64.addItemToCart s p = s' /\
     B64.Product.id p ∈ B64.ids s' /\
     ((B64.Product.id p ∉ B64.ids s) ->
        B64.items s'
        = B64.items s ++ [B64.CartItem.mk (B64.Product.id p)
                            (B64.Product.name p) (B64.Product.price p)
                            (B64.Product.image p) Binary64.one])) /\
  (B64.wellFormedProduct p = true ->
   B64.specAddItem s p = inr (B64.addItemToCart s p)).
Proof.
  split.
  - exists (B64.addItemToCart s p). split; [reflexivity|].
    split; [apply add64_has_id|].
    intros Habsent. apply find64_None in Habsent.
    by rewrite (add64_missing s p Habsent).
  - intros Hwf. unfold B64.specAddItem. by rewrite Hwf.
Qed.

(** C5 as stated fails: a product with an empty id, an empty name and a
    negative price is not rejected but inserted. *)
Lemma addItemToCart64_inserts_malformed_product :
  B64.wellFormedProduct Samples64.malformedProduct = false /\
  B64.specAddItem B64.createEmptyCart Samples64.malformedProduct = inl ValidationError /\
  B64.items (B64.addItemToCart B64.createEmptyCart Samples64.malformedProduct)
  = [B64.CartItem.mk "" "" (Binary64.ofZ (-5)) "" Binary64.one] /\
  B64.specAddItem B64.createEmptyCart Samples64.malformedProduct
  <> inr (B64.addItemToCart B64.createEmptyCart Samples64.malformedProduct).
Proof. repeat split; try reflexivity. discriminate. Qed.

End Claims64.

Section Totals64.
Import Js.


Lemma nonneg_quantities_addItemToCart (zs : CartState) (pz : Product.t) :
  Forall (fun a => 0 <= CartItem.quantity a) (items zs) ->
  Forall (fun a => 0 <= CartItem.quantity a) (items (addItemToCart zs pz)).
Proof.
  unfold addItemToCart. intros Hnn.
  destruct (findCartItemById (items zs) (Product.id pz)); simpl.
  - induction Hnn as [|a l Ha _ IH]; simpl; constructor; [|done].
    destruct (String.eqb (CartItem.id a) (Product.id pz)); simpl; lia.
  - apply Forall_app. split; [done|]. constructor; [simpl; lia|constructor].
Qed.

Lemma nonneg_removeItemFromCart (zs : CartState) (productId : string) :
  View.nonNegative zs -> View.nonNegative (removeItemFromCart zs productId).
Proof.
  unfold View.nonNegative, removeItemFromCart. simpl.
  induction 1 as [|a l Ha _ IH]; simpl; [constructor|].
  destruct (negb (String.eqb (CartItem.id a) productId)); [|done].
  by constructor.
Qed.


Lemma nonneg_quantities (zs : CartState) :
  View.nonNegative zs ->
  Forall (fun a => 0 <= CartItem.quantity a) (items zs).
Proof. intros H. eapply Forall_impl; [exact H|]. by intros a [_ ?]. Qed.

(** ** C7 on binary64 numbers *)

(** C7, amended. For every state whose line items carry pairwise distinct
    ids and whose quantities are non-negative integers with a sum below
    [2^53], and every product, adding the product raises the total count by
    exactly 1; the total count of the empty state is 0. *)
Theorem totalCount64_addItemToCart (s : B64.CartState) (zs : CartState)
  (p : B64.Product.t)
  (Hview : View.state false s zs)
  (Hdistinct : NoDup (B64.ids s))
  (Hnonneg : Forall (fun a => 0 <= CartItem.quantity a) (items zs))
  (Hsafe : stateTotalCount zs + 1 <= 2 ^ 53) :
  B64.stateTotalCount s = Binary64.ofZ (stateTotalCount zs) /\
  B64.stateTotalCount (B64.addItemToCart s p)
  = Binary64.ofZ (stateTotalCount zs + 1) /\
  B64.stateTotalCount (B64.addItemToCart s p)
  = Binary64.add (B64.stateTotalCount s) Binary64.one /\
  B64.stateTotalCount B64.createEmptyCart = Binary64.zero.
Proof.
  set (pz := Product.mk (B64.Product.id p) "" 0 "" "").
  assert (View.product false p pz) as Hp by (split; [reflexivity|done]).
  assert (B64.stateTotalCount s = Binary64.ofZ (stateTotalCount zs)) as Hbefore
    by (apply (count_exact false); [done|done|lia]).
  assert (stateTotalCount (addItemToCart zs pz) = stateTotalCount zs + 1)
    as Hz.
  { apply integerView_totalCount_addItemToCart.
    by rewrite <- (view_ids false s zs). }
  assert (View.state false (B64.addItemToCart s p) (addItemToCart zs pz))
    as Hview'.
  { apply view_add; [done|done|].
    apply Forall_forall. intros a Ha.
    pose proof (quantity_le_count (items zs) a Hnonneg Ha) as Hle.
    rewrite Forall_forall in Hnonneg. specialize (Hnonneg a Ha). simpl in Hnonneg.
    unfold stateTotalCount in Hsafe. simpl in Hsafe. lia. }
  assert (B64.stateTotalCount (B64.addItemToCart s p)
          = Binary64.ofZ (stateTotalCount zs + 1)) as Hafter.
  { rewrite <- Hz. apply (count_exact false); [done| |lia].
    by apply nonneg_quantities_addItemToCart. }
  split; [exact Hbefore|]. split; [exact Hafter|]. split; [|reflexivity].
  rewrite Hafter, Hbefore. change Binary64.one with (Binary64.ofZ 1).
  symmetry. apply add_ofZ.
  assert (0 <= stateTotalCount zs)
    by (apply (sum_acc_nonneg CartItem.quantity (items zs) 0); [done|lia]).
  lia.
Qed.

Lemma twoItemCart_view (wp : bool) : View.state wp Samples64.twoItemCart twoItemCart.
Proof. repeat constructor; reflexivity. Defined.

Lemma totalCount64_addItemToCart_witness :
  B64.stateTotalCount Samples64.twoItemCart = Binary64.ofZ 3 /\
  B64.stateTotalCount (B64.addItemToCart Samples64.twoItemCart Samples64.iphone)
  = Binary64.ofZ (3 + 1) /\
  B64.stateTotalCount (B64.addItemToCart Samples64.twoItemCart Samples64.iphone)
  = Binary64.add (B64.stateTotalCount Samples64.twoItemCart) Binary64.one /\
  B64.stateTotalCount B64.createEmptyCart = Binary64.zero.
Proof.
  apply (totalCount64_addItemToCart Samples64.twoItemCart twoItemCart Samples64.iphone).
  - apply twoItemCart_view.
  - apply NoDup_cons. split; [|apply NoDup_singleton].
    intros H. apply list_elem_of_singleton in H. discriminate H.
  - repeat constructor; simpl; lia.
  - vm_compute. discriminate.
Defined.

(** C7 as stated fails twice over: on a state with a repeated id every
    line item with the id is incremented and the count goes from 3 to 5;
    and with distinct ids and quantities [2^53] and 1 the count goes from
    [2^53] (the sum [2^53 + 1] rounds down) to [2^53 + 2]. *)
Lemma totalCount64_addItemToCart_fails :
  B64.stateTotalCount Samples64.duplicatedCart = Binary64.ofZ 3 /\
  B64.stateTotalCount (B64.addItemToCart Samples64.duplicatedCart Samples64.iphone)
  = Binary64.ofZ 5 /\
  NoDup (B64.ids Samples64.largeAndOne) /\
  B64.stateTotalCount Samples64.largeAndOne = Binary64.ofZ (2 ^ 53) /\
  B64.stateTotalCount (B64.addItemToCart Samples64.largeAndOne Samples64.macbook)
  = Binary64.ofZ (2 ^ 53 + 2) /\
  ~ (forall (s : B64.CartState) (p : B64.Product.t),
       NoDup (B64.ids s) ->
       B64.stateTotalCount (B64.addItemToCart s p)
       = Binary64.add (B64.stateTotalCount s) Binary64.one).
Proof.
  assert (NoDup (B64.ids Samples64.largeAndOne)) as Hnd.
  { apply NoDup_cons. split; [|apply NoDup_singleton].
    intros H. apply list_elem_of_singleton in H. discriminate H. }
  split; [reflexivity|]. split; [reflexivity|]. split; [exact Hnd|].
  split; [reflexivity|]. split; [reflexivity|].
  intros H. specialize (H Samples64.largeAndOne Samples64.macbook Hnd). vm_compute in H.
  discriminate H.
Qed.

(** ** C9 on binary64 numbers *)




End Totals64.

(** * More properties of the engine on binary64 numbers *)

Section Extras64.
Import Js.

Lemma nonneg_sums (zs : CartState) :
  View.nonNegative zs -> 0 <= stateTotalCount zs /\ 0 <= stateSubtotal zs.
Proof.
  intros Hnn. unfold stateTotalCount, stateSubtotal. simpl. split.
  - apply (sum_acc_nonneg CartItem.quantity (items zs) 0); [|lia].
    by apply nonneg_quantities.
  - apply (sum_acc_nonneg (fun i => CartItem.price i * CartItem.quantity i)
             (items zs) 0); [|lia].
    eapply Forall_impl; [exact Hnn|]. intros a [? ?]. simpl. nia.
Qed.

Lemma nonneg_stored (zs : CartState) (a : CartItem.t) :
  View.nonNegative zs -> a ∈ items zs ->
  0 <= CartItem.price a /\ 0 <= CartItem.quantity a.
Proof.
  unfold View.nonNegative. rewrite Forall_forall. intros H Hin. by apply H.
Qed.

(** X2. In a state with pairwise distinct ids whose prices and quantities
    are non-negative integers, with a total count and a subtotal of at most
    [2^53], removing the id of a stored line item lowers the total count by
    that line item's quantity and the subtotal by its price times its
    quantity. *)
Theorem removeItemFromCart64_totals (s : B64.CartState) (zs : CartState)
  (stored : CartItem.t)
  (Hview : View.state true s zs)
  (Hdistinct : NoDup (B64.ids s))
  (Hstored : stored ∈ items zs)
  (Hnonneg : View.nonNegative zs)
  (Hcount : stateTotalCount zs <= 2 ^ 53)
  (Hsubtotal : stateSubtotal zs <= 2 ^ 53) :
  B64.stateTotalCount s = Binary64.ofZ (stateTotalCount zs) /\
  B64.stateSubtotal s = Binary64.ofZ (stateSubtotal zs) /\
  B64.stateTotalCount (B64.removeItemFromCart s (CartItem.id stored))
  = Binary64.ofZ (stateTotalCount zs - CartItem.quantity stored) /\
  B64.stateSubtotal (B64.removeItemFromCart s (CartItem.id stored))
  = Binary64.ofZ
      (stateSubtotal zs - CartItem.price stored * CartItem.quantity stored).
Proof.
  assert (NoDup (ids zs)) as Hdz by (by rewrite <- (view_ids true s zs)).
  destruct (integerView_removeItemFromCart_totals zs stored Hdz Hstored) as [Hc Hs].
  pose proof (view_remove true s zs (CartItem.id stored) Hview) as Hview'.
  pose proof (nonneg_removeItemFromCart zs (CartItem.id stored) Hnonneg)
    as Hnn'.
  destruct (nonneg_stored zs stored Hnonneg Hstored) as [Hp Hq].
  split; [|split; [|split]].
  - apply (count_exact true); [done|by apply nonneg_quantities|done].
  - by apply subtotal_exact.
  - rewrite <- Hc. apply (count_exact true);
      [done|by apply nonneg_quantities|lia].
  - rewrite <- Hs. apply subtotal_exact; [done|done|nia].
Qed.

Lemma twoItemCart64_distinct : NoDup (B64.ids Samples64.twoItemCart).
Proof.
  apply NoDup_cons. split; [|apply NoDup_singleton].
  intros H. apply list_elem_of_singleton in H. discriminate H.
Defined.

Lemma removeItemFromCart64_totals_witness :
  B64.stateTotalCount Samples64.twoItemCart = Binary64.ofZ 3 /\
  B64.stateSubtotal Samples64.twoItemCart = Binary64.ofZ 109700 /\
  B64.stateTotalCount (B64.removeItemFromCart Samples64.twoItemCart "1")
  = Binary64.ofZ (3 - 2) /\
  B64.stateSubtotal (B64.removeItemFromCart Samples64.twoItemCart "1")
  = Binary64.ofZ (109700 - 36900 * 2).
Proof.
  apply (removeItemFromCart64_totals Samples64.twoItemCart twoItemCart
           (CartItem.mk "1" "iPhone 15 Pro" 36900 "iphone.png" 2)).
  - apply twoItemCart_view.
  - apply twoItemCart64_distinct.
  - apply list_elem_of_here.
  - repeat constructor; simpl; lia.
  - vm_compute. discriminate.
  - vm_compute. discriminate.
Defined.



(** Where the totals leave the integers a binary64 number holds, the two
    statements above stop: with quantities [2^53] and 1 the count is [2^53];
    removing the first line item leaves 1, and setting the second quantity
    to 3 gives [2^53 + 4]. *)
Example totals64_beyond_safe_integers :
  B64.stateTotalCount Samples64.largeAndOne = Binary64.ofZ (2 ^ 53) /\
  B64.stateTotalCount (B64.removeItemFromCart Samples64.largeAndOne "1")
  = Binary64.ofZ 1 /\
  B64.stateTotalCount (B64.updateItemQuantity Samples64.largeAndOne "2" (Binary64.ofZ 3))
  = Binary64.ofZ (2 ^ 53 + 4).
Proof. repeat split; reflexivity. Qed.

Lemma find64_map_preserving (productId : string)
  (g : B64.CartItem.t -> B64.CartItem.t) (l : list B64.CartItem.t) :
  (forall item, B64.CartItem.id (g item) = B64.CartItem.id item) ->
  B64.findCartItemById (List.map g l) productId
  = g <$> B64.findCartItemById l productId.
Proof.
  intros Hid. unfold B64.findCartItemById.
  induction l as [|x l IH]; [reflexivity|]. simpl. rewrite Hid.
  by destruct (String.eqb (B64.CartItem.id x) productId).
Qed.

Lemma find64_app_singleton (l : list B64.CartItem.t) (x : B64.CartItem.t)
  (productId : string) :
  B64.findCartItemById (l ++ [x]) productId
  = match B64.findCartItemById l productId with
    | Some e => Some e
    | None => if String.eqb (B64.CartItem.id x) productId then Some x else None
    end.
Proof.
  unfold B64.findCartItemById.
  induction l as [|y l IH]; [reflexivity|]. simpl.
  by destruct (String.eqb (B64.CartItem.id y) productId).
Qed.

(** X7. Lookup after [addItemToCart]: the product's id is found, as the
    line item that was already stored with its quantity replaced by the
    binary64 sum of the quantity and 1 (the quantity plus 1 when that is an
    integer of magnitude at most [2^53]; the sum can be the old quantity
    again, as at [2^53]), or as a fresh line item of quantity 1 built from
    the product; the lookup of every other id is unchanged. *)
Theorem findCartItemById64_after_addItemToCart (s : B64.CartState)
  (p : B64.Product.t) (other : string) :
  B64.findCartItemById (B64.items (B64.addItemToCart s p)) (B64.Product.id p)
  = Some (match B64.findCartItemById (B64.items s) (B64.Product.id p) with
          | Some e =>
              B64.CartItem.mk (B64.CartItem.id e) (B64.CartItem.name e)
                (B64.CartItem.price e) (B64.CartItem.image e)
                (Binary64.add (B64.CartItem.quantity e) Binary64.one)
          | None =>
              B64.CartItem.mk (B64.Product.id p) (B64.Product.name p)
                (B64.Product.price p) (B64.Product.image p) Binary64.one
          end) /\
  (forall (e : B64.CartItem.t) (z : Z),
     B64.findCartItemById (B64.items s) (B64.Product.id p) = Some e ->
     B64.CartItem.quantity e = Binary64.ofZ z -> Z.abs (z + 1) <= 2 ^ 53 ->
     Binary64.add (B64.CartItem.quantity e) Binary64.one
     = Binary64.ofZ (z + 1)) /\
  (other <> B64.Product.id p ->
   B64.findCartItemById (B64.items (B64.addItemToCart s p)) other
   = B64.findCartItemById (B64.items s) other) /\
  B64.findCartItemById
    (B64.items (B64.addItemToCart Samples64.saturatedCart Samples64.iphone)) "1"
  = B64.findCartItemById (B64.items Samples64.saturatedCart) "1".
Proof.
  split; [|split; [|split; [|reflexivity]]].
  - destruct (B64.findCartItemById (B64.items s) (B64.Product.id p))
      as [e|] eqn:Hfind.
    + rewrite (add64_found s p e Hfind).
      rewrite find64_map_preserving, Hfind by apply increment64_id.
      simpl. f_equal. unfold B64.increment.
      apply find64_Some in Hfind as [_ Heq].
      apply String.eqb_eq in Heq. by rewrite Heq.
    + rewrite (add64_missing s p Hfind).
      rewrite find64_app_singleton, Hfind. simpl. by rewrite String.eqb_refl.
  - intros e z _ Hq Hsafe. rewrite Hq.
    change Binary64.one with (Binary64.ofZ 1). by apply add_ofZ.
  - intros Hne.
    destruct (B64.findCartItemById (B64.items s) (B64.Product.id p))
      as [e|] eqn:Hfind.
    + rewrite (add64_found s p e Hfind).
      rewrite find64_map_preserving by apply increment64_id.
      destruct (B64.findCartItemById (B64.items s) other) as [o|] eqn:Ho;
        [|done].
      simpl. f_equal. unfold B64.increment.
      apply find64_Some in Ho as [_ Heq].
      destruct (String.eqb_spec (B64.CartItem.id o) (B64.Product.id p));
        congruence.
    + rewrite (add64_missing s p Hfind). rewrite find64_app_singleton.
      destruct (B64.findCartItemById (B64.items s) other); [done|]. simpl.
      destruct (String.eqb_spec (B64.Product.id p) other); congruence.
Qed.

Lemma fee64_cases (totalPrice : number) :
  (B64.calculateShippingFee totalPrice = Binary64.zero /\
   Binary64.ge totalPrice (Binary64.ofZ 5000) = true) \/
  (B64.calculateShippingFee totalPrice = Binary64.ofZ 100 /\
   Binary64.ge totalPrice (Binary64.ofZ 5000) = false).
Proof.
  unfold B64.calculateShippingFee.
  change SHIPPING_CONFIG.FREE_SHIPPING_THRESHOLD with 5000.
  change SHIPPING_CONFIG.SHIPPING_FEE with 100.
  destruct (Binary64.ge totalPrice (Binary64.ofZ 5000)); [by left|by right].
Qed.

(** X9. The amount due is the binary64 sum of the subtotal and a fee that
    is either 0 or 100, the fee being 0 exactly when the subtotal is at
    least 5000.  For carts whose prices and quantities are non-negative
    integers and whose subtotal is at most [2^53], the amount due is not
    monotone in the subtotal: below the threshold it is the subtotal plus
    100, from the threshold on it is the subtotal, so a cart below the
    threshold owes more than any cart at or above it with a subtotal less
    than 100 higher.  For the empty cart the derived data are count 0,
    subtotal 0, fee 100 and amount due 100. *)
Theorem grandTotal64_drops_across_threshold (s s' : B64.CartState)
  (zs zs' : CartState)
  (Hview : View.state true s zs) (Hview' : View.state true s' zs')
  (Hnonneg : View.nonNegative zs) (Hnonneg' : View.nonNegative zs')
  (Hbelow : stateSubtotal zs < SHIPPING_CONFIG.FREE_SHIPPING_THRESHOLD)
  (Habove : SHIPPING_CONFIG.FREE_SHIPPING_THRESHOLD <= stateSubtotal zs')
  (Hsafe : stateSubtotal zs' <= 2 ^ 53)
  (Hclose : stateSubtotal zs' - stateSubtotal zs < SHIPPING_CONFIG.SHIPPING_FEE) :
  Binary64.lt (B64.stateGrandTotal s') (B64.stateGrandTotal s) = true /\
  B64.stateGrandTotal s = Binary64.ofZ (stateSubtotal zs + 100) /\
  B64.stateGrandTotal s' = Binary64.ofZ (stateSubtotal zs') /\
  B64.stateGrandTotal s' = B64.stateSubtotal s' /\
  (forall t : B64.CartState,
     (B64.stateShippingFee t = Binary64.zero \/
      B64.stateShippingFee t = Binary64.ofZ 100) /\
     B64.stateGrandTotal t
     = Binary64.add (B64.stateSubtotal t) (B64.stateShippingFee t) /\
     (B64.stateShippingFee t = Binary64.zero <->
      Binary64.ge (B64.stateSubtotal t) (Binary64.ofZ 5000) = true)) /\
  B64.calculateCartDerivedData B64.createEmptyCart
  = B64.mkDerivedData Binary64.zero Binary64.zero
      (Binary64.ofZ 100) (Binary64.ofZ 100).
Proof.
  unfold SHIPPING_CONFIG.FREE_SHIPPING_THRESHOLD, SHIPPING_CONFIG.SHIPPING_FEE
    in *.
  destruct (nonneg_sums zs Hnonneg) as [_ Hz], (nonneg_sums zs' Hnonneg')
    as [_ Hz'].
  assert (B64.stateSubtotal s = Binary64.ofZ (stateSubtotal zs)) as Hsub
    by (apply subtotal_exact; [done|done|lia]).
  assert (B64.stateSubtotal s' = Binary64.ofZ (stateSubtotal zs')) as Hsub'
    by (by apply subtotal_exact).
  assert (B64.stateGrandTotal s = Binary64.ofZ (stateSubtotal zs + 100))
    as Hg.
  { change (B64.stateGrandTotal s)
      with (Binary64.add (B64.stateSubtotal s)
              (B64.calculateShippingFee (B64.stateSubtotal s))).
    destruct (fee64_cases (B64.stateSubtotal s)) as [[_ Hge]|[-> _]].
    - rewrite Hsub in Hge. unfold Binary64.ge in Hge. rewrite le_ofZ in Hge.
      apply Z.leb_le in Hge. lia.
    - rewrite Hsub. apply add_ofZ. lia. }
  assert (B64.stateGrandTotal s' = Binary64.ofZ (stateSubtotal zs')) as Hg'.
  { change (B64.stateGrandTotal s')
      with (Binary64.add (B64.stateSubtotal s')
              (B64.calculateShippingFee (B64.stateSubtotal s'))).
    destruct (fee64_cases (B64.stateSubtotal s')) as [[-> _]|[_ Hge]].
    - rewrite Hsub'. change Binary64.zero with (Binary64.ofZ 0).
      rewrite add_ofZ by lia. f_equal. lia.
    - rewrite Hsub' in Hge. unfold Binary64.ge in Hge. rewrite le_ofZ in Hge.
      apply Z.leb_gt in Hge. lia. }
  split; [|split; [exact Hg|split; [exact Hg'|split; [congruence|split]]]].
  - rewrite Hg, Hg', lt_ofZ. apply Z.ltb_lt. lia.
  - intros t.
    change (B64.stateShippingFee t)
      with (B64.calculateShippingFee (B64.stateSubtotal t)).
    split; [|split; [reflexivity|]].
    + destruct (fee64_cases (B64.stateSubtotal t)) as [[-> _]|[-> _]];
        [by left|by right].
    + destruct (fee64_cases (B64.stateSubtotal t)) as [[-> ->]|[-> ->]];
        [done|]. split; [|done]. intros H. discriminate H.
  - reflexivity.
Qed.

Lemma grandTotal64_drops_across_threshold_witness :
  Binary64.lt
    (B64.stateGrandTotal
       (B64.mkCartState
          [B64.CartItem.mk "7" "Case" (Binary64.ofZ 5000) "case.png"
             (Binary64.ofZ 1)]))
    (B64.stateGrandTotal
       (B64.mkCartState
          [B64.CartItem.mk "8" "Case" (Binary64.ofZ 4999) "case.png"
             (Binary64.ofZ 1)]))
  = true.
Proof.
  apply (grandTotal64_drops_across_threshold
           (B64.mkCartState
              [B64.CartItem.mk "8" "Case" (Binary64.ofZ 4999) "case.png"
                 (Binary64.ofZ 1)])
           (B64.mkCartState
              [B64.CartItem.mk "7" "Case" (Binary64.ofZ 5000) "case.png"
                 (Binary64.ofZ 1)])
           {| items := [CartItem.mk "8" "Case" 4999 "case.png" 1] |}
           {| items := [CartItem.mk "7" "Case" 5000 "case.png" 1] |}).
  - repeat constructor; reflexivity.
  - repeat constructor; reflexivity.
  - repeat constructor; simpl; lia.
  - repeat constructor; simpl; lia.
  - vm_compute. reflexivity.
  - vm_compute. discriminate.
  - vm_compute. discriminate.
  - vm_compute. reflexivity.
Defined.

(** Outside the integers a binary64 number holds the fee can vanish in the
    sum: a line item priced [-2^61] has a subtotal below the threshold, a
    fee of 100, and an amount due equal to the subtotal. *)
Example grandTotal64_absorbs_fee :
  let t :=
    B64.mkCartState
      [B64.CartItem.mk "1" "Refund" (Binary64.ofZ (- 2 ^ 61)) "refund.png"
         (Binary64.ofZ 1)] in
  B64.stateShippingFee t = Binary64.ofZ 100 /\
  B64.stateGrandTotal t = B64.stateSubtotal t /\
  Raw.isValidCartState (B64.ofCartState t) = Ok (Bool true).
Proof. repeat split; reflexivity. Qed.





(** A quantity change to NaN is stored and makes the engine's own state
    one that [isValidCartState] rejects. *)
Example reachable64_NaN_is_rejected :
  Raw.isValidCartState
    (B64.ofCartState
       (B64.run [B64.AddItem Samples64.iphone; B64.SetQuantity "1" NaN]
          B64.createEmptyCart))
  = Ok (Bool false).
Proof. reflexivity. Qed.

End Extras64.

(** * Properties of CartManager on binary64 numbers *)

Section Manager64Facts.
Import Js Storage Sync64.

Lemma saveState64_result (pf : Platform) (m : Manager64.t) :
  Manager64.saveState pf m
  = Ok (Manager64.mk (Manager64.state m)
          (savedStore pf (Manager64.store m) (Manager64.state m))
          (Manager64.log m)).
Proof.
  unfold Manager64.saveState, saveCartToStorage, savedStore. simpl.
  unfold safeSetToStorage, localStorage_setItem, itemsValue.
  destruct (JSON_stringify pf _) as [text|e]; [|reflexivity]. simpl.
  by destruct (setItem_error pf _ _ text).
Qed.

Lemma firstWithId64_find (l : list B64.CartItem.t) (productId : string) :
  Manager64.firstWithId l productId = B64.findCartItemById l productId.
Proof.
  unfold Manager64.firstWithId, B64.findCartItemById.
  induction l as [|item l IH]; [reflexivity|]. simpl.
  destruct (String.eqb (B64.CartItem.id item) productId); [|exact IH].
  clear IH. induction l as [|x l IH]; [reflexivity|]. exact IH.
Qed.

Lemma lastRendered64_acc (l : list Manager64.Event)
  (acc : option Manager64.Event) :
  fold_left
    (fun last e =>
       match e with
       | Manager64.Rendered _ _ _ => Some e
       | _ => last
       end)
    l acc
  = match lastRendered l with
    | Some e => Some e
    | None => acc
    end.
Proof.
  unfold lastRendered. revert acc.
  induction l as [|e l IH]; intros acc; [reflexivity|]. simpl.
  rewrite IH, (IH (match e with Manager64.Rendered _ _ _ => Some e
                           | _ => None end)).
  destruct (fold_left _ l None); [reflexivity|]. by destruct e.
Qed.

Lemma lastRendered64_app (l1 l2 : list Manager64.Event) :
  lastRendered (l1 ++ l2)
  = match lastRendered l2 with
    | Some e => Some e
    | None => lastRendered l1
    end.
Proof.
  unfold lastRendered at 1. rewrite fold_left_app. apply lastRendered64_acc.
Qed.

Lemma lastRendered64_none (l : list Manager64.Event) :
  forallb (fun e => negb (isRendered e)) l = true -> lastRendered l = None.
Proof.
  induction l as [|e l IH]; [reflexivity|]. simpl.
  rewrite andb_true_iff. intros [He Hl]. unfold lastRendered. simpl.
  rewrite lastRendered64_acc, (IH Hl). by destruct e.
Qed.

Ltac manager64_simpl :=
  simpl;
  unfold Manager64.updateDisplay, Manager64.showNotification,
    Manager64.emit, Manager64.setState;
  simpl; rewrite <- ?app_assoc; reflexivity.

Lemma updateQuantity64_result (pf : Platform) (m : Manager64.t)
  (productId : string) (q : number) :
  Manager64.updateQuantity pf m productId q
  = Ok (Manager64.mk
          (B64.updateItemQuantity (Manager64.state m) productId q)
          (savedStore pf (Manager64.store m)
             (B64.updateItemQuantity (Manager64.state m) productId q))
          (Manager64.log m
           ++ [rendering
                 (B64.updateItemQuantity (Manager64.state m) productId q)])).
Proof.
  unfold Manager64.updateQuantity. rewrite saveState64_result.
  manager64_simpl.
Qed.

(** What [changeQuantity] does: when the guard holds and the user turns
    the confirmation down, only the question is logged; in every other
    case the quantity is updated, saved and rendered, after the question
    when one was asked. *)
Lemma changeQuantity64_result (pf : Platform) (m : Manager64.t)
  (productId : string) (q : number) :
  let asks :=
    Manager64.guarded
      (B64.findCartItemById (B64.items (Manager64.state m)) productId) q in
  exists m' : Manager64.t,
    Manager64.changeQuantity pf m productId q = Ok m' /\
    (asks && Sync.declines pf = true ->
     Manager64.state m' = Manager64.state m /\
     Manager64.store m' = Manager64.store m /\
     Manager64.log m'
     = Manager64.log m ++ [Manager64.ConfirmAsked "你確定要刪除嗎？"]) /\
    (asks && Sync.declines pf = false ->
     Manager64.state m'
     = B64.updateItemQuantity (Manager64.state m) productId q /\
     Manager64.store m'
     = savedStore pf (Manager64.store m) (Manager64.state m') /\
     Manager64.log m'
     = Manager64.log m
       ++ (if asks && Sync.canAsk pf
           then [Manager64.ConfirmAsked "你確定要刪除嗎？"] else [])
       ++ [rendering (Manager64.state m')]).
Proof.
  intros asks. unfold Manager64.changeQuantity. rewrite firstWithId64_find.
  fold asks. destruct asks.
  - unfold Manager64.askToDelete, Sync.declines, Sync.canAsk.
    destruct (window pf) as [| |[go|e]] eqn:Hw.
    + cbn [negb]. rewrite updateQuantity64_result. eexists.
      split; [reflexivity|]. simpl. split; [done|]. intros _. by repeat split.
    + cbn [negb]. rewrite updateQuantity64_result. eexists.
      split; [reflexivity|]. simpl. split; [done|]. intros _. by repeat split.
    + assert (forall b : bool,
                exists m' : Manager64.t,
                  (if negb b
                   then Ok (Manager64.emit m
                              (Manager64.ConfirmAsked "你確定要刪除嗎？"))
                   else Manager64.updateQuantity pf
                          (Manager64.emit m
                             (Manager64.ConfirmAsked "你確定要刪除嗎？"))
                          productId q) = Ok m' /\
                  (true && negb b = true ->
                   Manager64.state m' = Manager64.state m /\
                   Manager64.store m' = Manager64.store m /\
                   Manager64.log m'
                   = Manager64.log m
                     ++ [Manager64.ConfirmAsked "你確定要刪除嗎？"]) /\
                  (true && negb b = false ->
                   Manager64.state m'
                   = B64.updateItemQuantity (Manager64.state m) productId q /\
                   Manager64.store m'
                   = savedStore pf (Manager64.store m) (Manager64.state m') /\
                   Manager64.log m'
                   = Manager64.log m
                     ++ [Manager64.ConfirmAsked "你確定要刪除嗎？"]
                     ++ [rendering (Manager64.state m')])) as Hgo.
      { intros [|]; simpl.
        - rewrite updateQuantity64_result. eexists. split; [reflexivity|].
          simpl. split; [done|]. intros _. split; [done|]. split; [done|].
          by rewrite <- app_assoc.
        - eexists. split; [reflexivity|]. simpl. split; [done|]. done. }
      destruct go as [| |b|n|str|elems|props].
      * apply (Hgo true).
      * apply (Hgo false).
      * apply (Hgo b).
      * apply (Hgo (truthy (Num n))).
      * apply (Hgo (truthy (Str str))).
      * apply (Hgo true).
      * apply (Hgo true).
    + simpl. rewrite updateQuantity64_result. eexists.
      split; [reflexivity|]. simpl.
      split; [done|]. intros _. split; [done|]. split; [done|].
      by rewrite <- app_assoc.
  - rewrite updateQuantity64_result. eexists. split; [reflexivity|]. simpl.
    split; [done|]. intros _. by repeat split.
Qed.

(** The shape of every call: either the confirmation was turned down and
    only the question was logged, or the engine transition was applied,
    saved and rendered, with at most a question before and a notification
    after. *)
Lemma call64_shape (pf : Platform) (m : Manager64.t) (c : Manager64.Call) :
  Manager64.call pf m c
  = Ok (Manager64.mk (Manager64.state m) (Manager64.store m)
          (Manager64.log m ++ [Manager64.ConfirmAsked "你確定要刪除嗎？"])) \/
  (exists pre notes,
     let s' := B64.step (Manager64.state m) (opOf c) in
     Manager64.call pf m c
     = Ok (Manager64.mk s' (savedStore pf (Manager64.store m) s')
             (Manager64.log m ++ pre ++ rendering s' :: notes)) /\
     forallb (fun e => negb (isRendered e)) pre = true /\
     forallb (fun e => negb (isRendered e)) notes = true).
Proof.
  destruct c as [p|productId|productId q|]; simpl.
  - right.
    exists [], [Manager64.Notified (B64.Product.name p ++ " 已添加到購物車")].
    split; [|done]. unfold Manager64.addItem.
    rewrite saveState64_result. manager64_simpl.
  - right. unfold Manager64.removeItem. rewrite saveState64_result.
    destruct (B64.findCartItemById _ productId).
    + exists [], [Manager64.Notified "商品已從購物車移除"].
      split; [manager64_simpl | done].
    + exists [], []. split; [manager64_simpl | done].
  - destruct (changeQuantity64_result pf m productId q)
      as (m' & Hcall & Hstop & Hgo).
    rewrite Hcall.
    destruct (Manager64.guarded _ q && Sync.declines pf) eqn:Hcase.
    + left. destruct (Hstop eq_refl) as (Hs & Hst & Hl).
      destruct m' as [s' st' l']. simpl in *. by subst.
    + right. destruct (Hgo eq_refl) as (Hs & Hst & Hl).
      destruct m' as [s' st' l']. simpl in *. subst.
      exists (if Manager64.guarded
                   (B64.findCartItemById (B64.items (Manager64.state m))
                      productId) q && Sync.canAsk pf
              then [Manager64.ConfirmAsked "你確定要刪除嗎？"] else []), [].
      split; [done|]. split; [|done].
      by destruct (Manager64.guarded _ q && Sync.canAsk pf).
  - right. exists [], [Manager64.Notified "購物車已清空"]. split; [|done].
    unfold Manager64.clear. rewrite saveState64_result. manager64_simpl.
Qed.

Lemma call64_total (pf : Platform) (m : Manager64.t) (c : Manager64.Call) :
  exists m', Manager64.call pf m c = Ok m'.
Proof.
  destruct (call64_shape pf m c) as [H|(? & ? & H & _)]; eauto.
Qed.

Lemma call64_cartInvariant (pf : Platform) (m m' : Manager64.t)
  (c : Manager64.Call) :
  B64.cartInvariant (Manager64.state m) -> B64.keepsInvariant (opOf c) ->
  Manager64.call pf m c = Ok m' ->
  B64.cartInvariant (Manager64.state m').
Proof.
  intros Hinv Hop Hcall.
  destruct (call64_shape pf m c) as [H|(? & ? & H & _)];
    rewrite H in Hcall; injection Hcall as <-; simpl; [done|].
  by apply step64_cartInvariant.
Qed.

Lemma call64_displaySynced (pf : Platform) (m m' : Manager64.t)
  (c : Manager64.Call) :
  displaySynced m -> Manager64.call pf m c = Ok m' -> displaySynced m'.
Proof.
  unfold displaySynced. intros Hd Hcall.
  destruct (call64_shape pf m c)
    as [H|(pre & notes & H & Hpre & Hnotes)];
    rewrite H in Hcall; injection Hcall as <-; simpl.
  - by rewrite lastRendered64_app.
  - rewrite !lastRendered64_app. unfold lastRendered at 1. simpl.
    rewrite lastRendered64_acc, (lastRendered64_none notes Hnotes).
    reflexivity.
Qed.

Lemma savedStore64_reliable (pf : Platform) (st : Store) (s : B64.CartState) :
  Sync.reliable pf ->
  exists text,
    JSON_stringify pf (itemsValue s) = Ok text /\
    store_get (savedStore pf st s) STORAGE_KEYS.CART = Some text.
Proof.
  intros [Hs He]. destruct (Hs (itemsValue s)) as [text Htext].
  exists text. split; [done|]. unfold savedStore. rewrite Htext, He.
  reflexivity.
Qed.

Lemma call64_storeSynced (pf : Platform) (m m' : Manager64.t)
  (c : Manager64.Call) :
  Sync.reliable pf -> storeSynced pf m -> Manager64.call pf m c = Ok m' ->
  storeSynced pf m'.
Proof.
  unfold storeSynced. intros Hrel Hs Hcall.
  destruct (call64_shape pf m c) as [H|(? & ? & H & _)];
    rewrite H in Hcall; injection Hcall as <-; simpl; [done|].
  by apply savedStore64_reliable.
Qed.

(** X16. On a platform where serialising and storing never raise, no
    sequence of calls of the public API (add, remove, change quantity to
    any number, clear) raises, and if the manager starts with the page and
    the store showing its state, then after the sequence the page was last
    asked to render the final state and the store holds the serialisation
    of the final state.  The final state satisfies the cart invariant when
    the first one does and every quantity change asks for a quantity that is
    at most 0 or at least 1; a change to 0.5 is stored and breaks it. *)
Theorem manager64_stays_synced (pf : Platform) (m : Manager64.t)
  (cs : list Manager64.Call)
  (Hreliable : Sync.reliable pf)
  (Hdisplay : displaySynced m)
  (Hstore : storeSynced pf m) :
  (exists m' : Manager64.t,
     Manager64.calls pf m cs = Ok m' /\
     displaySynced m' /\
     storeSynced pf m' /\
     (B64.cartInvariant (Manager64.state m) ->
      Forall (fun c => B64.keepsInvariant (opOf c)) cs ->
      B64.cartInvariant (Manager64.state m'))) /\
  (exists broken : Manager64.t,
     Manager64.calls pf (managerOf Samples64.twoItemCart "[]")
       [Manager64.CallChange "2" Samples64.half] = Ok broken /\
     B64.cartInvariant (Manager64.state (managerOf Samples64.twoItemCart "[]")) /\
     ~ B64.cartInvariant (Manager64.state broken)).
Proof.
  split.
  - revert m Hdisplay Hstore.
    induction cs as [|c cs IH]; intros m Hd Hs.
    + exists m. split; [reflexivity|]. split; [exact Hd|].
      split; [exact Hs|]. by intros Hinv _.
    + simpl. destruct (call64_total pf m c) as [m1 Hcall]. rewrite Hcall.
      simpl.
      destruct (IH m1 (call64_displaySynced pf m m1 c Hd Hcall)
                  (call64_storeSynced pf m m1 c Hreliable Hs Hcall))
        as (m' & Hcalls & Hd' & Hs' & Hinv').
      exists m'. split; [done|]. split; [done|]. split; [done|].
      intros Hinv Hops. apply Forall_cons in Hops as [Hop Hops].
      apply Hinv'; [|done]. by apply (call64_cartInvariant pf m m1 c).
  - destruct (changeQuantity64_result pf (managerOf Samples64.twoItemCart "[]") "2" Samples64.half)
      as (broken & Hcall & _ & Hgo).
    destruct (Hgo eq_refl) as (Hstate & _ & _).
    exists broken. cbn [Manager64.calls Manager64.call]. rewrite Hcall.
    split; [reflexivity|]. split.
    + split; [|apply twoItemCart64_distinct].
      repeat constructor.
    + rewrite Hstate. intros [Hq _]. apply Forall_cons in Hq as [_ Hq].
      apply Forall_cons in Hq as [Hq _]. vm_compute in Hq. discriminate Hq.
Qed.

Lemma freshManager64_storeSynced (text : string) (saved : value)
  (w : Window) :
  storeSynced (Sync.platformFor text saved w) (freshManager text).
Proof. exists text. split; reflexivity. Defined.

Lemma manager64_stays_synced_witness :
  exists m' : Manager64.t,
    Manager64.calls
      (Sync.platformFor "[]" (Arr []) (WindowConfirm (Ok (Bool false))))
      (freshManager "[]")
      [Manager64.CallAdd Samples64.iphone; Manager64.CallChange "1" (Binary64.ofZ 0);
       Manager64.CallChange "1" Samples64.half; Manager64.CallRemove "9"]
    = Ok m' /\
    displaySynced m' /\
    storeSynced
      (Sync.platformFor "[]" (Arr []) (WindowConfirm (Ok (Bool false)))) m'.
Proof.
  destruct (manager64_stays_synced
              (Sync.platformFor "[]" (Arr [])
                 (WindowConfirm (Ok (Bool false))))
              (freshManager "[]")
              [Manager64.CallAdd Samples64.iphone;
               Manager64.CallChange "1" (Binary64.ofZ 0);
               Manager64.CallChange "1" Samples64.half; Manager64.CallRemove "9"]
              (platformFor_reliable "[]" (Arr [])
                 (WindowConfirm (Ok (Bool false))))
              eq_refl
              (freshManager64_storeSynced "[]" (Arr [])
                 (WindowConfirm (Ok (Bool false)))))
    as [(m' & Hcalls & Hd & Hs & _) _].
  exists m'. split; [exact Hcalls|]. split; [exact Hd|exact Hs].
Defined.




(** Beyond the integers a binary64 number holds the buttons stop counting
    in ones: minus on [2^53 + 2] asks for [2^53]. *)
Example minusButton_beyond_safe_integers :
  Binary64.sub (Binary64.ofZ (2 ^ 53 + 2)) Binary64.one = Binary64.ofZ (2 ^ 53)
  /\ Binary64.add (Binary64.ofZ (2 ^ 53)) Binary64.one = Binary64.ofZ (2 ^ 53).
Proof. split; reflexivity. Qed.

End Manager64Facts.
